(** * noise_synthea_notes.py: the note-rewrite pipeline, embedded and verified

    The development follows the source file top to bottom:
    - [Codec]: the text codec used by [rewrite_base64_note]
      (Python's [base64.b64decode]/[b64encode] over UTF-8 bytes);
    - [Json]: the values produced by [json.load] and the Python operations
      the source applies to them ([in], [.get], [x[k]], iteration, truth);
    - [Pipeline]: [build_prompt], [call_openai], [rewrite_base64_note],
      [process_resource], [process_file] and [main], written in a small
      state-and-exception monad over an explicit world. *)

From Stdlib Require Import NArith ZArith QArith List Lia Bool.
From Stdlib.Floats Require Import SpecFloat.
From Stdlib.Strings Require Import String Ascii Byte.
From stdpp Require Import base option list gmap.

Set Warnings "-register-all".

Local Open Scope N_scope.

(** Python [str]: a sequence of code points; Python [bytes]: a sequence of
    bytes. *)
Abbreviation text := (list N).
Abbreviation bytes := (list byte).

(** A Rocq string literal read as a Python [str] of ASCII characters. *)
Definition str (s : string) : text :=
  List.map N_of_ascii (list_ascii_of_string s).
Arguments str : simpl never.

(** The byte holding [n mod 256] (a C store into an [unsigned char]). *)
Definition N2byte (n : N) : byte :=
  match Byte.of_N (n mod 256) with
  | Some b => b
  | None => x00
  end.

Module Codec.

(** ** Base64 (binascii.b2a_base64 / a2b_base64, non-strict mode) *)

Definition BASE64_PAD : byte := x3d.

Definition table_b2a_base64 : list byte :=
  List.map byte_of_ascii (list_ascii_of_string
    "ABCDEFGHIJKLMNOPQRSTUVWXYZabcdefghijklmnopqrstuvwxyz0123456789+/").

Definition b2a (n : N) : byte :=
  nth (N.to_nat n) table_b2a_base64 BASE64_PAD.

Fixpoint index_of (c : byte) (tbl : list byte) (i : N) : option N :=
  match tbl with
  | [] => None
  | x :: tbl' => if Byte.eqb c x then Some i else index_of c tbl' (N.succ i)
  end.

(** [table_a2b_base64[c]], with [None] for the entries that are [>= 64]. *)
Definition a2b (c : byte) : option N := index_of c table_b2a_base64 0.

(** [base64.b64encode(s)]: three bytes become four alphabet characters; a
    final group of one or two bytes is padded with [=]. *)
Fixpoint b64encode (bs : bytes) : bytes :=
  match bs with
  | [] => []
  | [b0] =>
      let n0 := Byte.to_N b0 in
      [b2a (N.shiftr n0 2); b2a (N.shiftl (N.land n0 3) 4);
       BASE64_PAD; BASE64_PAD]
  | [b0; b1] =>
      let n0 := Byte.to_N b0 in
      let n1 := Byte.to_N b1 in
      [b2a (N.shiftr n0 2);
       b2a (N.lor (N.shiftl (N.land n0 3) 4) (N.shiftr n1 4));
       b2a (N.shiftl (N.land n1 15) 2); BASE64_PAD]
  | b0 :: b1 :: b2 :: rest =>
      let n0 := Byte.to_N b0 in
      let n1 := Byte.to_N b1 in
      let n2 := Byte.to_N b2 in
      b2a (N.shiftr n0 2)
      :: b2a (N.lor (N.shiftl (N.land n0 3) 4) (N.shiftr n1 4))
      :: b2a (N.lor (N.shiftl (N.land n1 15) 2) (N.shiftr n2 6))
      :: b2a (N.land n2 63)
      :: b64encode rest
  end.

(** The decoder's loop state in [binascii.a2b_base64]. *)
Record a2b_state := mk_a2b {
  quad_pos : N;
  leftchar : N;
  pads : N;
  bin_data : bytes
}.

(** One pass of the decoder over the input.  A [=] met when at least two
    characters of the quad were read, and completing the quad, ends the
    decoding; other [=] and every character outside the alphabet are
    skipped.  [None] is [binascii.Error]. *)
Fixpoint a2b_loop (ascii_data : bytes) (st : a2b_state) : option bytes :=
  match ascii_data with
  | [] => if quad_pos st =? 0 then Some (bin_data st) else None
  | this_ch :: ascii_data' =>
      if Byte.eqb this_ch BASE64_PAD then
        if (2 <=? quad_pos st) && (4 <=? quad_pos st + (pads st + 1))
        then Some (bin_data st)
        else if 2 <=? quad_pos st
        then a2b_loop ascii_data'
               (mk_a2b (quad_pos st) (leftchar st) (pads st + 1) (bin_data st))
        else a2b_loop ascii_data' st
      else
        match a2b this_ch with
        | None => a2b_loop ascii_data' st
        | Some v =>
            match quad_pos st with
            | 0 => a2b_loop ascii_data' (mk_a2b 1 v 0 (bin_data st))
            | 1 => a2b_loop ascii_data'
                     (mk_a2b 2 (N.land v 15) 0
                        (bin_data st ++
                         [N2byte (N.lor (N.shiftl (leftchar st) 2) (N.shiftr v 4))]))
            | 2 => a2b_loop ascii_data'
                     (mk_a2b 3 (N.land v 3) 0
                        (bin_data st ++
                         [N2byte (N.lor (N.shiftl (leftchar st) 4) (N.shiftr v 2))]))
            | _ => a2b_loop ascii_data'
                     (mk_a2b 0 0 0
                        (bin_data st ++
                         [N2byte (N.lor (N.shiftl (leftchar st) 6) v)]))
            end
        end
  end.

Definition a2b_base64 (ascii_data : bytes) : option bytes :=
  a2b_loop ascii_data (mk_a2b 0 0 0 []).

(** ** UTF-8 ([str.encode("utf-8")] / [bytes.decode("utf-8")], strict) *)

(** One code point.  [None] is [UnicodeEncodeError]: a surrogate cannot be
    encoded (and nothing above U+10FFFF is a code point). *)
Definition utf8_encode_char (ch : N) : option bytes :=
  if ch <? 0x80 then Some [N2byte ch]
  else if ch <? 0x800 then
    Some [N2byte (N.lor 0xc0 (N.shiftr ch 6));
          N2byte (N.lor 0x80 (N.land ch 0x3f))]
  else if ch <? 0x10000 then
    if (0xD800 <=? ch) && (ch <=? 0xDFFF) then None
    else
      Some [N2byte (N.lor 0xe0 (N.shiftr ch 12));
            N2byte (N.lor 0x80 (N.land (N.shiftr ch 6) 0x3f));
            N2byte (N.lor 0x80 (N.land ch 0x3f))]
  else if ch <=? 0x10FFFF then
    Some [N2byte (N.lor 0xf0 (N.shiftr ch 18));
          N2byte (N.lor 0x80 (N.land (N.shiftr ch 12) 0x3f));
          N2byte (N.lor 0x80 (N.land (N.shiftr ch 6) 0x3f));
          N2byte (N.lor 0x80 (N.land ch 0x3f))]
  else None.

Fixpoint utf8_encode (t : text) : option bytes :=
  match t with
  | [] => Some []
  | ch :: t' =>
      match utf8_encode_char ch, utf8_encode t' with
      | Some bs, Some bs' => Some (bs ++ bs')
      | _, _ => None
      end
  end.

(** A continuation byte, [10xxxxxx], within the bounds [lo..hi] that the
    lead byte allows for it. *)
Definition cont_in (lo hi : N) (b : byte) : bool :=
  (lo <=? Byte.to_N b) && (Byte.to_N b <=? hi).

Definition cont_bits (b : byte) : N := N.land (Byte.to_N b) 0x3f.

(** Strict decoding: overlong forms, surrogates, values above U+10FFFF,
    stray continuation bytes and truncated sequences are all
    [UnicodeDecodeError] ([None]). *)
Fixpoint utf8_decode (bs : bytes) : option text :=
  match bs with
  | [] => Some []
  | b0 :: r0 =>
      let n0 := Byte.to_N b0 in
      if n0 <? 0x80 then
        match utf8_decode r0 with
        | Some t => Some (n0 :: t)
        | None => None
        end
      else if (0xC2 <=? n0) && (n0 <=? 0xDF) then
        match r0 with
        | b1 :: r1 =>
            if cont_in 0x80 0xBF b1 then
              match utf8_decode r1 with
              | Some t =>
                  Some (N.lor (N.shiftl (N.land n0 0x1f) 6) (cont_bits b1) :: t)
              | None => None
              end
            else None
        | _ => None
        end
      else if (0xE0 <=? n0) && (n0 <=? 0xEF) then
        match r0 with
        | b1 :: b2 :: r2 =>
            if cont_in (if n0 =? 0xE0 then 0xA0 else 0x80)
                       (if n0 =? 0xED then 0x9F else 0xBF) b1
               && cont_in 0x80 0xBF b2 then
              match utf8_decode r2 with
              | Some t =>
                  Some (N.lor (N.shiftl (N.land n0 0x0f) 12)
                          (N.lor (N.shiftl (cont_bits b1) 6) (cont_bits b2))
                        :: t)
              | None => None
              end
            else None
        | _ => None
        end
      else if (0xF0 <=? n0) && (n0 <=? 0xF4) then
        match r0 with
        | b1 :: b2 :: b3 :: r3 =>
            if cont_in (if n0 =? 0xF0 then 0x90 else 0x80)
                       (if n0 =? 0xF4 then 0x8F else 0xBF) b1
               && cont_in 0x80 0xBF b2 && cont_in 0x80 0xBF b3 then
              match utf8_decode r3 with
              | Some t =>
                  Some (N.lor (N.shiftl (N.land n0 0x07) 18)
                          (N.lor (N.shiftl (cont_bits b1) 12)
                             (N.lor (N.shiftl (cont_bits b2) 6) (cont_bits b3)))
                        :: t)
              | None => None
              end
            else None
        | _ => None
        end
      else None
  end.

(** Text that UTF-8 can represent: code points up to U+10FFFF that are not
    surrogates. *)
Definition scalar_value (ch : N) : bool :=
  (ch <=? 0x10FFFF) && negb ((0xD800 <=? ch) && (ch <=? 0xDFFF)).

Definition representable (t : text) : Prop :=
  Forall (fun ch => scalar_value ch = true) t.

(** [t.encode("utf-8")] returns: no [UnicodeEncodeError]. *)
Definition utf8_encodable (t : text) : bool :=
  match utf8_encode t with
  | Some _ => true
  | None => false
  end.

(** ** ASCII ([s.encode("ascii")] inside [b64decode], [.decode("ascii")]) *)

Fixpoint ascii_encode (t : text) : option bytes :=
  match t with
  | [] => Some []
  | ch :: t' =>
      if ch <? 0x80 then
        match ascii_encode t' with
        | Some bs => Some (N2byte ch :: bs)
        | None => None
        end
      else None
  end.

Fixpoint ascii_decode (bs : bytes) : option text :=
  match bs with
  | [] => Some []
  | b :: bs' =>
      if Byte.to_N b <? 0x80 then
        match ascii_decode bs' with
        | Some t => Some (Byte.to_N b :: t)
        | None => None
        end
      else None
  end.

(** ** The codec of [rewrite_base64_note] on Python strings *)

(** [base64.b64decode(s).decode("utf-8")] for a [str] [s]. *)
Definition decode (token : text) : option text :=
  match ascii_encode token with
  | Some ascii_data =>
      match a2b_base64 ascii_data with
      | Some raw => utf8_decode raw
      | None => None
      end
  | None => None
  end.

(** [base64.b64encode(t.encode("utf-8")).decode("ascii")]. *)
Definition encode (t : text) : option text :=
  match utf8_encode t with
  | Some raw => ascii_decode (b64encode raw)
  | None => None
  end.

End Codec.

Module Json.

(** ** Values produced by [json.load]

    A [dict] is the list of its items in insertion order (the order
    [json.dump] writes them in); after [json.load] its keys are distinct. *)
Inductive json :=
| JNull
| JBool (b : bool)
| JInt (z : Z)
| JFloat (f : spec_float)
| JStr (s : text)
| JArr (items : list json)
| JObj (fields : list (text * json)).

(** Python exceptions the pipeline can run into. *)
Inductive exn :=
| TypeError
| AttributeError
| KeyError
| IndexError
| ValueError
| UnicodeEncodeError
| UnicodeDecodeError
| JSONDecodeError
| RecursionError
| RuntimeError.

Inductive result (A : Type) :=
| Ok (a : A)
| Raise (e : exn).
Arguments Ok {A} a.
Arguments Raise {A} e.

(** [d.get(k)] on the items of a dict. *)
Fixpoint dict_get (k : text) (fields : list (text * json)) : option json :=
  match fields with
  | [] => None
  | (k', v) :: fields' => if decide (k = k') then Some v else dict_get k fields'
  end.

(** [d[k] = v]: an existing key keeps its place, a new one goes last. *)
Fixpoint dict_set (k : text) (v : json) (fields : list (text * json))
  : list (text * json) :=
  match fields with
  | [] => [(k, v)]
  | (k', v') :: fields' =>
      if decide (k = k') then (k', v) :: fields'
      else (k', v') :: dict_set k v fields'
  end.

Fixpoint startswith (p s : text) : bool :=
  match p, s with
  | [], _ => true
  | a :: p', b :: s' => (a =? b) && startswith p' s'
  | _ :: _, [] => false
  end.

(** [p in s] for two strings: substring search. *)
Fixpoint str_contains (p s : text) : bool :=
  startswith p s ||
  match s with
  | [] => false
  | _ :: s' => str_contains p s'
  end.

(** [x == k] for a string [k]. *)
Definition eq_str (k : text) (x : json) : bool :=
  match x with
  | JStr s => bool_decide (s = k)
  | _ => false
  end.

(** [k in v] for a string [k]. *)
Definition py_contains (k : text) (v : json) : result bool :=
  match v with
  | JObj fields => Ok (bool_decide (is_Some (dict_get k fields)))
  | JArr items => Ok (existsb (eq_str k) items)
  | JStr s => Ok (str_contains k s)
  | _ => Raise TypeError
  end.

(** [v.get(k, default)]: only a dict has the method. *)
Definition py_get (k : text) (v default : json) : result json :=
  match v with
  | JObj fields =>
      Ok (match dict_get k fields with Some x => x | None => default end)
  | _ => Raise AttributeError
  end.

(** [v[k]] for a string [k]. *)
Definition py_getitem (k : text) (v : json) : result json :=
  match v with
  | JObj fields =>
      match dict_get k fields with
      | Some x => Ok x
      | None => Raise KeyError
      end
  | _ => Raise TypeError
  end.

(** [v[k] = x] for a string [k]. *)
Definition py_setitem (k : text) (x v : json) : result json :=
  match v with
  | JObj fields => Ok (JObj (dict_set k x fields))
  | _ => Raise TypeError
  end.

(** The values a [for] loop over [v] visits: the elements of a list, the
    keys of a dict, the characters of a string. *)
Definition py_iter (v : json) : result (list json) :=
  match v with
  | JArr items => Ok items
  | JObj fields => Ok (List.map (fun kv => JStr (fst kv)) fields)
  | JStr s => Ok (List.map (fun c => JStr [c]) s)
  | _ => Raise TypeError
  end.

(** What the container holds after a loop that mutated the visited values
    in place: list elements are the objects themselves; the keys of a dict
    and the characters of a string are immutable strings. *)
Definition py_iter_store (v : json) (items' : list json) : json :=
  match v with
  | JArr _ => JArr items'
  | _ => v
  end.

(** [if v:] *)
Definition py_truthy (v : json) : bool :=
  match v with
  | JNull => false
  | JBool b => b
  | JInt z => negb (Z.eqb z 0)
  | JFloat (S754_zero _) => false
  | JFloat _ => true
  | JStr s => negb (bool_decide (s = []))
  | JArr items => negb (bool_decide (items = []))
  | JObj fields => negb (bool_decide (fields = []))
  end.

(** ** [json.dump(data, f, indent=2, ensure_ascii=False)]

    With [ensure_ascii=False] the strings of the document, keys and values,
    are written as they are, and the file they are written to encodes them
    as UTF-8: the dump goes through exactly when every string of the
    document can be encoded.  Numbers, [true], [false] and [null] are
    written in ASCII. *)
Fixpoint dumpable (data : json) : bool :=
  match data with
  | JStr s => Codec.utf8_encodable s
  | JArr items => forallb dumpable items
  | JObj fields =>
      forallb (fun kv => match kv with
                         | (k, v) => Codec.utf8_encodable k && dumpable v
                         end) fields
  | _ => true
  end.

(** ** The frame of the rewrite

    [mask_data] blanks the value of every [presentedForm[*].data] field of
    the resources of a document; two documents with the same mask differ at
    most in those values. *)
Definition on_key (k : text) (f : json -> json) (v : json) : json :=
  match v with
  | JObj fields =>
      JObj (List.map (fun kv => if decide (fst kv = k)
                                then (fst kv, f (snd kv)) else kv) fields)
  | _ => v
  end.

Definition on_items (f : json -> json) (v : json) : json :=
  match v with
  | JArr items => JArr (List.map f items)
  | _ => v
  end.

Definition mask_pf : json -> json := on_key (str "data") (fun _ => JNull).

Definition mask_resource : json -> json :=
  on_key (str "presentedForm") (on_items mask_pf).

Definition mask_entry : json -> json := on_key (str "resource") mask_resource.

Definition mask_data : json -> json :=
  on_key (str "entry") (on_items mask_entry).

End Json.

Module Pipeline.
Import Json.

(** ** The world the script runs in

    The generation service and [random] are oracles indexed by the number of
    calls made so far; the log file, the output directory, the clock and the
    per-document summaries printed by [process_file] are state.  The log
    and the output files are text files opened with [encoding="utf-8"]:
    writing a string that UTF-8 cannot encode (one with a lone surrogate)
    raises [UnicodeEncodeError], and what was written before it stays in
    the file.  Errors of the operating system (a full disk, a directory
    that cannot be made) and the limits of the interpreter (memory,
    recursion depth) are not modelled, and neither is what [print] does
    with a string the terminal cannot show. *)

Inductive svc_outcome :=
| SvcRaises
| SvcText (output_text : text).

(** What a file of the output directory holds once [process_file] has
    opened it for writing: the whole serialisation of a document, or, when
    [json.dump] raised on the way, only the beginning of it. *)
Inductive out_file :=
| Whole (data : json)
| Cut (data : json).

Record world := mk_world {
  svc_calls : nat;
  rand_draws : nat;
  log_file : text;
  slept : list Q;
  out_files : gmap text out_file;
  summaries : list (text * nat)
}.

(** An input file found by [in_dir.glob("*.json")]: its [path.name], what
    [json.load] makes of it ([None]: it raises), and the exception it
    raises then ([JSONDecodeError] for text that is not JSON,
    [UnicodeDecodeError] for bytes that are not UTF-8, [ValueError] for an
    integer with too many digits, [RecursionError] for a document nested
    too deep). *)
Record file := mk_file {
  file_name : text;
  file_json : option json;
  load_error : exn
}.

Definition M (A : Type) : Type := world -> result A * world.

Definition ret {A} (a : A) : M A := fun w => (Ok a, w).

Definition raise {A} (e : exn) : M A := fun w => (Raise e, w).

Definition bind {A B} (m : M A) (k : A -> M B) : M B :=
  fun w =>
    match m w with
    | (Ok a, w') => k a w'
    | (Raise e, w') => (Raise e, w')
    end.

Definition lift {A} (r : result A) : M A := fun w => (r, w).

(** A computation that leaves the output directory and the printed
    summaries as they are, however it ends. *)
Definition files_kept {A} (m : M A) : Prop :=
  forall w r w', m w = (r, w') ->
    out_files w' = out_files w /\ summaries w' = summaries w.

Notation "'let*' x ':=' m 'in' k" := (bind m (fun x => k))
  (at level 10, x name, m at level 100, k at level 200).

(** ** Constants of the script *)

Definition DELAY : Q := 35 # 100.
Definition RETRY_DELAYS : list Z := [1; 2; 5; 10]%Z.

Definition CLINICIAN_STYLES : list text :=
  [ str "Short, blunt clinician with lots of abbreviations and light typos.";
    str "Verbose clinician who repeats details and rambles a bit.";
    str "Dictation-style note with odd punctuation and run-on sentences.";
    str "Nursing-style succinct bullet-like lines with minimal punctuation.";
    str "Uncertain clinician who uses phrases like 'likely', '?viral', and mid-sentence restarts." ].

Definition nl : text := [10].

Definition build_prompt (original_text profile : text) : text :=
  nl ++ str "Rewrite the clinical note below to sound more human and imperfect, while keeping all medical facts." ++ nl
  ++ str "Use the style described here: " ++ profile ++ nl
  ++ str "Introduce mild typos, shorthand, pauses, and messy structure, but do NOT change diagnoses, medications, or objective facts. Only use ASCII characters." ++ nl
  ++ nl
  ++ str "Original note:" ++ nl
  ++ str "** start **" ++ nl
  ++ original_text ++ nl
  ++ str "** end **" ++ nl
  ++ nl
  ++ str "Return only the rewritten note." ++ nl.

(** ** [str.strip()] *)

(** [str.isspace] on one character. *)
Definition isspace (c : N) : bool :=
  ((0x09 <=? c) && (c <=? 0x0D)) || ((0x1C <=? c) && (c <=? 0x20))
  || (c =? 0x85) || (c =? 0xA0) || (c =? 0x1680)
  || ((0x2000 <=? c) && (c <=? 0x200A))
  || (c =? 0x2028) || (c =? 0x2029) || (c =? 0x202F) || (c =? 0x205F)
  || (c =? 0x3000).

Fixpoint lstrip (s : text) : text :=
  match s with
  | [] => []
  | c :: s' => if isspace c then lstrip s' else s
  end.

Definition rstrip (s : text) : text := rev (lstrip (rev s)).

Definition strip (s : text) : text := rstrip (lstrip s).

(** ** [call_openai] *)

(** The block that [LOG_FILE] holds for an accepted response. *)
Definition audit_record (prompt rewritten : text) : text :=
  (nl ++ repeat 61 80%nat ++ nl)
  ++ (str "PROMPT:" ++ nl)
  ++ (prompt ++ nl)
  ++ (repeat 45 80%nat ++ nl)
  ++ (str "OUTPUT:" ++ nl)
  ++ (rewritten ++ nl)
  ++ (repeat 61 80%nat ++ nl).

(** [time.sleep(d)] *)
Definition sleep (d : Q) : M unit :=
  fun w =>
    if Qle_bool 0 d then
      (Ok tt, mk_world (svc_calls w) (rand_draws w) (log_file w)
                (slept w ++ [d]) (out_files w) (summaries w))
    else (Raise ValueError, w).

Section WithOracles.

Variable service : nat -> text -> svc_outcome.
Variable random_index : nat -> nat.

(** [client.responses.create(...)]: the next answer of the service. *)
Definition responses_create (prompt : text) : world -> svc_outcome * world :=
  fun w =>
    (service (svc_calls w) prompt,
     mk_world (S (svc_calls w)) (rand_draws w) (log_file w) (slept w)
       (out_files w) (summaries w)).

Definition log_append (block : text) : world -> world :=
  fun w =>
    mk_world (svc_calls w) (rand_draws w) (log_file w ++ block) (slept w)
      (out_files w) (summaries w).

(** [log_f.write(s)]: the string is encoded when it is written, and a
    string that cannot be encoded leaves the file as the writes before it
    made it. *)
Definition log_write (s : text) : M unit :=
  fun w =>
    if Codec.utf8_encodable s then (Ok tt, log_append s w)
    else (Raise UnicodeEncodeError, w).

(** The [with open(LOG_FILE, "a", encoding="utf-8")] block: seven writes. *)
Definition log_block (prompt rewritten : text) : M unit :=
  let* _ := log_write (nl ++ repeat 61 80%nat ++ nl) in
  let* _ := log_write (str "PROMPT:" ++ nl) in
  let* _ := log_write (prompt ++ nl) in
  let* _ := log_write (repeat 45 80%nat ++ nl) in
  let* _ := log_write (str "OUTPUT:" ++ nl) in
  let* _ := log_write (rewritten ++ nl) in
  log_write (repeat 61 80%nat ++ nl).

(** The body of the [try] in the retry loop: [Some rewritten] when the
    [return] is reached, [None] when an exception reached the [except]
    (raised by the service, by the length check or by a write to the
    log). *)
Definition attempt (prompt : text) : world -> option text * world :=
  fun w =>
    match responses_create prompt w with
    | (SvcRaises, w') => (None, w')
    | (SvcText output_text, w') =>
        let rewritten := strip output_text in
        if (length rewritten <=? 5)%nat then (None, w')
        else
          match log_block prompt rewritten w' with
          | (Ok _, w'') => (Some rewritten, w'')
          | (Raise _, w'') => (None, w'')
          end
    end.

(** A service answer that an attempt does not accept: a transport error,
    or text whose stripped length is at most 5. *)
Definition rejected (o : svc_outcome) : bool :=
  match o with
  | SvcRaises => true
  | SvcText output_text => (length (strip output_text) <=? 5)%nat
  end.

(** [for i, delay in enumerate(delays)] of [call_openai], and the
    [raise RuntimeError] that follows the loop. *)
Fixpoint call_openai_for (delays : list Z) (prompt : text) : M text :=
  match delays with
  | [] => raise RuntimeError
  | delay :: delays' =>
      let* _ := (if (delay =? 0)%Z then ret tt else sleep (inject_Z delay)) in
      fun w =>
        match attempt prompt w with
        | (Some rewritten, w') => (Ok rewritten, w')
        | (None, w') => call_openai_for delays' prompt w'
        end
  end.

(** [call_openai] over a backoff schedule. *)
Definition call_openai_with (retry_delays : list Z) (prompt : text) : M text :=
  call_openai_for (0%Z :: retry_delays) prompt.

Definition call_openai (prompt : text) : M text :=
  call_openai_with RETRY_DELAYS prompt.

(** ** [rewrite_base64_note] *)

(** [random.choice(seq)] *)
Definition random_choice (seq : list text) : M text :=
  fun w =>
    match seq with
    | [] => (Raise IndexError, w)
    | x :: _ =>
        (Ok (nth (random_index (rand_draws w) mod length seq) seq x),
         mk_world (svc_calls w) (S (rand_draws w)) (log_file w) (slept w)
           (out_files w) (summaries w))
    end.

(** [base64.b64decode(b64_text).decode("utf-8")]; [None] is any of the
    exceptions the [except Exception] catches (a value that is not a string
    is a [TypeError]). *)
Definition b64decode_utf8 (b64_text : json) : option text :=
  match b64_text with
  | JStr s => Codec.decode s
  | _ => None
  end.

Definition rewrite_base64_note (b64_text : json) : M json :=
  match b64decode_utf8 b64_text with
  | None => ret b64_text
  | Some decoded =>
      let* style := random_choice CLINICIAN_STYLES in
      let prompt := build_prompt decoded style in
      let* new_text := call_openai prompt in
      match Codec.encode new_text with
      | Some token => ret (JStr token)
      | None => raise UnicodeEncodeError
      end
  end.

(** ** [process_resource] *)

(** The body of [for pf in pf_list]. *)
Definition process_pf (pf : json) (count : nat) : M (json * nat) :=
  let* has_data := lift (py_contains (str "data") pf) in
  if has_data : bool then
    let* original := lift (py_getitem (str "data") pf) in
    let* rewritten := rewrite_base64_note original in
    let* pf' := lift (py_setitem (str "data") rewritten pf) in
    ret (pf', S count)
  else ret (pf, count).

Fixpoint process_resource_for (pf_list : list json) (count : nat)
  : M (list json * nat) :=
  match pf_list with
  | [] => ret ([], count)
  | pf :: pf_list' =>
      let* r := process_pf pf count in
      let* r' := process_resource_for pf_list' (snd r) in
      ret (fst r :: fst r', snd r')
  end.

(** [process_resource] returns its count; the resource it mutated in place
    is returned with it. *)
Definition process_resource (resource : json) : M (json * nat) :=
  let* has_pf := lift (py_contains (str "presentedForm") resource) in
  if negb has_pf then ret (resource, 0%nat)
  else
    let* pf_list := lift (py_get (str "presentedForm") resource (JArr [])) in
    let* pfs := lift (py_iter pf_list) in
    let* r := process_resource_for pfs 0 in
    match resource with
    | JObj fields =>
        ret (JObj (dict_set (str "presentedForm")
                     (py_iter_store pf_list (fst r)) fields), snd r)
    | _ => ret (resource, snd r)
    end.

(** ** [process_file] *)

(** The body of [for entry in data["entry"]]. *)
Definition process_entry (entry : json) (rewritten_count : nat)
  : M (json * nat) :=
  let* resource := lift (py_get (str "resource") entry JNull) in
  if py_truthy resource then
    let* r := process_resource resource in
    match entry with
    | JObj fields =>
        ret (JObj (dict_set (str "resource") (fst r) fields),
             (rewritten_count + snd r)%nat)
    | _ => ret (entry, (rewritten_count + snd r)%nat)
    end
  else ret (entry, rewritten_count).

Fixpoint process_file_for (entries : list json) (rewritten_count : nat)
  : M (list json * nat) :=
  match entries with
  | [] => ret ([], rewritten_count)
  | entry :: entries' =>
      let* r := process_entry entry rewritten_count in
      let* r' := process_file_for entries' (snd r) in
      ret (fst r :: fst r', snd r')
  end.

(** Lines 117 to 126 of [process_file]: the loaded document after the
    in-place rewrites, and [rewritten_count]. *)
Definition process_data (data : json) : M (json * nat) :=
  let* has_entry := lift (py_contains (str "entry") data) in
  if has_entry : bool then
    let* entry_list := lift (py_getitem (str "entry") data) in
    let* entries := lift (py_iter entry_list) in
    let* r := process_file_for entries 0 in
    match data with
    | JObj fields =>
        ret (JObj (dict_set (str "entry")
                     (py_iter_store entry_list (fst r)) fields), snd r)
    | _ => ret (data, snd r)
    end
  else ret (data, 0%nat).

Definition json_load (f : file) : M json :=
  match file_json f with
  | Some data => ret data
  | None => raise (load_error f)
  end.

(** [open(out_path, "w", encoding="utf-8")] and [json.dump(data, f, ...)]
    into it, then the summary line.  The file is made, or emptied, when it
    is opened; a dump that raises leaves it cut short, and the summary is
    not printed. *)
Definition write_output (name : text) (data : json) (rewritten_count : nat)
  : M unit :=
  fun w =>
    if dumpable data then
      (Ok tt,
       mk_world (svc_calls w) (rand_draws w) (log_file w) (slept w)
         (<[name := Whole data]> (out_files w))
         (summaries w ++ [(name, rewritten_count)]))
    else
      (Raise UnicodeEncodeError,
       mk_world (svc_calls w) (rand_draws w) (log_file w) (slept w)
         (<[name := Cut data]> (out_files w)) (summaries w)).

Definition process_file (f : file) : M unit :=
  let* data := json_load f in
  let* r := process_data data in
  write_output (file_name f) (fst r) (snd r).

(** ** [main]: the loop over the globbed files *)

Fixpoint main (files : list file) : M unit :=
  match files with
  | [] => ret tt
  | f :: files' =>
      let* _ := process_file f in
      let* _ := sleep DELAY in
      main files'
  end.

End WithOracles.

End Pipeline.

Module Observations.
Import Json Pipeline.

(** ["data" in pf] holds: the loop of [process_resource] takes the branch
    that rewrites and counts. *)
Definition has_data (pf : json) : bool :=
  match py_contains (str "data") pf with
  | Ok true => true
  | _ => false
  end.

(** What the log holds of a block whose third write, the prompt, raised;
    and of one whose sixth write, the answer, raised. *)
Definition cut_at_prompt : text :=
  (nl ++ repeat 61 80%nat ++ nl) ++ (str "PROMPT:" ++ nl).

Definition cut_at_output (prompt : text) : text :=
  cut_at_prompt ++ (prompt ++ nl) ++ (repeat 45 80%nat ++ nl)
  ++ (str "OUTPUT:" ++ nl).

(** A service answer that an attempt returns: text that is longer than 5
    once stripped, and a block that the log can take. *)
Definition accepted (prompt : text) (o : svc_outcome) : bool :=
  match o with
  | SvcRaises => false
  | SvcText output_text =>
      (5 <? length (strip output_text))%nat
      && Codec.utf8_encodable prompt
      && Codec.utf8_encodable (strip output_text)
  end.

(** What the attempt that gets the answer [o] leaves in the log. *)
Definition logged (prompt : text) (o : svc_outcome) : text :=
  match o with
  | SvcRaises => []
  | SvcText output_text =>
      if (length (strip output_text) <=? 5)%nat then []
      else if negb (Codec.utf8_encodable prompt) then cut_at_prompt
      else if negb (Codec.utf8_encodable (strip output_text))
           then cut_at_output prompt
      else audit_record prompt (strip output_text)
  end.

(** What the attempts [n], [n+1], ..., [n+k-1] leave in the log. *)
Definition logged_from (service : nat -> text -> svc_outcome)
    (prompt : text) (n k : nat) : text :=
  concat (List.map (fun i => logged prompt (service (n + i)%nat prompt))
            (seq 0 k)).

(** The world only moved forward: the counters of the oracles did not go
    back, and the log, the sleeps and the summaries were only appended
    to. *)
Definition advances (w w' : world) : Prop :=
  (svc_calls w <= svc_calls w')%nat /\
  (rand_draws w <= rand_draws w')%nat /\
  log_file w `prefix_of` log_file w' /\
  slept w `prefix_of` slept w' /\
  summaries w `prefix_of` summaries w'.

Definition forward {A} (m : M A) : Prop :=
  forall w r w', m w = (r, w') -> advances w w'.

(** The delays of a schedule that [call_openai] sleeps for: [if delay:]
    skips the zeros. *)
Definition sleeps_of (delays : list Z) : list Q :=
  List.map inject_Z (List.filter (fun d => negb (d =? 0)%Z) delays).

(** The characters the base64 decoder looks at: the alphabet and [=]. *)
Definition base64_char (c : byte) : bool :=
  Byte.eqb c Codec.BASE64_PAD ||
  match Codec.a2b c with Some _ => true | None => false end.

End Observations.

(** * Facts about the codec *)

Ltac Zify.zify_post_hook ::= Z.to_euclidean_division_equations.

Ltac pow_norm :=
  repeat match goal with
  | |- context [2 ^ ?k] =>
      let v := eval vm_compute in (2 ^ k) in change (2 ^ k) with v
  end.

Section Bits.

Lemma to_N_lt (b : byte) : Byte.to_N b < 256.
Proof. pose proof (Byte.to_N_bounded b). lia. Qed.

Lemma to_N_N2byte (n : N) : n < 256 -> Byte.to_N (N2byte n) = n.
Proof.
  intros Hn. unfold N2byte. rewrite N.mod_small by exact Hn.
  destruct (Byte.of_N n) as [b|] eqn:E.
  - now apply Byte.to_of_N.
  - apply Byte.of_N_None_iff in E. lia.
Qed.

Lemma N2byte_to_N (b : byte) : N2byte (Byte.to_N b) = b.
Proof.
  unfold N2byte. rewrite N.mod_small by apply to_N_lt.
  now rewrite Byte.of_to_N.
Qed.

Lemma lor_add (hi lo k : N) :
  hi mod 2 ^ k = 0 -> lo < 2 ^ k -> N.lor hi lo = hi + lo.
Proof.
  intros Hhi Hlo.
  assert (Hdisj : N.land hi lo = 0).
  { apply N.bits_inj. intros m. rewrite N.land_spec, N.bits_0.
    destruct (N.lt_ge_cases m k) as [Hm|Hm].
    - rewrite <- (N.mod_pow2_bits_low hi k m Hm), Hhi, N.bits_0. reflexivity.
    - rewrite <- (N.mod_small lo (2 ^ k) Hlo).
      rewrite (N.mod_pow2_bits_high lo k m Hm). apply andb_false_r. }
  rewrite (N.add_nocarry_lxor _ _ Hdisj). symmetry. now apply N.lxor_lor.
Qed.

Lemma land_3 (x : N) : N.land x 3 = x mod 4.
Proof. apply (N.land_ones x 2). Qed.

Lemma land_7 (x : N) : N.land x 7 = x mod 8.
Proof. apply (N.land_ones x 3). Qed.

Lemma land_15 (x : N) : N.land x 15 = x mod 16.
Proof. apply (N.land_ones x 4). Qed.

Lemma land_31 (x : N) : N.land x 31 = x mod 32.
Proof. apply (N.land_ones x 5). Qed.

Lemma land_63 (x : N) : N.land x 63 = x mod 64.
Proof. apply (N.land_ones x 6). Qed.

End Bits.

(** Turn shifts and masks by constants into division and remainder. *)
Ltac mask_norm :=
  rewrite ?land_3, ?land_7, ?land_15, ?land_31, ?land_63,
    ?N.shiftr_div_pow2, ?N.shiftl_mul_pow2;
  pow_norm.

(** Case analysis on every comparison of the goal, closing the branches
    that arithmetic excludes. *)
Ltac decide_cmp :=
  repeat (cbn [andb orb negb];
    match goal with
    | |- context [?a =? ?b] => destruct (N.eqb_spec a b); try lia
    | |- context [?a <? ?b] => destruct (N.ltb_spec a b); try lia
    | |- context [?a <=? ?b] => destruct (N.leb_spec a b); try lia
    end);
  cbn [andb orb negb].

Section Base64Facts.
Import Codec.

Lemma a2b_b2a_nat (k : nat) :
  (k < 64)%nat -> a2b (b2a (N.of_nat k)) = Some (N.of_nat k).
Proof.
  intros Hk. do 64 (destruct k as [|k]; [vm_compute; reflexivity|]). lia.
Qed.

Lemma a2b_b2a (n : N) : n < 64 -> a2b (b2a n) = Some n.
Proof.
  intros Hn. rewrite <- (N2Nat.id n). apply a2b_b2a_nat. lia.
Qed.

Lemma b2a_not_pad (n : N) : n < 64 -> Byte.eqb (b2a n) BASE64_PAD = false.
Proof.
  intros Hn. unfold b2a.
  assert (Hk : (N.to_nat n < 64)%nat) by lia.
  revert Hk. generalize (N.to_nat n). intros k Hk.
  do 64 (destruct k as [|k]; [vm_compute; reflexivity|]). lia.
Qed.

(** What the decoder does with one alphabet character. *)
Lemma a2b_loop_sym (v : N) (rest : bytes) (st : a2b_state) :
  v < 64 ->
  a2b_loop (b2a v :: rest) st =
    match quad_pos st with
    | 0 => a2b_loop rest (mk_a2b 1 v 0 (bin_data st))
    | 1 => a2b_loop rest
             (mk_a2b 2 (N.land v 15) 0
                (bin_data st ++
                 [N2byte (N.lor (N.shiftl (leftchar st) 2) (N.shiftr v 4))]))
    | 2 => a2b_loop rest
             (mk_a2b 3 (N.land v 3) 0
                (bin_data st ++
                 [N2byte (N.lor (N.shiftl (leftchar st) 4) (N.shiftr v 2))]))
    | _ => a2b_loop rest
             (mk_a2b 0 0 0
                (bin_data st ++ [N2byte (N.lor (N.shiftl (leftchar st) 6) v)]))
    end.
Proof.
  intros Hv. cbn [a2b_loop]. now rewrite b2a_not_pad, a2b_b2a by exact Hv.
Qed.

Lemma sextet0 (n0 : N) : n0 < 256 -> N.shiftr n0 2 < 64.
Proof. intros. mask_norm. lia. Qed.

Lemma sextet1 (n0 n1 : N) :
  n1 < 256 -> N.lor (N.shiftl (N.land n0 3) 4) (N.shiftr n1 4) < 64.
Proof.
  intros. rewrite (lor_add _ _ 4); mask_norm; lia.
Qed.

Lemma sextet1' (n0 : N) : N.shiftl (N.land n0 3) 4 < 64.
Proof. mask_norm. lia. Qed.

Lemma sextet2 (n1 n2 : N) :
  n2 < 256 -> N.lor (N.shiftl (N.land n1 15) 2) (N.shiftr n2 6) < 64.
Proof.
  intros. rewrite (lor_add _ _ 2); mask_norm; lia.
Qed.

Lemma sextet2' (n1 : N) : N.shiftl (N.land n1 15) 2 < 64.
Proof. mask_norm. lia. Qed.

Lemma sextet3 (n2 : N) : N.land n2 63 < 64.
Proof. mask_norm. lia. Qed.

(** The three bytes come back from the four sextets. *)
Lemma byte0_back (n0 n1 : N) :
  n0 < 256 -> n1 < 256 ->
  N.lor (N.shiftl (N.shiftr n0 2) 2)
    (N.shiftr (N.lor (N.shiftl (N.land n0 3) 4) (N.shiftr n1 4)) 4) = n0.
Proof.
  intros H0 H1.
  rewrite (lor_add (N.shiftl (N.land n0 3) 4) _ 4) by (mask_norm; lia).
  rewrite (lor_add _ _ 2); mask_norm; lia.
Qed.

Lemma byte0_back' (n0 : N) :
  n0 < 256 ->
  N.lor (N.shiftl (N.shiftr n0 2) 2)
    (N.shiftr (N.shiftl (N.land n0 3) 4) 4) = n0.
Proof.
  intros H0. rewrite (lor_add _ _ 2); mask_norm; lia.
Qed.

Lemma byte1_back (n0 n1 n2 : N) :
  n1 < 256 -> n2 < 256 ->
  N.lor
    (N.shiftl
       (N.land (N.lor (N.shiftl (N.land n0 3) 4) (N.shiftr n1 4)) 15) 4)
    (N.shiftr (N.lor (N.shiftl (N.land n1 15) 2) (N.shiftr n2 6)) 2) = n1.
Proof.
  intros H1 H2.
  rewrite (lor_add (N.shiftl (N.land n0 3) 4) _ 4) by (mask_norm; lia).
  rewrite (lor_add (N.shiftl (N.land n1 15) 2) _ 2) by (mask_norm; lia).
  rewrite (lor_add _ _ 4); mask_norm; lia.
Qed.

Lemma byte1_back' (n0 n1 : N) :
  n1 < 256 ->
  N.lor
    (N.shiftl
       (N.land (N.lor (N.shiftl (N.land n0 3) 4) (N.shiftr n1 4)) 15) 4)
    (N.shiftr (N.shiftl (N.land n1 15) 2) 2) = n1.
Proof.
  intros H1.
  rewrite (lor_add (N.shiftl (N.land n0 3) 4) _ 4) by (mask_norm; lia).
  rewrite (lor_add _ _ 4); mask_norm; lia.
Qed.

Lemma byte2_back (n1 n2 : N) :
  n2 < 256 ->
  N.lor
    (N.shiftl
       (N.land (N.lor (N.shiftl (N.land n1 15) 2) (N.shiftr n2 6)) 3) 6)
    (N.land n2 63) = n2.
Proof.
  intros H2.
  rewrite (lor_add (N.shiftl (N.land n1 15) 2) _ 2) by (mask_norm; lia).
  rewrite (lor_add _ _ 6); mask_norm; lia.
Qed.

Lemma list_ind3 {A} (P : list A -> Prop) :
  P [] -> (forall a, P [a]) -> (forall a b, P [a; b]) ->
  (forall a b c l, P l -> P (a :: b :: c :: l)) ->
  forall l, P l.
Proof.
  intros H0 H1 H2 H3.
  assert (H : forall l, P l /\ (forall a, P (a :: l)) /\ (forall a b, P (a :: b :: l))).
  { induction l as [|x l (IH0 & IH1 & IH2)]; [now auto|].
    repeat split; auto. }
  intros l. apply H.
Qed.

Lemma a2b_loop_b64encode (bs acc : bytes) (l0 : N) :
  a2b_loop (b64encode bs) (mk_a2b 0 l0 0 acc) = Some (acc ++ bs).
Proof.
  revert acc l0. induction bs as [|b0|b0 b1|b0 b1 b2 bs IH] using list_ind3;
    intros acc l0.
  - cbn. now rewrite app_nil_r.
  - pose proof (to_N_lt b0) as H0.
    cbn [b64encode].
    rewrite a2b_loop_sym by now apply sextet0.
    cbn [quad_pos bin_data leftchar].
    rewrite a2b_loop_sym by apply sextet1'.
    cbn [quad_pos bin_data leftchar].
    cbn [a2b_loop]. cbn.
    now rewrite byte0_back', N2byte_to_N.
  - pose proof (to_N_lt b0) as H0. pose proof (to_N_lt b1) as H1.
    cbn [b64encode].
    rewrite a2b_loop_sym by now apply sextet0.
    cbn [quad_pos bin_data leftchar].
    rewrite a2b_loop_sym by now apply sextet1.
    cbn [quad_pos bin_data leftchar].
    rewrite a2b_loop_sym by apply sextet2'.
    cbn [quad_pos bin_data leftchar].
    cbn [a2b_loop]. cbn.
    rewrite byte0_back, byte1_back', !N2byte_to_N, <- app_assoc by assumption.
    reflexivity.
  - pose proof (to_N_lt b0) as H0. pose proof (to_N_lt b1) as H1.
    pose proof (to_N_lt b2) as H2.
    cbn [b64encode].
    rewrite a2b_loop_sym by now apply sextet0.
    cbn [quad_pos bin_data leftchar].
    rewrite a2b_loop_sym by now apply sextet1.
    cbn [quad_pos bin_data leftchar].
    rewrite a2b_loop_sym by now apply sextet2.
    cbn [quad_pos bin_data leftchar].
    rewrite a2b_loop_sym by apply sextet3.
    cbn [quad_pos bin_data leftchar].
    rewrite IH.
    rewrite byte0_back, byte1_back, byte2_back, !N2byte_to_N, <- !app_assoc
      by assumption.
    reflexivity.
Qed.

Lemma a2b_base64_b64encode (bs : bytes) : a2b_base64 (b64encode bs) = Some bs.
Proof. apply (a2b_loop_b64encode bs [] 0). Qed.

End Base64Facts.

Section Utf8Facts.
Import Codec.

Lemma cont_val (x : N) : N.lor 0x80 (N.land x 0x3f) = 128 + x mod 64.
Proof. rewrite (lor_add _ _ 6); mask_norm; lia. Qed.

Lemma lead2_val (ch : N) :
  ch < 0x800 -> N.lor 0xc0 (N.shiftr ch 6) = 192 + ch / 64.
Proof. intros. rewrite (lor_add _ _ 5); mask_norm; lia. Qed.

Lemma lead3_val (ch : N) :
  ch < 0x10000 -> N.lor 0xe0 (N.shiftr ch 12) = 224 + ch / 4096.
Proof. intros. rewrite (lor_add _ _ 4); mask_norm; lia. Qed.

Lemma lead4_val (ch : N) :
  ch <= 0x10FFFF -> N.lor 0xf0 (N.shiftr ch 18) = 240 + ch / 262144.
Proof. intros. rewrite (lor_add _ _ 3); mask_norm; lia. Qed.

Lemma join2 (a b : N) :
  b < 64 -> N.lor (N.shiftl a 6) b = a * 64 + b.
Proof. intros. rewrite (lor_add _ _ 6); mask_norm; lia. Qed.

Lemma join3 (a b c : N) :
  b < 64 -> c < 64 ->
  N.lor (N.shiftl a 12) (N.lor (N.shiftl b 6) c) = a * 4096 + b * 64 + c.
Proof.
  intros. rewrite (join2 b c) by assumption.
  rewrite (lor_add _ _ 12); mask_norm; lia.
Qed.

Lemma join4 (a b c d : N) :
  b < 64 -> c < 64 -> d < 64 ->
  N.lor (N.shiftl a 18) (N.lor (N.shiftl b 12) (N.lor (N.shiftl c 6) d))
  = a * 262144 + b * 4096 + c * 64 + d.
Proof.
  intros. rewrite (join3 b c d) by assumption.
  rewrite (lor_add _ _ 18); mask_norm; lia.
Qed.

Lemma cont_bits_lt (b : byte) : cont_bits b < 64.
Proof. unfold cont_bits. mask_norm. lia. Qed.

Lemma cont_bits_val (b : byte) : cont_bits b = Byte.to_N b mod 64.
Proof. unfold cont_bits. now mask_norm. Qed.

(** Decoding the encoding of one code point gives it back and goes on with
    the rest of the input. *)
Lemma utf8_decode_encode_char (ch : N) (bs rest : bytes) :
  utf8_encode_char ch = Some bs ->
  utf8_decode (bs ++ rest) =
    match utf8_decode rest with
    | Some t => Some (ch :: t)
    | None => None
    end.
Proof.
  unfold utf8_encode_char. intros Henc.
  destruct (N.ltb_spec ch 0x80) as [H1|H1].
  { injection Henc as <-. cbn [app utf8_decode].
    rewrite to_N_N2byte by lia.
    destruct (N.ltb_spec ch 0x80); [reflexivity|lia]. }
  destruct (N.ltb_spec ch 0x800) as [H2|H2].
  { injection Henc as <-. cbn [app utf8_decode].
    rewrite (lead2_val ch H2), (cont_val ch).
    unfold cont_in. rewrite cont_bits_val, !to_N_N2byte by lia.
    assert (Hch : ch = ch / 64 * 64 + ch mod 64) by lia.
    assert (Hd : ch mod 64 < 64) by lia.
    revert Hch Hd. generalize (ch / 64) (ch mod 64). intros a d Hch Hd.
    decide_cmp. destruct (utf8_decode rest); [|reflexivity].
    do 2 f_equal. rewrite join2; mask_norm; lia. }
  destruct (N.ltb_spec ch 0x10000) as [H3|H3].
  { destruct ((0xD800 <=? ch) && (ch <=? 0xDFFF)) eqn:Hsur; [discriminate|].
    apply andb_false_iff in Hsur. rewrite N.leb_gt, N.leb_gt in Hsur.
    injection Henc as <-. cbn [app utf8_decode].
    rewrite (lead3_val ch H3), (cont_val ch), (cont_val (N.shiftr ch 6)).
    unfold cont_in. rewrite !cont_bits_val, !to_N_N2byte by (mask_norm; lia).
    rewrite ?N.shiftr_div_pow2; pow_norm.
    assert (Hch : ch = ch / 4096 * 4096 + (ch / 64) mod 64 * 64 + ch mod 64)
      by lia.
    assert (Hc : (ch / 64) mod 64 < 64) by lia.
    assert (Hd : ch mod 64 < 64) by lia.
    revert Hch Hc Hd.
    generalize (ch / 4096) ((ch / 64) mod 64) (ch mod 64).
    intros a c d Hch Hc Hd.
    decide_cmp. all: destruct (utf8_decode rest); [|reflexivity].
    all: do 2 f_equal; rewrite join3; mask_norm; lia. }
  destruct (N.leb_spec ch 0x10FFFF) as [H4|H4]; [|discriminate].
  injection Henc as <-. cbn [app utf8_decode].
  rewrite (lead4_val ch H4), (cont_val ch), (cont_val (N.shiftr ch 6)),
    (cont_val (N.shiftr ch 12)).
  unfold cont_in. rewrite !cont_bits_val, !to_N_N2byte by (mask_norm; lia).
  rewrite ?N.shiftr_div_pow2; pow_norm.
  assert (Hch : ch = ch / 262144 * 262144 + (ch / 4096) mod 64 * 4096
                     + (ch / 64) mod 64 * 64 + ch mod 64) by lia.
  assert (Hb : (ch / 4096) mod 64 < 64) by lia.
  assert (Hc : (ch / 64) mod 64 < 64) by lia.
  assert (Hd : ch mod 64 < 64) by lia.
  revert Hch Hb Hc Hd.
  generalize (ch / 262144) ((ch / 4096) mod 64) ((ch / 64) mod 64) (ch mod 64).
  intros a b c d Hch Hb Hc Hd.
  decide_cmp. all: destruct (utf8_decode rest); [|reflexivity].
  all: do 2 f_equal; rewrite join4; mask_norm; lia.
Qed.

Lemma utf8_decode_encode (t : text) (bs : bytes) :
  utf8_encode t = Some bs -> utf8_decode bs = Some t.
Proof.
  revert bs. induction t as [|ch t IH]; intros bs Henc.
  - injection Henc as <-. reflexivity.
  - cbn [utf8_encode] in Henc.
    destruct (utf8_encode_char ch) as [b1|] eqn:Hch; [|discriminate].
    destruct (utf8_encode t) as [b2|]; [|discriminate].
    injection Henc as <-.
    rewrite (utf8_decode_encode_char ch b1 b2 Hch).
    now rewrite (IH b2 eq_refl).
Qed.

End Utf8Facts.

Section CodecFacts.
Import Codec.

Lemma b2a_ascii (n : N) : Byte.to_N (b2a n) < 0x80.
Proof.
  unfold b2a. generalize (N.to_nat n). intros k.
  do 64 (destruct k as [|k]; [vm_compute; reflexivity|]).
  destruct k; vm_compute; reflexivity.
Qed.

Lemma ascii_decode_cons (b : byte) (bs : bytes) :
  Byte.to_N b < 0x80 ->
  ascii_decode (b :: bs) =
    match ascii_decode bs with
    | Some t => Some (Byte.to_N b :: t)
    | None => None
    end.
Proof.
  intros Hb. cbn [ascii_decode].
  destruct (N.ltb_spec (Byte.to_N b) 0x80); [reflexivity|lia].
Qed.

Lemma ascii_decode_b64encode (bs : bytes) :
  exists t, ascii_decode (b64encode bs) = Some t.
Proof.
  induction bs as [|b0|b0 b1|b0 b1 b2 bs [t IH]] using list_ind3;
    cbn [b64encode].
  - now exists [].
  - rewrite !ascii_decode_cons by (apply b2a_ascii || (vm_compute; reflexivity)).
    cbn. eauto.
  - rewrite !ascii_decode_cons by (apply b2a_ascii || (vm_compute; reflexivity)).
    cbn. eauto.
  - rewrite !ascii_decode_cons by apply b2a_ascii. rewrite IH. eauto.
Qed.

Lemma ascii_encode_decode (bs : bytes) (t : text) :
  ascii_decode bs = Some t -> ascii_encode t = Some bs.
Proof.
  revert t. induction bs as [|b bs IH]; intros t Hdec; cbn in Hdec.
  - now injection Hdec as <-.
  - destruct (N.ltb_spec (Byte.to_N b) 128) as [Hb|Hb]; [|discriminate].
    destruct (ascii_decode bs) as [t'|]; [|discriminate].
    injection Hdec as <-. cbn [ascii_encode].
    destruct (N.ltb_spec (Byte.to_N b) 0x80); [|lia].
    now rewrite (IH t' eq_refl), N2byte_to_N.
Qed.

Lemma utf8_encode_char_scalar (ch : N) :
  scalar_value ch = true -> exists bs, utf8_encode_char ch = Some bs.
Proof.
  unfold scalar_value, utf8_encode_char. intros Hs.
  apply andb_true_iff in Hs as [Hmax Hsur]. apply N.leb_le in Hmax.
  apply negb_true_iff in Hsur. rewrite Hsur.
  destruct (ch <? 0x80); [eauto|]. destruct (ch <? 0x800); [eauto|].
  destruct (ch <? 0x10000); [eauto|].
  destruct (N.leb_spec ch 0x10FFFF); [eauto|lia].
Qed.

Lemma utf8_encode_representable (t : text) :
  representable t -> exists bs, utf8_encode t = Some bs.
Proof.
  induction 1 as [|ch t Hch _ [bs IH]]; cbn [utf8_encode]; [eauto|].
  destruct (utf8_encode_char_scalar ch Hch) as [b Hb].
  rewrite Hb, IH. eauto.
Qed.

Lemma decode_encode (t token : text) :
  encode t = Some token -> decode token = Some t.
Proof.
  unfold encode, decode. intros Henc.
  destruct (utf8_encode t) as [raw|] eqn:Hraw; [|discriminate].
  rewrite (ascii_encode_decode _ _ Henc), a2b_base64_b64encode.
  now apply utf8_decode_encode.
Qed.

Lemma encode_representable (t : text) :
  representable t -> exists token, encode t = Some token.
Proof.
  intros Ht. unfold encode.
  destruct (utf8_encode_representable t Ht) as [raw ->].
  apply ascii_decode_b64encode.
Qed.

End CodecFacts.

Section Utf8Strict.
Import Codec.

Lemma scalar_value_small (ch : N) : ch < 0xD800 -> scalar_value ch = true.
Proof.
  intros H. unfold scalar_value.
  destruct (N.leb_spec ch 0x10FFFF); [|lia].
  destruct (N.leb_spec 0xD800 ch); [lia|reflexivity].
Qed.

Lemma enc1 (b0 : byte) :
  Byte.to_N b0 < 0x80 ->
  utf8_encode_char (Byte.to_N b0) = Some [b0] /\
  scalar_value (Byte.to_N b0) = true.
Proof.
  intros H. split; [|apply scalar_value_small; lia].
  unfold utf8_encode_char.
  destruct (N.ltb_spec (Byte.to_N b0) 0x80); [|lia].
  now rewrite N2byte_to_N.
Qed.

Lemma enc2 (b0 b1 : byte) :
  0xC2 <= Byte.to_N b0 <= 0xDF -> 0x80 <= Byte.to_N b1 <= 0xBF ->
  let ch := N.lor (N.shiftl (N.land (Byte.to_N b0) 0x1f) 6) (cont_bits b1) in
  utf8_encode_char ch = Some [b0; b1] /\ scalar_value ch = true.
Proof.
  intros H0 H1 ch.
  assert (Hch : ch = (Byte.to_N b0 - 192) * 64 + (Byte.to_N b1 - 128)).
  { unfold ch. rewrite join2 by apply cont_bits_lt.
    rewrite cont_bits_val. mask_norm. lia. }
  clearbody ch. split; [|apply scalar_value_small; lia].
  unfold utf8_encode_char.
  destruct (N.ltb_spec ch 0x80); [lia|].
  destruct (N.ltb_spec ch 0x800); [|lia].
  rewrite lead2_val, cont_val by lia.
  replace (192 + ch / 64) with (Byte.to_N b0) by lia.
  replace (128 + ch mod 64) with (Byte.to_N b1) by lia.
  now rewrite !N2byte_to_N.
Qed.

Lemma enc3 (b0 b1 b2 : byte) :
  0xE0 <= Byte.to_N b0 <= 0xEF ->
  (if Byte.to_N b0 =? 0xE0 then 0xA0 else 0x80) <= Byte.to_N b1
    <= (if Byte.to_N b0 =? 0xED then 0x9F else 0xBF) ->
  0x80 <= Byte.to_N b2 <= 0xBF ->
  let ch := N.lor (N.shiftl (N.land (Byte.to_N b0) 0x0f) 12)
              (N.lor (N.shiftl (cont_bits b1) 6) (cont_bits b2)) in
  utf8_encode_char ch = Some [b0; b1; b2] /\ scalar_value ch = true.
Proof.
  intros H0 H1 H2 ch.
  assert (H1' : 0x80 <= Byte.to_N b1 <= 0xBF).
  { destruct (Byte.to_N b0 =? 0xE0), (Byte.to_N b0 =? 0xED); lia. }
  assert (Hch : ch = (Byte.to_N b0 - 224) * 4096
                     + (Byte.to_N b1 - 128) * 64 + (Byte.to_N b2 - 128)).
  { unfold ch. rewrite join3 by apply cont_bits_lt.
    rewrite !cont_bits_val. mask_norm. lia. }
  clearbody ch.
  assert (Hlo : 0x800 <= ch).
  { destruct (N.eqb_spec (Byte.to_N b0) 0xE0); lia. }
  assert (Hsur : ch < 0xD800 \/ 0xDFFF < ch).
  { destruct (N.eqb_spec (Byte.to_N b0) 0xED);
      destruct (N.eqb_spec (Byte.to_N b0) 0xE0); lia. }
  assert (Hnot : (0xD800 <=? ch) && (ch <=? 0xDFFF) = false).
  { destruct (N.leb_spec 0xD800 ch), (N.leb_spec ch 0xDFFF);
      cbn; try reflexivity; lia. }
  split.
  - unfold utf8_encode_char. rewrite Hnot.
    destruct (N.ltb_spec ch 0x80); [lia|].
    destruct (N.ltb_spec ch 0x800); [lia|].
    destruct (N.ltb_spec ch 0x10000); [|lia].
    rewrite lead3_val, !cont_val by lia.
    rewrite N.shiftr_div_pow2. pow_norm.
    replace (224 + ch / 4096) with (Byte.to_N b0) by lia.
    replace (128 + (ch / 64) mod 64) with (Byte.to_N b1) by lia.
    replace (128 + ch mod 64) with (Byte.to_N b2) by lia.
    now rewrite !N2byte_to_N.
  - unfold scalar_value. rewrite Hnot.
    destruct (N.leb_spec ch 0x10FFFF); [reflexivity|lia].
Qed.

Lemma enc4 (b0 b1 b2 b3 : byte) :
  0xF0 <= Byte.to_N b0 <= 0xF4 ->
  (if Byte.to_N b0 =? 0xF0 then 0x90 else 0x80) <= Byte.to_N b1
    <= (if Byte.to_N b0 =? 0xF4 then 0x8F else 0xBF) ->
  0x80 <= Byte.to_N b2 <= 0xBF -> 0x80 <= Byte.to_N b3 <= 0xBF ->
  let ch := N.lor (N.shiftl (N.land (Byte.to_N b0) 0x07) 18)
              (N.lor (N.shiftl (cont_bits b1) 12)
                 (N.lor (N.shiftl (cont_bits b2) 6) (cont_bits b3))) in
  utf8_encode_char ch = Some [b0; b1; b2; b3] /\ scalar_value ch = true.
Proof.
  intros H0 H1 H2 H3 ch.
  assert (H1' : 0x80 <= Byte.to_N b1 <= 0xBF).
  { destruct (Byte.to_N b0 =? 0xF0), (Byte.to_N b0 =? 0xF4); lia. }
  assert (Hch : ch = (Byte.to_N b0 - 240) * 262144
                     + (Byte.to_N b1 - 128) * 4096
                     + (Byte.to_N b2 - 128) * 64 + (Byte.to_N b3 - 128)).
  { unfold ch. rewrite join4 by apply cont_bits_lt.
    rewrite !cont_bits_val. mask_norm. lia. }
  clearbody ch.
  assert (Hlo : 0x10000 <= ch).
  { destruct (N.eqb_spec (Byte.to_N b0) 0xF0); lia. }
  assert (Hhi : ch <= 0x10FFFF).
  { destruct (N.eqb_spec (Byte.to_N b0) 0xF4);
      destruct (N.eqb_spec (Byte.to_N b0) 0xF0); lia. }
  split.
  - unfold utf8_encode_char.
    destruct (N.ltb_spec ch 0x80); [lia|].
    destruct (N.ltb_spec ch 0x800); [lia|].
    destruct (N.ltb_spec ch 0x10000); [lia|].
    destruct (N.leb_spec ch 0x10FFFF); [|lia].
    rewrite lead4_val, !cont_val by lia.
    rewrite !N.shiftr_div_pow2. pow_norm.
    replace (240 + ch / 262144) with (Byte.to_N b0) by lia.
    replace (128 + (ch / 4096) mod 64) with (Byte.to_N b1) by lia.
    replace (128 + (ch / 64) mod 64) with (Byte.to_N b2) by lia.
    replace (128 + ch mod 64) with (Byte.to_N b3) by lia.
    now rewrite !N2byte_to_N.
  - unfold scalar_value.
    destruct (N.leb_spec ch 0x10FFFF); [|lia].
    destruct (N.leb_spec 0xD800 ch), (N.leb_spec ch 0xDFFF);
      cbn; try reflexivity; lia.
Qed.

Lemma cont_in_bounds (lo hi : N) (b : byte) :
  cont_in lo hi b = true -> lo <= Byte.to_N b <= hi.
Proof.
  unfold cont_in. intros H. apply andb_true_iff in H as [H1 H2].
  apply N.leb_le in H1, H2. lia.
Qed.

Lemma range_bounds (lo hi n : N) :
  (lo <=? n) && (n <=? hi) = true -> lo <= n <= hi.
Proof.
  intros H. apply andb_true_iff in H as [H1 H2].
  apply N.leb_le in H1, H2. lia.
Qed.

Lemma utf8_encode_cons (ch : N) (t : text) (bs bs' : bytes) :
  utf8_encode_char ch = Some bs -> utf8_encode t = Some bs' ->
  utf8_encode (ch :: t) = Some (bs ++ bs').
Proof. intros H1 H2. cbn [utf8_encode]. now rewrite H1, H2. Qed.

(** The strict decoder accepts a byte sequence only if it is the encoding
    of the text it returns. *)
Lemma utf8_encode_decode_upto (n : nat) (bs : bytes) (t : text) :
  (length bs <= n)%nat ->
  utf8_decode bs = Some t ->
  utf8_encode t = Some bs /\ representable t.
Proof.
  revert bs t. induction n as [|n IH]; intros bs t Hlen.
  { destruct bs; [|cbn in Hlen; lia]. intros [= <-].
    split; [reflexivity|constructor]. }
  destruct bs as [|b0 r0].
  { intros [= <-]. split; [reflexivity|constructor]. }
  cbn [length] in Hlen. cbn [utf8_decode].
  destruct (N.ltb_spec (Byte.to_N b0) 0x80) as [H1|H1].
  { destruct (utf8_decode r0) as [t'|] eqn:E; [|discriminate].
    intros [= <-]. destruct (IH r0 t') as [He Hr]; [lia|exact E|].
    destruct (enc1 b0 H1) as [Hc Hs].
    split; [exact (utf8_encode_cons _ _ _ _ Hc He)|now constructor]. }
  destruct ((0xC2 <=? Byte.to_N b0) && (Byte.to_N b0 <=? 0xDF)) eqn:H2.
  { apply range_bounds in H2.
    destruct r0 as [|b1 r1]; [discriminate|].
    destruct (cont_in 0x80 0xBF b1) eqn:Hc1; [|discriminate].
    apply cont_in_bounds in Hc1.
    destruct (utf8_decode r1) as [t'|] eqn:E; [|discriminate].
    intros [= <-]. cbn [length] in Hlen.
    destruct (IH r1 t') as [He Hr]; [lia|exact E|].
    destruct (enc2 b0 b1 H2 Hc1) as [Hc Hs].
    split; [exact (utf8_encode_cons _ _ _ _ Hc He)|now constructor]. }
  destruct ((0xE0 <=? Byte.to_N b0) && (Byte.to_N b0 <=? 0xEF)) eqn:H3.
  { apply range_bounds in H3.
    destruct r0 as [|b1 [|b2 r2]]; [discriminate|discriminate|].
    destruct (cont_in _ _ b1) eqn:Hc1; [|discriminate].
    destruct (cont_in 0x80 0xBF b2) eqn:Hc2; [|discriminate].
    apply cont_in_bounds in Hc1, Hc2. cbn [andb].
    destruct (utf8_decode r2) as [t'|] eqn:E; [|discriminate].
    intros [= <-]. cbn [length] in Hlen.
    destruct (IH r2 t') as [He Hr]; [lia|exact E|].
    destruct (enc3 b0 b1 b2 H3 Hc1 Hc2) as [Hc Hs].
    split; [exact (utf8_encode_cons _ _ _ _ Hc He)|now constructor]. }
  destruct ((0xF0 <=? Byte.to_N b0) && (Byte.to_N b0 <=? 0xF4)) eqn:H4;
    [|discriminate].
  apply range_bounds in H4.
  destruct r0 as [|b1 [|b2 [|b3 r3]]]; try discriminate.
  destruct (cont_in _ _ b1) eqn:Hc1; [|discriminate].
  destruct (cont_in 0x80 0xBF b2) eqn:Hc2; [|discriminate].
  destruct (cont_in 0x80 0xBF b3) eqn:Hc3; [|discriminate].
  apply cont_in_bounds in Hc1, Hc2, Hc3. cbn [andb].
  destruct (utf8_decode r3) as [t'|] eqn:E; [|discriminate].
  intros [= <-]. cbn [length] in Hlen.
  destruct (IH r3 t') as [He Hr]; [lia|exact E|].
  destruct (enc4 b0 b1 b2 b3 H4 Hc1 Hc2 Hc3) as [Hc Hs].
  split; [exact (utf8_encode_cons _ _ _ _ Hc He)|now constructor].
Qed.

End Utf8Strict.

Section EncodableFacts.
Import Codec.

Lemma utf8_encode_char_None (ch : N) :
  scalar_value ch = false -> utf8_encode_char ch = None.
Proof.
  unfold scalar_value, utf8_encode_char.
  destruct (N.leb_spec ch 0x10FFFF), (N.leb_spec 0xD800 ch),
    (N.leb_spec ch 0xDFFF), (N.ltb_spec ch 0x80), (N.ltb_spec ch 0x800),
    (N.ltb_spec ch 0x10000); cbn; intros; try reflexivity;
    try discriminate; lia.
Qed.

Lemma utf8_encodable_cons (ch : N) (t : text) :
  utf8_encodable (ch :: t) = scalar_value ch && utf8_encodable t.
Proof.
  unfold utf8_encodable. cbn [utf8_encode].
  destruct (scalar_value ch) eqn:Hch.
  - destruct (utf8_encode_char_scalar ch Hch) as [bs ->].
    now destruct (utf8_encode t).
  - now rewrite (utf8_encode_char_None ch Hch).
Qed.

Lemma utf8_encodable_app (a b : text) :
  utf8_encodable (a ++ b) = utf8_encodable a && utf8_encodable b.
Proof.
  induction a as [|ch a IH]; [reflexivity|].
  cbn [app]. rewrite !utf8_encodable_cons, IH. apply andb_assoc.
Qed.

Lemma utf8_encodable_representable (t : text) :
  utf8_encodable t = true <-> representable t.
Proof.
  unfold representable. induction t as [|ch t IH].
  - split; [constructor|reflexivity].
  - rewrite utf8_encodable_cons, andb_true_iff, IH. split.
    + intros [H1 H2]. now constructor.
    + intros H. inversion H; subst. tauto.
Qed.

Lemma utf8_encodable_encode (t : text) :
  utf8_encodable t = true -> exists token, encode t = Some token.
Proof.
  intros H. apply encode_representable.
  now apply utf8_encodable_representable.
Qed.


End EncodableFacts.

(** C5. For every representable text [t] (one that UTF-8 can encode: no
    surrogate code points), [encode t] succeeds, and decoding the token it
    yields gives [t] back exactly. *)
Theorem codec_round_trip (t : text) :
  Codec.representable t ->
  exists token, Codec.encode t = Some token /\ Codec.decode token = Some t.
Proof.
  intros Ht. destruct (encode_representable t Ht) as [token Henc].
  exists token. split; [exact Henc|]. now apply decode_encode.
Qed.

Lemma codec_round_trip_witness :
  Codec.representable [0x20AC; 0x1F600; 0xe9; 65] /\
  exists token,
    Codec.encode [0x20AC; 0x1F600; 0xe9; 65] = Some token /\
    Codec.decode token = Some [0x20AC; 0x1F600; 0xe9; 65].
Proof.
  assert (H : Codec.representable [0x20AC; 0x1F600; 0xe9; 65]).
  { repeat constructor. }
  split; [exact H|]. exact (codec_round_trip _ H).
Defined.

(** * Facts about the pipeline *)

Section MonadFacts.
Import Json Pipeline.

Lemma bind_Ok {A B} (m : M A) (k : A -> M B) (w w1 : world) (a : A) :
  m w = (Ok a, w1) -> bind m k w = k a w1.
Proof. intros H. unfold bind. now rewrite H. Qed.

Lemma bind_Raise {A B} (m : M A) (k : A -> M B) (w w1 : world) (e : exn) :
  m w = (Raise e, w1) -> bind m k w = (Raise e, w1).
Proof. intros H. unfold bind. now rewrite H. Qed.

Lemma bind_inv_Ok {A B} (m : M A) (k : A -> M B) (w w' : world) (b : B) :
  bind m k w = (Ok b, w') ->
  exists a w1, m w = (Ok a, w1) /\ k a w1 = (Ok b, w').
Proof.
  unfold bind. destruct (m w) as [[a|e] w1]; [eauto|discriminate].
Qed.

Lemma bind_inv_Raise {A B} (m : M A) (k : A -> M B) (w w' : world) (e : exn) :
  bind m k w = (Raise e, w') ->
  m w = (Raise e, w') \/
  exists a w1, m w = (Ok a, w1) /\ k a w1 = (Raise e, w').
Proof.
  unfold bind. destruct (m w) as [[a|e'] w1]; [eauto|].
  intros [= -> ->]. now left.
Qed.

End MonadFacts.

(** Invert an equation on a monadic computation that returned. *)
Ltac inv_bind H :=
  let a := fresh "a" in
  let w := fresh "w" in
  let H1 := fresh "H" in
  apply bind_inv_Ok in H as (a & w & H1 & H).

Section StripFacts.
Import Pipeline.

Lemma lstrip_head (s : text) (c : N) (s' : text) :
  lstrip s = c :: s' -> isspace c = false.
Proof.
  induction s as [|x s IH]; cbn [lstrip]; [discriminate|].
  destruct (isspace x) eqn:Hx; [exact IH|].
  now intros [= <- <-].
Qed.

Lemma lstrip_suffix (s : text) : exists pre, s = pre ++ lstrip s.
Proof.
  induction s as [|x s [pre IH]]; cbn [lstrip]; [now exists []|].
  destruct (isspace x).
  - exists (x :: pre). cbn. now f_equal.
  - now exists [].
Qed.

Lemma lstrip_fixed (s : text) (c : N) (s' : text) :
  s = c :: s' -> isspace c = false -> lstrip s = s.
Proof. intros -> Hc. cbn [lstrip]. now rewrite Hc. Qed.

(** The stripped text ends where the last non-space character is. *)
Lemma rstrip_last (s : text) (c : N) (s' : text) :
  rstrip s = s' ++ [c] -> isspace c = false.
Proof.
  unfold rstrip. intros H.
  apply (f_equal (@rev N)) in H. rewrite rev_involutive, rev_app_distr in H.
  cbn in H. now apply lstrip_head in H.
Qed.

Lemma rstrip_prefix (s : text) : exists post, s = rstrip s ++ post.
Proof.
  unfold rstrip. destruct (lstrip_suffix (rev s)) as [pre H].
  exists (rev pre). rewrite <- rev_app_distr, <- H. now rewrite rev_involutive.
Qed.

Lemma strip_head (s : text) (c : N) (s' : text) :
  strip s = c :: s' -> isspace c = false.
Proof.
  unfold strip. intros H.
  destruct (rstrip_prefix (lstrip s)) as [post Hpost].
  rewrite H in Hpost. cbn in Hpost. now apply lstrip_head in Hpost.
Qed.

Lemma strip_last (s : text) (c : N) (s' : text) :
  strip s = s' ++ [c] -> isspace c = false.
Proof. unfold strip. apply rstrip_last. Qed.

Lemma rstrip_fixed (s : text) (c : N) (s' : text) :
  s = s' ++ [c] -> isspace c = false -> rstrip s = s.
Proof.
  intros -> Hc. unfold rstrip. rewrite rev_app_distr. cbn [rev app lstrip].
  rewrite Hc. cbn [rev]. now rewrite rev_involutive.
Qed.

Lemma strip_idempotent (s : text) : strip (strip s) = strip s.
Proof.
  destruct (strip s) as [|c s'] eqn:Hs; [reflexivity|].
  pose proof (strip_head _ _ _ Hs) as Hc.
  assert (Hlast : exists s0 d, c :: s' = s0 ++ [d]).
  { destruct (exists_last (l := c :: s')) as (s0 & d & E); [discriminate|].
    eauto. }
  destruct Hlast as (s0 & d & E).
  assert (Hd : isspace d = false).
  { apply (strip_last s d s0). now rewrite Hs. }
  unfold strip. rewrite (lstrip_fixed _ c s' eq_refl Hc).
  now apply (rstrip_fixed _ d s0).
Qed.

End StripFacts.

Section CallFacts.
Import Json Pipeline Observations.

Variable service : nat -> text -> svc_outcome.

Lemma sleep_nonneg (d : Z) (w : world) :
  (0 <= d)%Z ->
  exists w', sleep (inject_Z d) w = (Ok tt, w') /\
    svc_calls w' = svc_calls w /\ rand_draws w' = rand_draws w /\
    log_file w' = log_file w /\ out_files w' = out_files w /\
    summaries w' = summaries w.
Proof.
  intros Hd. unfold sleep.
  assert (H : Qle_bool 0 (inject_Z d) = true).
  { apply Qle_bool_iff. unfold Qle. cbn. lia. }
  rewrite H. eexists. split; [reflexivity|]. now cbn.
Qed.

Lemma sleep_frame (d : Q) (w w' : world) (r : result unit) :
  sleep d w = (r, w') ->
  svc_calls w' = svc_calls w /\ rand_draws w' = rand_draws w /\
  log_file w' = log_file w /\ out_files w' = out_files w /\
  summaries w' = summaries w.
Proof.
  unfold sleep. destruct (Qle_bool 0 d); intros [= <- <-]; now cbn.
Qed.

(** The pause before an attempt of the retry loop. *)
Lemma pause_frame (delay : Z) (w w' : world) (r : result unit) :
  (if (delay =? 0)%Z then ret tt else sleep (inject_Z delay)) w = (r, w') ->
  svc_calls w' = svc_calls w /\ rand_draws w' = rand_draws w /\
  log_file w' = log_file w /\ out_files w' = out_files w /\
  summaries w' = summaries w.
Proof.
  destruct (delay =? 0)%Z.
  - now intros [= <- <-].
  - apply sleep_frame.
Qed.

Lemma pause_nonneg (delay : Z) (w : world) :
  (0 <= delay)%Z ->
  exists w',
    (if (delay =? 0)%Z then ret tt else sleep (inject_Z delay)) w = (Ok tt, w').
Proof.
  intros Hd. destruct (delay =? 0)%Z.
  - now exists w.
  - destruct (sleep_nonneg delay w Hd) as (w' & H & _). eauto.
Qed.

Lemma log_append_app (a b : text) (w : world) :
  log_append b (log_append a w) = log_append (a ++ b) w.
Proof. unfold log_append. cbn. now rewrite app_assoc. Qed.

Lemma log_write_Ok (s : text) (w : world) :
  Codec.utf8_encodable s = true -> log_write s w = (Ok tt, log_append s w).
Proof. intros H. unfold log_write. now rewrite H. Qed.

Lemma log_write_Raise (s : text) (w : world) :
  Codec.utf8_encodable s = false ->
  log_write s w = (Raise UnicodeEncodeError, w).
Proof. intros H. unfold log_write. now rewrite H. Qed.

Lemma utf8_encodable_line (s : text) :
  Codec.utf8_encodable (s ++ nl) = Codec.utf8_encodable s.
Proof. rewrite utf8_encodable_app. apply andb_true_r. Qed.

(** The seven writes of the block: the first one that cannot be encoded
    ends it, with the writes before it in the log. *)
Lemma log_block_run (prompt rewritten : text) (w : world) :
  log_block prompt rewritten w =
    if negb (Codec.utf8_encodable prompt)
    then (Raise UnicodeEncodeError, log_append cut_at_prompt w)
    else if negb (Codec.utf8_encodable rewritten)
    then (Raise UnicodeEncodeError, log_append (cut_at_output prompt) w)
    else (Ok tt, log_append (audit_record prompt rewritten) w).
Proof.
  assert (E1 : Codec.utf8_encodable (nl ++ repeat 61 80%nat ++ nl) = true)
    by (vm_compute; reflexivity).
  assert (E2 : Codec.utf8_encodable (str "PROMPT:" ++ nl) = true)
    by (vm_compute; reflexivity).
  assert (E4 : Codec.utf8_encodable (repeat 45 80%nat ++ nl) = true)
    by (vm_compute; reflexivity).
  assert (E5 : Codec.utf8_encodable (str "OUTPUT:" ++ nl) = true)
    by (vm_compute; reflexivity).
  assert (E7 : Codec.utf8_encodable (repeat 61 80%nat ++ nl) = true)
    by (vm_compute; reflexivity).
  unfold log_block.
  rewrite (bind_Ok _ _ _ _ _ (log_write_Ok _ w E1)).
  rewrite (bind_Ok _ _ _ _ _ (log_write_Ok _ _ E2)).
  rewrite log_append_app. fold cut_at_prompt.
  destruct (Codec.utf8_encodable prompt) eqn:Hp; cbn [negb].
  - rewrite (bind_Ok _ _ _ _ _
               (log_write_Ok _ _ (eq_trans (utf8_encodable_line prompt) Hp))).
    rewrite (bind_Ok _ _ _ _ _ (log_write_Ok _ _ E4)).
    rewrite (bind_Ok _ _ _ _ _ (log_write_Ok _ _ E5)).
    rewrite !log_append_app.
    replace (((cut_at_prompt ++ prompt ++ nl) ++ repeat 45 80%nat ++ nl)
             ++ str "OUTPUT:" ++ nl)
      with (cut_at_output prompt)
      by (unfold cut_at_output; now rewrite <- !app_assoc).
    destruct (Codec.utf8_encodable rewritten) eqn:Hr; cbn [negb].
    + rewrite (bind_Ok _ _ _ _ _
                 (log_write_Ok _ _
                    (eq_trans (utf8_encodable_line rewritten) Hr))).
      rewrite (log_write_Ok _ _ E7), !log_append_app.
      do 2 f_equal. unfold cut_at_output, cut_at_prompt, audit_record.
      now rewrite <- !app_assoc.
    + apply bind_Raise, log_write_Raise.
      now rewrite utf8_encodable_line.
  - apply bind_Raise, log_write_Raise. now rewrite utf8_encodable_line.
Qed.

Lemma attempt_rejected (prompt : text) (w : world) :
  rejected (service (svc_calls w) prompt) = true ->
  attempt service prompt w = (None, snd (responses_create service prompt w)).
Proof.
  unfold attempt, responses_create, rejected.
  destruct (service (svc_calls w) prompt) as [|t]; [reflexivity|].
  cbn. now intros ->.
Qed.

Lemma attempt_accepted (prompt output_text : text) (w : world) :
  service (svc_calls w) prompt = SvcText output_text ->
  (5 < length (strip output_text))%nat ->
  Codec.utf8_encodable prompt = true ->
  Codec.utf8_encodable (strip output_text) = true ->
  attempt service prompt w =
    (Some (strip output_text),
     log_append (audit_record prompt (strip output_text))
       (snd (responses_create service prompt w))).
Proof.
  intros Hsvc Hlen Hp Hr. unfold attempt, responses_create. rewrite Hsvc.
  cbn [snd].
  destruct (Nat.leb_spec (length (strip output_text)) 5); [lia|].
  now rewrite log_block_run, Hp, Hr.
Qed.

(** An answer that is not accepted: no text, and in the log what the
    writes that went through left. *)
Lemma attempt_not_accepted (prompt : text) (w : world) :
  accepted prompt (service (svc_calls w) prompt) = false ->
  attempt service prompt w =
    (None,
     log_append (logged prompt (service (svc_calls w) prompt))
       (snd (responses_create service prompt w))).
Proof.
  unfold attempt, responses_create, accepted, logged, log_append.
  destruct (service (svc_calls w) prompt) as [|t]; cbn [snd].
  - intros _. cbn. now rewrite app_nil_r.
  - destruct (Nat.leb_spec (length (strip t)) 5) as [H|H].
    + intros _. cbn. now rewrite app_nil_r.
    + destruct (Nat.ltb_spec 5 (length (strip t))); [|lia].
      rewrite log_block_run. cbn [andb].
      destruct (Codec.utf8_encodable prompt); cbn [andb negb];
        [|reflexivity].
      destruct (Codec.utf8_encodable (strip t)); cbn [negb];
        [discriminate|reflexivity].
Qed.

Lemma accepted_inv (prompt : text) (o : svc_outcome) :
  accepted prompt o = true ->
  exists output_text,
    o = SvcText output_text /\ (5 < length (strip output_text))%nat /\
    Codec.utf8_encodable prompt = true /\
    Codec.utf8_encodable (strip output_text) = true.
Proof.
  destruct o as [|t]; [discriminate|]. cbn [accepted].
  rewrite !andb_true_iff, Nat.ltb_lt. intros [[H1 H2] H3]. eauto.
Qed.

Lemma rejected_not_accepted (prompt : text) (o : svc_outcome) :
  rejected o = true -> accepted prompt o = false /\ logged prompt o = [].
Proof.
  destruct o as [|t]; [now split|]. cbn [rejected accepted logged].
  intros H. rewrite H. apply Nat.leb_le in H.
  destruct (Nat.ltb_spec 5 (length (strip t))); [lia|]. now split.
Qed.

(** With a prompt the log can take, an attempt that fails leaves nothing
    in the log, or a block cut before the answer. *)
Lemma logged_not_accepted (prompt : text) (o : svc_outcome) :
  accepted prompt o = false -> Codec.utf8_encodable prompt = true ->
  logged prompt o = [] \/ logged prompt o = cut_at_output prompt.
Proof.
  destruct o as [|t]; [now left|]. cbn [accepted logged]. intros H Hp.
  rewrite Hp in *. cbn [negb]. rewrite andb_true_r in H.
  destruct (Nat.leb_spec (length (strip t)) 5); [now left|].
  destruct (Nat.ltb_spec 5 (length (strip t))); [|lia].
  cbn [andb] in H. rewrite H. now right.
Qed.

(** What one attempt does to the world: one more call of the service, the
    whole audit block in the log exactly when a text is accepted, and
    otherwise what the writes that went through left. *)
Lemma attempt_spec (prompt : text) (w : world) :
  match attempt service prompt w with
  | (Some rewritten, w') =>
      (exists output_text,
         service (svc_calls w) prompt = SvcText output_text /\
         rewritten = strip output_text) /\
      (5 < length rewritten)%nat /\
      Codec.utf8_encodable prompt = true /\
      Codec.utf8_encodable rewritten = true /\
      log_file w' = log_file w ++ audit_record prompt rewritten /\
      svc_calls w' = S (svc_calls w) /\ rand_draws w' = rand_draws w /\
      slept w' = slept w /\
      out_files w' = out_files w /\ summaries w' = summaries w
  | (None, w') =>
      accepted prompt (service (svc_calls w) prompt) = false /\
      log_file w' = log_file w ++ logged prompt (service (svc_calls w) prompt) /\
      svc_calls w' = S (svc_calls w) /\ rand_draws w' = rand_draws w /\
      slept w' = slept w /\
      out_files w' = out_files w /\ summaries w' = summaries w
  end.
Proof.
  destruct (accepted prompt (service (svc_calls w) prompt)) eqn:Hacc.
  - destruct (accepted_inv _ _ Hacc) as (t & Ht & Hlen & Hp & Hr).
    rewrite (attempt_accepted prompt t w Ht Hlen Hp Hr). cbn.
    split; [eauto|]. tauto.
  - rewrite (attempt_not_accepted prompt w Hacc). cbn. tauto.
Qed.

Lemma call_openai_for_cons (delay : Z) (delays : list Z) (prompt : text)
    (w w1 : world) :
  (if (delay =? 0)%Z then ret tt else sleep (inject_Z delay)) w = (Ok tt, w1) ->
  call_openai_for service (delay :: delays) prompt w =
    match attempt service prompt w1 with
    | (Some rewritten, w') => (Ok rewritten, w')
    | (None, w') => call_openai_for service delays prompt w'
    end.
Proof.
  intros H. cbn [call_openai_for]. unfold bind. now rewrite H.
Qed.

Lemma concat_repeat_S {A} (c : list A) (k : nat) :
  concat (repeat c (S k)) = c ++ concat (repeat c k).
Proof. reflexivity. Qed.

(** A run of the retry loop that returns a text: the log ends with the
    audit block of that text, after the blocks, cut before the answer,
    of the attempts whose write to the log failed. *)
Lemma call_openai_for_Ok (delays : list Z) (prompt r : text) (w w' : world) :
  call_openai_for service delays prompt w = (Ok r, w') ->
  (exists n output_text,
     (svc_calls w <= n < svc_calls w')%nat /\
     service n prompt = SvcText output_text /\ r = strip output_text) /\
  (5 < length r)%nat /\
  Codec.utf8_encodable prompt = true /\
  Codec.utf8_encodable r = true /\
  (exists k,
     (k < length delays)%nat /\
     log_file w' =
       log_file w ++ concat (repeat (cut_at_output prompt) k)
       ++ audit_record prompt r) /\
  (svc_calls w < svc_calls w' <= svc_calls w + length delays)%nat /\
  rand_draws w' = rand_draws w /\
  out_files w' = out_files w /\ summaries w' = summaries w.
Proof.
  revert w. induction delays as [|delay delays IH]; intros w Hrun.
  - discriminate.
  - cbn [call_openai_for] in Hrun. unfold bind in Hrun.
    destruct ((if (delay =? 0)%Z then ret tt else sleep (inject_Z delay)) w)
      as [[[]|e] w1] eqn:Hpause; [|discriminate].
    apply pause_frame in Hpause as (Hc & Hr & Hl & Ho & Hs).
    pose proof (attempt_spec prompt w1) as Hatt.
    destruct (attempt service prompt w1) as [[rewritten|] w2].
    + injection Hrun as -> ->.
      destruct Hatt
        as ((t & Ht & ->) & Hlen & Hp & Hre & Hl2 & Hc2 & Hr2 & _ & Ho2 & Hs2).
      cbn [length].
      split; [|split; [exact Hlen|split; [exact Hp|split; [exact Hre|]]]].
      { exists (svc_calls w), t. rewrite <- Hc at 3.
        split; [lia|]. split; [congruence|reflexivity]. }
      split; [exists 0%nat; split; [lia|now rewrite Hl2, Hl]|].
      repeat split; try congruence; lia.
    + destruct Hatt as (Hacc & Hl2 & Hc2 & Hr2 & _ & Ho2 & Hs2).
      apply IH in Hrun
        as ((n & t & Hn & Ht & ->) & Hlen & Hp & Hre & (k & Hk & Hl3)
            & Hc3 & Hr3 & Ho3 & Hs3).
      cbn [length].
      split; [|split; [exact Hlen|split; [exact Hp|split; [exact Hre|]]]].
      { exists n, t. split; [lia|]. split; [exact Ht|reflexivity]. }
      split.
      { destruct (logged_not_accepted _ _ Hacc Hp) as [Hnone|Hcut].
        - exists k. split; [lia|]. rewrite Hl3, Hl2, Hnone, app_nil_r.
          congruence.
        - exists (S k). split; [lia|].
          rewrite Hl3, Hl2, Hcut, concat_repeat_S, Hl, <- !app_assoc.
          reflexivity. }
      repeat split; try congruence; lia.
Qed.

(** A run of the retry loop, however it ends: the log holds what it held,
    followed by what each attempt left. *)
Lemma call_openai_for_log (delays : list Z) (prompt : text)
    (r : result text) (w w' : world) :
  call_openai_for service delays prompt w = (r, w') ->
  (svc_calls w <= svc_calls w' <= svc_calls w + length delays)%nat /\
  log_file w' =
    log_file w
    ++ logged_from service prompt (svc_calls w) (svc_calls w' - svc_calls w).
Proof.
  revert w. induction delays as [|delay delays IH]; intros w Hrun.
  - injection Hrun as _ <-. rewrite Nat.sub_diag. cbn.
    split; [lia|]. unfold logged_from. cbn. now rewrite app_nil_r.
  - cbn [call_openai_for] in Hrun. unfold bind in Hrun.
    destruct ((if (delay =? 0)%Z then ret tt else sleep (inject_Z delay)) w)
      as [[[]|e] w1] eqn:Hpause.
    + apply pause_frame in Hpause as (Hc & _ & Hl & _).
      pose proof (attempt_spec prompt w1) as Hatt.
      destruct (attempt service prompt w1) as [[rewritten|] w2].
      * injection Hrun as _ <-.
        destruct Hatt
          as ((t & Ht & ->) & Hlen & Hp & Hre & Hl2 & Hc2 & _).
        cbn [length]. split; [lia|].
        replace (svc_calls w2 - svc_calls w)%nat with 1%nat by lia.
        unfold logged_from. cbn [seq List.map concat].
        rewrite Nat.add_0_r, app_nil_r, <- Hc, Ht, Hl2, Hl.
        f_equal. cbn [logged].
        destruct (Nat.leb_spec (length (strip t)) 5); [lia|].
        now rewrite Hp, Hre.
      * destruct Hatt as (Hacc & Hl2 & Hc2 & _).
        apply IH in Hrun as (Hc3 & Hl3).
        cbn [length]. split; [lia|].
        replace (svc_calls w' - svc_calls w)%nat
          with (S (svc_calls w' - svc_calls w2))%nat by lia.
        unfold logged_from in *. cbn [seq List.map concat].
        rewrite Hl3, Hl2, Hl, Hc, Nat.add_0_r, <- app_assoc.
        do 3 f_equal. rewrite <- seq_shift, List.map_map.
        apply List.map_ext. intros i. rewrite Hc2, Hc.
        now rewrite Nat.add_succ_r.
    + injection Hrun as _ <-.
      apply pause_frame in Hpause as (Hc & _ & Hl & _).
      rewrite Hc, Nat.sub_diag, Hl. unfold logged_from. cbn.
      split; [lia|]. now rewrite app_nil_r.
Qed.

(** A run of the retry loop that raises wrote no whole block: the log
    was at most appended to, and the files are as they were. *)
Lemma call_openai_for_Raise (delays : list Z) (prompt : text) (e : exn)
    (w w' : world) :
  call_openai_for service delays prompt w = (Raise e, w') ->
  log_file w `prefix_of` log_file w' /\ rand_draws w' = rand_draws w /\
  out_files w' = out_files w /\ summaries w' = summaries w.
Proof.
  intros Hrun. split.
  { apply call_openai_for_log in Hrun as (_ & ->). now eexists. }
  revert w Hrun. induction delays as [|delay delays IH]; intros w Hrun.
  - now injection Hrun as <- <-.
  - cbn [call_openai_for] in Hrun. unfold bind in Hrun.
    destruct ((if (delay =? 0)%Z then ret tt else sleep (inject_Z delay)) w)
      as [[[]|e1] w1] eqn:Hpause.
    + apply pause_frame in Hpause as (Hc & Hr & Hl & Ho & Hs).
      pose proof (attempt_spec prompt w1) as Hatt.
      destruct (attempt service prompt w1) as [[rewritten|] w2];
        [discriminate|].
      destruct Hatt as (_ & Hl2 & Hc2 & Hr2 & _ & Ho2 & Hs2).
      apply IH in Hrun as (Hr3 & Ho3 & Hs3).
      repeat split; congruence.
    + injection Hrun as <- <-.
      apply pause_frame in Hpause as (Hc & Hr & Hl & Ho & Hs). tauto.
Qed.

(** With a schedule of non-negative delays the loop raises nothing but
    the [RuntimeError] that follows it. *)
Lemma call_openai_for_RuntimeError (delays : list Z) (prompt : text)
    (e : exn) (w w' : world) :
  Forall (fun d => (0 <= d)%Z) delays ->
  call_openai_for service delays prompt w = (Raise e, w') ->
  e = RuntimeError.
Proof.
  intros Hpos. revert w.
  induction Hpos as [|delay delays Hd _ IH]; intros w Hrun.
  - now injection Hrun as <- _.
  - destruct (pause_nonneg delay w Hd) as (w1 & Hpause).
    rewrite (call_openai_for_cons _ _ _ _ _ Hpause) in Hrun.
    destruct (attempt service prompt w1) as [[rewritten|] w2];
      [discriminate|].
    now apply IH in Hrun.
Qed.

(** Every answer rejected: one attempt per entry of the schedule, then the
    [RuntimeError]. *)
Lemma call_openai_for_all_rejected (delays : list Z) (prompt : text)
    (w : world) :
  Forall (fun d => (0 <= d)%Z) delays ->
  (forall n, rejected (service n prompt) = true) ->
  exists w',
    call_openai_for service delays prompt w = (Raise RuntimeError, w') /\
    svc_calls w' = (svc_calls w + length delays)%nat.
Proof.
  intros Hpos Hrej. revert w.
  induction Hpos as [|delay delays Hd _ IH]; intros w.
  - exists w. split; [reflexivity|]. cbn. lia.
  - destruct (pause_nonneg delay w Hd) as (w1 & Hpause).
    rewrite (call_openai_for_cons _ _ _ _ _ Hpause).
    apply pause_frame in Hpause as (Hc & _).
    rewrite (attempt_rejected prompt w1 (Hrej _)).
    destruct (IH (snd (responses_create service prompt w1))) as (w' & Hrun & Hn).
    exists w'. split; [exact Hrun|]. rewrite Hn. cbn. lia.
Qed.

End CallFacts.

Section RetryFacts.
Import Json Pipeline Observations.

Variable service : nat -> text -> svc_outcome.

(** The pause before an attempt, exactly. *)
Lemma pause_exact (delay : Z) (w : world) :
  (0 <= delay)%Z ->
  (if (delay =? 0)%Z then ret tt else sleep (inject_Z delay)) w
  = (Ok tt,
     mk_world (svc_calls w) (rand_draws w) (log_file w)
       (slept w ++ sleeps_of [delay]) (out_files w) (summaries w)).
Proof.
  intros Hd. unfold sleeps_of. cbn [List.filter].
  destruct (delay =? 0)%Z; cbn [negb List.map].
  - unfold ret. rewrite app_nil_r. now destruct w.
  - unfold sleep.
    assert (H : Qle_bool 0 (inject_Z delay) = true).
    { apply Qle_bool_iff. unfold Qle. cbn. lia. }
    now rewrite H.
Qed.

Lemma sleeps_of_cons (delay : Z) (delays : list Z) :
  sleeps_of (delay :: delays) = sleeps_of [delay] ++ sleeps_of delays.
Proof.
  unfold sleeps_of. cbn [List.filter].
  destruct (negb (delay =? 0)%Z); reflexivity.
Qed.

Lemma logged_from_S (prompt : text) (n k : nat) :
  logged_from service prompt n (S k)
  = logged prompt (service n prompt) ++ logged_from service prompt (S n) k.
Proof.
  unfold logged_from. cbn [seq List.map concat]. rewrite Nat.add_0_r.
  f_equal. rewrite <- seq_shift, List.map_map. f_equal.
  apply List.map_ext. intros i. now rewrite Nat.add_succ_r.
Qed.

(** Rejected answers leave nothing in the log. *)
Lemma logged_from_rejected (prompt : text) (n k : nat) :
  (forall i, (i < k)%nat -> rejected (service (n + i) prompt) = true) ->
  logged_from service prompt n k = [].
Proof.
  revert n. induction k as [|k IH]; intros n Hrej; [reflexivity|].
  rewrite logged_from_S, IH.
  - specialize (Hrej 0%nat ltac:(lia)). rewrite Nat.add_0_r in Hrej.
    rewrite (proj2 (rejected_not_accepted service prompt _ Hrej)). reflexivity.
  - intros i Hi. specialize (Hrej (S i) ltac:(lia)).
    now rewrite Nat.add_succ_r in Hrej.
Qed.

(** The loop when the first [k] answers are rejected and the next one is
    accepted. *)
Lemma call_openai_for_accept_at (delays : list Z) (prompt output_text : text)
    (k : nat) (w : world) :
  Forall (fun d => (0 <= d)%Z) delays ->
  (k < length delays)%nat ->
  (forall i, (i < k)%nat ->
     rejected (service (svc_calls w + i) prompt) = true) ->
  service (svc_calls w + k) prompt = SvcText output_text ->
  (5 < length (strip output_text))%nat ->
  Codec.utf8_encodable prompt = true ->
  Codec.utf8_encodable (strip output_text) = true ->
  call_openai_for service delays prompt w
  = (Ok (strip output_text),
     mk_world (svc_calls w + S k) (rand_draws w)
       (log_file w ++ audit_record prompt (strip output_text))
       (slept w ++ sleeps_of (firstn (S k) delays))
       (out_files w) (summaries w)).
Proof.
  intros Hpos. revert k w.
  induction Hpos as [|delay delays Hd _ IH];
    intros k w Hk Hrej Hsvc Hlen Hp Hr.
  - cbn in Hk. lia.
  - rewrite (call_openai_for_cons service _ _ _ _ _ (pause_exact delay w Hd)).
    set (w1 := mk_world _ _ _ _ _ _).
    destruct k as [|k].
    + rewrite (attempt_accepted service prompt output_text w1);
        [|cbn; now rewrite <- Hsvc, Nat.add_0_r|exact Hlen|exact Hp|exact Hr].
      unfold log_append, responses_create, w1.
      cbn [snd svc_calls rand_draws log_file slept out_files summaries firstn].
      now rewrite Nat.add_1_r.
    + rewrite (attempt_rejected service prompt w1);
        [|cbn; now rewrite <- (Hrej 0%nat), Nat.add_0_r by lia].
      rewrite (IH k); cbn [length] in *; try lia; try assumption.
      * unfold responses_create, w1.
        cbn [snd svc_calls rand_draws log_file slept out_files summaries].
        change (firstn (S (S k)) (delay :: delays))
          with (delay :: firstn (S k) delays).
        rewrite (sleeps_of_cons delay (firstn (S k) delays)).
        rewrite <- app_assoc. do 2 f_equal. lia.
      * intros i Hi. specialize (Hrej (S i) ltac:(lia)).
        rewrite Nat.add_succ_r in Hrej. exact Hrej.
      * rewrite Nat.add_succ_r in Hsvc. exact Hsvc.
Qed.

(** The loop when it raises: with a schedule of non-negative delays that
    is the [RuntimeError], after one attempt per entry, none of them
    accepted; the log holds what those attempts left. *)
Lemma call_openai_for_Raise_inv (delays : list Z) (prompt : text) (e : exn)
    (w w' : world) :
  Forall (fun d => (0 <= d)%Z) delays ->
  call_openai_for service delays prompt w = (Raise e, w') ->
  e = RuntimeError /\
  (forall i, (i < length delays)%nat ->
     accepted prompt (service (svc_calls w + i) prompt) = false) /\
  w' = mk_world (svc_calls w + length delays) (rand_draws w)
         (log_file w
          ++ logged_from service prompt (svc_calls w) (length delays))
         (slept w ++ sleeps_of delays) (out_files w) (summaries w).
Proof.
  intros Hpos. revert w.
  induction Hpos as [|delay delays Hd _ IH]; intros w Hrun.
  - injection Hrun as <- <-. split; [reflexivity|]. split.
    + intros i Hi. cbn in Hi. lia.
    + cbn. rewrite Nat.add_0_r, !app_nil_r. now destruct w.
  - rewrite (call_openai_for_cons service _ _ _ _ _ (pause_exact delay w Hd))
      in Hrun.
    set (w1 := mk_world _ _ _ _ _ _) in Hrun.
    pose proof (attempt_spec service prompt w1) as Hatt.
    destruct (attempt service prompt w1) as [[r|] w2] eqn:Hattempt;
      [discriminate|].
    destruct Hatt as (Hacc & _).
    rewrite attempt_not_accepted in Hattempt by exact Hacc.
    injection Hattempt as <-.
    apply IH in Hrun as (-> & Hall & ->).
    split; [reflexivity|]. split.
    + intros [|i] Hi.
      * rewrite Nat.add_0_r. exact Hacc.
      * cbn [length] in Hi. specialize (Hall i ltac:(lia)).
        rewrite Nat.add_succ_r. exact Hall.
    + unfold responses_create, log_append, w1.
      cbn [snd svc_calls rand_draws log_file slept out_files summaries length].
      rewrite (sleeps_of_cons delay delays), logged_from_S, <- !app_assoc.
      f_equal. lia.
Qed.

End RetryFacts.

(** C2. For a backoff schedule of length N (of non-negative delays) and a
    service whose every answer is rejected (a transport error, or text
    whose stripped length is at most 5), [call_openai] makes exactly N+1
    calls of the service and then raises [RuntimeError]; with
    [RETRY_DELAYS = [1; 2; 5; 10]] that is 5 calls. *)
Theorem retry_termination
    (service : nat -> text -> Pipeline.svc_outcome)
    (retry_delays : list Z) (prompt : text) (w : Pipeline.world) :
  Forall (fun d => (0 <= d)%Z) retry_delays ->
  (forall n, Pipeline.rejected (service n prompt) = true) ->
  (exists w',
     Pipeline.call_openai_with service retry_delays prompt w
       = (Json.Raise Json.RuntimeError, w') /\
     Pipeline.svc_calls w'
       = (Pipeline.svc_calls w + (length retry_delays + 1))%nat) /\
  (exists w',
     Pipeline.call_openai service prompt w
       = (Json.Raise Json.RuntimeError, w') /\
     Pipeline.svc_calls w' = (Pipeline.svc_calls w + 5)%nat).
Proof.
  intros Hpos Hrej. split.
  - destruct (call_openai_for_all_rejected service (0%Z :: retry_delays)
                prompt w) as (w' & Hrun & Hn); [|exact Hrej|].
    { constructor; [lia|exact Hpos]. }
    exists w'. split; [exact Hrun|]. rewrite Hn. cbn [length]. lia.
  - destruct (call_openai_for_all_rejected service
                (0%Z :: Pipeline.RETRY_DELAYS) prompt w)
      as (w' & Hrun & Hn); [|exact Hrej|].
    { repeat constructor; lia. }
    exists w'. split; [exact Hrun|]. rewrite Hn. reflexivity.
Qed.

Lemma retry_termination_witness :
  (exists w',
     Pipeline.call_openai_with (fun _ _ => Pipeline.SvcText (str " ok  "))
       [1; 2; 5; 10]%Z (str "p") (Pipeline.mk_world 0 0 [] [] ∅ [])
       = (Json.Raise Json.RuntimeError, w') /\
     Pipeline.svc_calls w' = 5%nat) /\
  (exists w',
     Pipeline.call_openai (fun _ _ => Pipeline.SvcText (str " ok  "))
       (str "p") (Pipeline.mk_world 0 0 [] [] ∅ [])
       = (Json.Raise Json.RuntimeError, w') /\
     Pipeline.svc_calls w' = 5%nat).
Proof.
  apply (retry_termination (fun _ _ => Pipeline.SvcText (str " ok  "))
           [1; 2; 5; 10]%Z (str "p") (Pipeline.mk_world 0 0 [] [] ∅ [])).
  - repeat constructor; lia.
  - intros n. reflexivity.
Defined.

Section RewriteFacts.
Import Json Pipeline Observations.

Variable service : nat -> text -> svc_outcome.
Variable random_index : nat -> nat.

Lemma call_openai_Ok (prompt r : text) (w w' : world) :
  call_openai service prompt w = (Ok r, w') ->
  (exists n output_text,
     (svc_calls w <= n < svc_calls w')%nat /\
     service n prompt = SvcText output_text /\ r = strip output_text) /\
  (5 < length r)%nat /\
  Codec.utf8_encodable prompt = true /\
  Codec.utf8_encodable r = true /\
  (exists k,
     (k <= 4)%nat /\
     log_file w' =
       log_file w ++ concat (repeat (cut_at_output prompt) k)
       ++ audit_record prompt r) /\
  (svc_calls w < svc_calls w' <= svc_calls w + 5)%nat /\
  rand_draws w' = rand_draws w /\
  out_files w' = out_files w /\ summaries w' = summaries w.
Proof.
  intros Hrun. apply call_openai_for_Ok in Hrun
    as (H1 & H2 & H3 & H4 & (k & Hk & H5) & H6).
  split; [exact H1|]. split; [exact H2|]. split; [exact H3|].
  split; [exact H4|]. split; [|exact H6].
  exists k. split; [|exact H5]. cbn [length RETRY_DELAYS] in Hk. lia.
Qed.

Lemma call_openai_Raise (prompt : text) (e : exn) (w w' : world) :
  call_openai service prompt w = (Raise e, w') ->
  log_file w `prefix_of` log_file w' /\ rand_draws w' = rand_draws w /\
  out_files w' = out_files w /\ summaries w' = summaries w.
Proof. apply call_openai_for_Raise. Qed.

(** The first attempt of [call_openai] is made without a pause. *)
Lemma call_openai_first (prompt : text) (w : world) :
  call_openai service prompt w =
    match attempt service prompt w with
    | (Some rewritten, w') => (Ok rewritten, w')
    | (None, w') => call_openai_for service RETRY_DELAYS prompt w'
    end.
Proof.
  unfold call_openai, call_openai_with.
  now apply call_openai_for_cons.
Qed.

Lemma random_choice_styles (w : world) :
  exists style,
    random_choice random_index CLINICIAN_STYLES w =
      (Ok style,
       mk_world (svc_calls w) (S (rand_draws w)) (log_file w) (slept w)
         (out_files w) (summaries w)) /\
    In style CLINICIAN_STYLES.
Proof.
  unfold random_choice. cbn [CLINICIAN_STYLES].
  eexists. split; [reflexivity|].
  apply nth_In. cbn [length]. apply Nat.mod_upper_bound. discriminate.
Qed.


Lemma rewrite_base64_note_skip (b64_text : json) (w : world) :
  b64decode_utf8 b64_text = None ->
  rewrite_base64_note service random_index b64_text w = (Ok b64_text, w).
Proof. intros H. unfold rewrite_base64_note. now rewrite H. Qed.


(** A rewrite that returns after a successful decode: the token it returns
    encodes the text that [call_openai] accepted and logged. *)
Lemma rewrite_base64_note_Ok (b64_text b64_text' : json) (decoded : text)
    (w w' : world) :
  b64decode_utf8 b64_text = Some decoded ->
  rewrite_base64_note service random_index b64_text w = (Ok b64_text', w') ->
  exists style new_text token,
    In style CLINICIAN_STYLES /\
    (exists n output_text,
       service n (build_prompt decoded style) = SvcText output_text /\
       new_text = strip output_text) /\
    (5 < length new_text)%nat /\
    (exists k,
       (k <= 4)%nat /\
       log_file w' =
         log_file w
         ++ concat (repeat (cut_at_output (build_prompt decoded style)) k)
         ++ audit_record (build_prompt decoded style) new_text) /\
    Codec.encode new_text = Some token /\
    b64_text' = JStr token /\
    b64decode_utf8 b64_text' = Some new_text /\
    (svc_calls w < svc_calls w')%nat /\
    out_files w' = out_files w /\ summaries w' = summaries w.
Proof.
  intros Hdec Hrun. unfold rewrite_base64_note in Hrun. rewrite Hdec in Hrun.
  destruct (random_choice_styles w) as (style & Hstyle & Hin).
  rewrite (bind_Ok _ _ _ _ _ Hstyle) in Hrun.
  apply bind_inv_Ok in Hrun as (new_text & w1 & Hcall & Hrun).
  apply call_openai_Ok in Hcall
    as ((n & t & _ & Ht & ->) & Hlen & _ & _ & Hlog & Hcalls & _ & Hout & Hsum).
  destruct (Codec.encode (strip t)) as [token|] eqn:Henc; [|discriminate].
  injection Hrun as <- <-.
  exists style, (strip t), token. cbn in Hlog, Hcalls, Hout, Hsum.
  split; [exact Hin|]. split; [eauto|]. split; [exact Hlen|].
  split; [exact Hlog|]. split; [exact Henc|]. split; [reflexivity|].
  split; [now apply decode_encode|]. split; [lia|]. now split.
Qed.

(** A rewrite raises only the [RuntimeError] of [call_openai]: a text that
    [call_openai] returns was written to the log, so the last line can
    encode it.  The files are as they were. *)
Lemma rewrite_base64_note_Raise (b64_text : json) (e : exn) (w w' : world) :
  rewrite_base64_note service random_index b64_text w = (Raise e, w') ->
  e = RuntimeError /\
  out_files w' = out_files w /\ summaries w' = summaries w.
Proof.
  unfold rewrite_base64_note.
  destruct (b64decode_utf8 b64_text) as [decoded|]; [|discriminate].
  destruct (random_choice_styles w) as (style & Hstyle & Hin).
  rewrite (bind_Ok _ _ _ _ _ Hstyle). intros Hrun.
  apply bind_inv_Raise in Hrun as [Hcall|(new_text & w1 & Hcall & Hrun)].
  - pose proof Hcall as Hframe.
    apply call_openai_Raise in Hframe as (_ & _ & Hout & Hsum).
    split; [|now cbn in *].
    apply call_openai_for_RuntimeError in Hcall; [exact Hcall|].
    repeat constructor; lia.
  - apply call_openai_Ok in Hcall as (_ & _ & _ & Hre & _).
    destruct (utf8_encodable_encode new_text Hre) as [token Htok].
    rewrite Htok in Hrun. discriminate.
Qed.

End RewriteFacts.

(** C6, as the code has it. With [output_text] the answer of the service
    to the first attempt of [call_openai], the attempt accepts it exactly
    when the length of the stripped text exceeds 5 and the audit block can
    be written to the log (the prompt and the stripped text are text that
    UTF-8 can encode); an accepted text is returned at once, with its block
    in the log; a text of length 5 or less (the empty string included) is
    dropped with nothing logged, and a longer one that the log cannot take
    is dropped with the beginning of its block in the log; either way the
    loop goes on with the retries of the schedule; and no text of length 5
    or less is ever returned. *)
Theorem validation_threshold
    (service : nat -> text -> Pipeline.svc_outcome)
    (prompt output_text : text) (w : Pipeline.world) :
  service (Pipeline.svc_calls w) prompt = Pipeline.SvcText output_text ->
  let rewritten := Pipeline.strip output_text in
  let w1 := snd (Pipeline.responses_create service prompt w) in
  (fst (Pipeline.attempt service prompt w) = Some rewritten
   <-> (5 < length rewritten)%nat /\
       Codec.utf8_encodable prompt = true /\
       Codec.utf8_encodable rewritten = true) /\
  ((length rewritten <= 5)%nat ->
   Pipeline.call_openai service prompt w
   = Pipeline.call_openai_for service Pipeline.RETRY_DELAYS prompt w1) /\
  Pipeline.call_openai service prompt w =
    (if (5 <? length rewritten)%nat && Codec.utf8_encodable prompt
        && Codec.utf8_encodable rewritten
     then (Json.Ok rewritten,
           Pipeline.log_append (Pipeline.audit_record prompt rewritten) w1)
     else Pipeline.call_openai_for service Pipeline.RETRY_DELAYS prompt
            (Pipeline.log_append
               (Observations.logged prompt (Pipeline.SvcText output_text))
               w1)) /\
  match Pipeline.call_openai service prompt w with
  | (Json.Ok r, _) => (5 < length r)%nat
  | (Json.Raise _, _) => True
  end.
Proof.
  intros Hsvc rewritten w1.
  assert (Hrun : Pipeline.call_openai service prompt w =
    (if Observations.accepted prompt (Pipeline.SvcText output_text)
     then (Json.Ok rewritten,
           Pipeline.log_append (Pipeline.audit_record prompt rewritten) w1)
     else Pipeline.call_openai_for service Pipeline.RETRY_DELAYS prompt
            (Pipeline.log_append
               (Observations.logged prompt (Pipeline.SvcText output_text))
               w1))).
  { rewrite call_openai_first.
    destruct (Observations.accepted prompt (Pipeline.SvcText output_text))
      eqn:Hacc.
    - destruct (accepted_inv _ _ Hacc) as (t & [= <-] & Hlen & Hp & Hr).
      now rewrite (attempt_accepted service prompt output_text w).
    - rewrite <- Hsvc in Hacc.
      rewrite (attempt_not_accepted service prompt w Hacc). now rewrite Hsvc. }
  split; [|split; [|split]].
  - split.
    + intros Hfst.
      pose proof (attempt_spec service prompt w) as Hatt.
      destruct (Pipeline.attempt service prompt w) as [[r|] w'];
        [|discriminate].
      injection Hfst as ->. tauto.
    + intros (Hlen & Hp & Hr).
      now rewrite (attempt_accepted service prompt output_text w).
  - intros Hlen. rewrite call_openai_first, attempt_rejected; [reflexivity|].
    rewrite Hsvc. cbn. now apply Nat.leb_le.
  - exact Hrun.
  - destruct (Pipeline.call_openai service prompt w) as [[r|e] w'] eqn:Hcall;
      [|exact I].
    now apply call_openai_Ok in Hcall as (_ & Hlen & _).
Qed.

Lemma validation_threshold_witness :
  let service := fun (n : nat) (_ : text) =>
    match n with
    | O => Pipeline.SvcText (str "  ok  ")
    | _ => Pipeline.SvcText (str " Rewritten note. ")
    end in
  let w := Pipeline.mk_world 0 0 [] [] ∅ [] in
  Pipeline.call_openai service (str "p") w =
    Pipeline.call_openai_for service Pipeline.RETRY_DELAYS (str "p")
      (snd (Pipeline.responses_create service (str "p") w)) /\
  fst (Pipeline.call_openai service (str "p") w)
    = Json.Ok (str "Rewritten note.").
Proof.
  intros service w.
  destruct (validation_threshold service (str "p") (str "  ok  ") w eq_refl)
    as (_ & Hrun & _).
  split; [apply Hrun; vm_compute; lia|]. vm_compute. reflexivity.
Defined.

(** C6, as stated, fails: the answer made of a lone surrogate followed by
    ["ABCDEF"] has length 7 once stripped, and the attempt does not accept
    it, because the write of the answer to the log raises inside the
    [try]. *)
Lemma long_answer_not_accepted :
  let output_text := 0xD800 :: str "ABCDEF" in
  let service := fun (_ : nat) (_ : text) => Pipeline.SvcText output_text in
  let w := Pipeline.mk_world 0 0 [] [] ∅ [] in
  ~ (fst (Pipeline.attempt service (str "p") w)
       = Some (Pipeline.strip output_text)
     <-> (5 < length (Pipeline.strip output_text))%nat).
Proof.
  intros output_text service w [_ H].
  assert (Hlen : (5 < length (Pipeline.strip output_text))%nat)
    by (vm_compute; lia).
  specialize (H Hlen). vm_compute in H. discriminate H.
Qed.

(** C9. A text that [call_openai] returns is the stripped answer of the
    service: it is longer than 5 characters after stripping, it neither
    starts nor ends with whitespace, its audit block is what the log ends
    with (after the blocks, cut before the answer, of the attempts of the
    call whose write to the log failed), and it is the text that
    [rewrite_base64_note] encodes into the token it returns. *)
Theorem accepted_text_is_stripped
    (service : nat -> text -> Pipeline.svc_outcome)
    (random_index : nat -> nat) :
  (forall prompt r w w',
     Pipeline.call_openai service prompt w = (Json.Ok r, w') ->
     (exists n output_text,
        service n prompt = Pipeline.SvcText output_text /\
        r = Pipeline.strip output_text) /\
     (5 < length r)%nat /\
     Pipeline.strip r = r /\
     (forall c s, r = c :: s -> Pipeline.isspace c = false) /\
     (forall c s, r = s ++ [c] -> Pipeline.isspace c = false) /\
     exists k,
       (k <= 4)%nat /\
       Pipeline.log_file w' =
         Pipeline.log_file w
         ++ concat (repeat (Observations.cut_at_output prompt) k)
         ++ Pipeline.audit_record prompt r) /\
  (forall b64_text decoded b64_text' w w',
     Pipeline.b64decode_utf8 b64_text = Some decoded ->
     Pipeline.rewrite_base64_note service random_index b64_text w
       = (Json.Ok b64_text', w') ->
     exists r,
       Pipeline.b64decode_utf8 b64_text' = Some r /\
       Pipeline.strip r = r /\ (5 < length r)%nat /\
       (forall c s, r = c :: s -> Pipeline.isspace c = false) /\
       (forall c s, r = s ++ [c] -> Pipeline.isspace c = false)).
Proof.
  split.
  - intros prompt r w w' Hrun.
    apply (call_openai_Ok service random_index) in Hrun
      as ((n & t & _ & Ht & ->) & Hlen & _ & _ & Hlog & _).
    split; [exists n, t; now split|]. split; [exact Hlen|].
    split; [apply strip_idempotent|].
    split; [intros c s; apply strip_head|].
    split; [intros c s; apply strip_last|exact Hlog].
  - intros b64_text decoded b64_text' w w' Hdec Hrun.
    destruct (rewrite_base64_note_Ok service random_index _ _ _ _ _ Hdec Hrun)
      as (style & r & token & _ & (n & t & _ & ->) & Hlen & _ & _ & _ & Hd & _).
    exists (Pipeline.strip t).
    split; [exact Hd|]. split; [apply strip_idempotent|].
    split; [exact Hlen|].
    split; [intros c s; apply strip_head|intros c s; apply strip_last].
Qed.

Lemma accepted_text_is_stripped_witness :
  let service := fun (_ : nat) (_ : text) =>
    Pipeline.SvcText (str "  Rewritten note.   ") in
  let w := Pipeline.mk_world 0 0 [] [] ∅ [] in
  Pipeline.strip (str "Rewritten note.") = str "Rewritten note." /\
  exists r,
    Pipeline.b64decode_utf8 (Json.JStr (str "UmV3cml0dGVuIG5vdGUu")) = Some r /\
    Pipeline.strip r = r.
Proof.
  intros service w.
  destruct (accepted_text_is_stripped service (fun _ => 0%nat)) as (H1 & H2).
  split.
  - refine (proj1 (proj2 (proj2 (H1 (str "p") (str "Rewritten note.") w _ _)))).
    vm_compute. reflexivity.
  - destruct (H2 (Json.JStr (str "SGVsbG8gd29ybGQ=")) (str "Hello world")
                (Json.JStr (str "UmV3cml0dGVuIG5vdGUu")) w
                (snd (Pipeline.rewrite_base64_note service (fun _ => 0%nat)
                        (Json.JStr (str "SGVsbG8gd29ybGQ=")) w)))
      as (r & Hr & Hs & _).
    + vm_compute. reflexivity.
    + vm_compute. reflexivity.
    + exists r. split; [|exact Hs]. exact Hr.
Defined.

Section DictFacts.
Import Json.

Lemma dict_set_same (k : text) (v : json) (fields : list (text * json)) :
  dict_get k fields = Some v -> dict_set k v fields = fields.
Proof.
  induction fields as [|[k' v'] fields IH]; cbn; [discriminate|].
  destruct (decide (k = k')) as [->|Hne].
  - now intros [= ->].
  - intros H. now rewrite (IH H).
Qed.

Lemma dict_get_set (k : text) (v : json) (fields : list (text * json)) :
  dict_get k (dict_set k v fields) = Some v.
Proof.
  induction fields as [|[k' v'] fields IH]; cbn.
  - now destruct (decide (k = k)).
  - destruct (decide (k = k')) as [->|Hne]; cbn.
    + now destruct (decide (k' = k')).
    + now destruct (decide (k = k')).
Qed.

(** Replacing the value of a key by one with the same image under [f] is
    invisible behind [on_key k f]. *)
Lemma on_key_dict_set (k : text) (f : json -> json) (v v' : json)
    (fields : list (text * json)) :
  dict_get k fields = Some v -> f v' = f v ->
  on_key k f (JObj (dict_set k v' fields)) = on_key k f (JObj fields).
Proof.
  intros Hget Hf. cbn [on_key]. f_equal. revert Hget.
  induction fields as [|[k' x] fields IH]; cbn; [discriminate|].
  destruct (decide (k = k')) as [<-|Hne].
  - intros [= ->]. cbn. destruct (decide (k = k)); [|congruence].
    now rewrite Hf.
  - intros Hget. cbn. now rewrite (IH Hget).
Qed.

Lemma py_contains_dict (k : text) (fields : list (text * json)) :
  py_contains k (JObj fields) = Ok (bool_decide (is_Some (dict_get k fields))).
Proof. reflexivity. Qed.

Lemma contains_true_get (k : text) (fields : list (text * json)) :
  bool_decide (is_Some (dict_get k fields)) = true ->
  exists v, dict_get k fields = Some v.
Proof. intros H. apply bool_decide_eq_true in H. exact H. Qed.

Lemma contains_none (k : text) (fields : list (text * json)) :
  dict_get k fields = None ->
  bool_decide (is_Some (dict_get k fields)) = false.
Proof.
  intros H. apply bool_decide_eq_false. rewrite H. now intros [x Hx].
Qed.

Lemma on_items_store (f : json -> json) (v : json) (items items' : list json) :
  py_iter v = Ok items -> List.map f items' = List.map f items ->
  on_items f (py_iter_store v items') = on_items f v.
Proof.
  destruct v; cbn; try discriminate; try reflexivity.
  intros [= ->] H. now rewrite H.
Qed.

End DictFacts.

Section FilesKept.
Import Json Pipeline.

Variable service : nat -> text -> svc_outcome.
Variable random_index : nat -> nat.

Lemma files_kept_ret {A} (a : A) : files_kept (ret a).
Proof. intros w r w' [= <- <-]. tauto. Qed.

Lemma files_kept_raise {A} (e : exn) : files_kept (@raise A e).
Proof. intros w r w' [= <- <-]. tauto. Qed.

Lemma files_kept_lift {A} (x : result A) : files_kept (lift x).
Proof. intros w r w' [= <- <-]. tauto. Qed.

Lemma files_kept_bind {A B} (m : M A) (k : A -> M B) :
  files_kept m -> (forall a, files_kept (k a)) -> files_kept (bind m k).
Proof.
  intros Hm Hk w r w'. unfold bind.
  destruct (m w) as [[a|e] w1] eqn:E; apply Hm in E as (Ho & Hs).
  - intros Hrun. apply Hk in Hrun as (Ho' & Hs'). split; congruence.
  - intros [= <- <-]. tauto.
Qed.

Lemma files_kept_rewrite (b64_text : json) :
  files_kept (rewrite_base64_note service random_index b64_text).
Proof.
  intros w [tok|e] w' Hrun.
  - destruct (b64decode_utf8 b64_text) as [decoded|] eqn:Hdec.
    + destruct (rewrite_base64_note_Ok service random_index _ _ _ _ _ Hdec Hrun)
        as (_ & _ & _ & _ & _ & _ & _ & _ & _ & _ & Ho & Hs).
      tauto.
    + rewrite rewrite_base64_note_skip in Hrun by exact Hdec.
      injection Hrun as _ <-. tauto.
  - now apply rewrite_base64_note_Raise in Hrun.
Qed.

Lemma files_kept_process_pf (pf : json) (count : nat) :
  files_kept (process_pf service random_index pf count).
Proof.
  unfold process_pf.
  apply files_kept_bind; [apply files_kept_lift|]. intros [|].
  - apply files_kept_bind; [apply files_kept_lift|]. intros original.
    apply files_kept_bind; [apply files_kept_rewrite|]. intros rewritten.
    apply files_kept_bind; [apply files_kept_lift|]. intros pf'.
    apply files_kept_ret.
  - apply files_kept_ret.
Qed.

Lemma files_kept_process_resource_for (pf_list : list json) (count : nat) :
  files_kept (process_resource_for service random_index pf_list count).
Proof.
  revert count. induction pf_list as [|pf pf_list IH]; intros count;
    cbn [process_resource_for].
  - apply files_kept_ret.
  - apply files_kept_bind; [apply files_kept_process_pf|]. intros r.
    apply files_kept_bind; [apply IH|]. intros r'. apply files_kept_ret.
Qed.

Lemma files_kept_process_resource (resource : json) :
  files_kept (process_resource service random_index resource).
Proof.
  unfold process_resource.
  apply files_kept_bind; [apply files_kept_lift|]. intros has_pf.
  destruct (negb has_pf); [apply files_kept_ret|].
  apply files_kept_bind; [apply files_kept_lift|]. intros pf_list.
  apply files_kept_bind; [apply files_kept_lift|]. intros pfs.
  apply files_kept_bind; [apply files_kept_process_resource_for|]. intros r.
  destruct resource; apply files_kept_ret.
Qed.

Lemma files_kept_process_entry (entry : json) (rewritten_count : nat) :
  files_kept (process_entry service random_index entry rewritten_count).
Proof.
  unfold process_entry.
  apply files_kept_bind; [apply files_kept_lift|]. intros resource.
  destruct (py_truthy resource); [|apply files_kept_ret].
  apply files_kept_bind; [apply files_kept_process_resource|]. intros r.
  destruct entry; apply files_kept_ret.
Qed.

Lemma files_kept_process_file_for (entries : list json) (rewritten_count : nat) :
  files_kept (process_file_for service random_index entries rewritten_count).
Proof.
  revert rewritten_count.
  induction entries as [|entry entries IH]; intros rewritten_count;
    cbn [process_file_for].
  - apply files_kept_ret.
  - apply files_kept_bind; [apply files_kept_process_entry|]. intros r.
    apply files_kept_bind; [apply IH|]. intros r'. apply files_kept_ret.
Qed.

Lemma files_kept_process_data (data : json) :
  files_kept (process_data service random_index data).
Proof.
  unfold process_data.
  apply files_kept_bind; [apply files_kept_lift|]. intros [|].
  - apply files_kept_bind; [apply files_kept_lift|]. intros entry_list.
    apply files_kept_bind; [apply files_kept_lift|]. intros entries.
    apply files_kept_bind; [apply files_kept_process_file_for|]. intros r.
    destruct data; apply files_kept_ret.
  - apply files_kept_ret.
Qed.

End FilesKept.

Section FrameFacts.
Import Json Pipeline.

Variable service : nat -> text -> svc_outcome.
Variable random_index : nat -> nat.

Lemma process_pf_no_data (fields : list (text * json)) (count : nat)
    (w : world) :
  dict_get (str "data") fields = None ->
  process_pf service random_index (JObj fields) count w
    = (Ok (JObj fields, count), w).
Proof.
  intros Hget. unfold process_pf, bind, lift.
  rewrite py_contains_dict, (contains_none _ _ Hget). reflexivity.
Qed.

Lemma process_pf_skip (fields : list (text * json)) (b64_text : json)
    (count : nat) (w : world) :
  dict_get (str "data") fields = Some b64_text ->
  b64decode_utf8 b64_text = None ->
  process_pf service random_index (JObj fields) count w
    = (Ok (JObj fields, S count), w).
Proof.
  intros Hget Hdec. unfold process_pf, bind, lift.
  rewrite py_contains_dict.
  assert (Hc : bool_decide (is_Some (dict_get (str "data") fields)) = true).
  { apply bool_decide_eq_true. rewrite Hget. eauto. }
  rewrite Hc. cbn [py_getitem]. rewrite Hget.
  rewrite rewrite_base64_note_skip by exact Hdec.
  cbn [py_setitem]. now rewrite (dict_set_same _ _ _ Hget).
Qed.

(** One turn of the loop over [pf_list] changes at most the [data] value of
    the visited element. *)
Lemma process_pf_Ok (pf pf' : json) (count count' : nat) (w w' : world) :
  process_pf service random_index pf count w = (Ok (pf', count'), w') ->
  mask_pf pf' = mask_pf pf.
Proof.
  unfold process_pf. intros Hrun.
  apply bind_inv_Ok in Hrun as (has_data & w1 & Hc & Hrun).
  injection Hc as Hc <-.
  destruct has_data.
  - apply bind_inv_Ok in Hrun as (original & w2 & Hget & Hrun).
    injection Hget as Hget <-.
    apply bind_inv_Ok in Hrun as (rewritten & w3 & Hrw & Hrun).
    apply bind_inv_Ok in Hrun as (pf1 & w4 & Hset & Hrun).
    injection Hset as Hset <-. injection Hrun as <- _ _.
    destruct pf; try discriminate. cbn in Hget, Hset.
    destruct (dict_get (str "data") fields) as [v|] eqn:Hv; [|discriminate].
    injection Hset as <-.
    now apply (on_key_dict_set _ _ v).
  - now injection Hrun as <- _ _.
Qed.

Lemma process_resource_for_Ok (pf_list pf_list' : list json)
    (count count' : nat) (w w' : world) :
  process_resource_for service random_index pf_list count w
    = (Ok (pf_list', count'), w') ->
  List.map mask_pf pf_list' = List.map mask_pf pf_list.
Proof.
  revert pf_list' count count' w w'.
  induction pf_list as [|pf pf_list IH]; intros pf_list' count count' w w';
    cbn [process_resource_for]; intros Hrun.
  - now injection Hrun as <- _ _.
  - apply bind_inv_Ok in Hrun as ([pf1 c1] & w1 & Hpf & Hrun).
    apply bind_inv_Ok in Hrun as ([rest c2] & w2 & Hrest & Hrun).
    injection Hrun as <- _ _. cbn.
    f_equal; [now apply process_pf_Ok in Hpf|now apply IH in Hrest].
Qed.

Lemma process_resource_no_pf (fields : list (text * json)) (w : world) :
  dict_get (str "presentedForm") fields = None ->
  process_resource service random_index (JObj fields) w
    = (Ok (JObj fields, 0%nat), w).
Proof.
  intros Hget. unfold process_resource, bind, lift.
  rewrite py_contains_dict, (contains_none _ _ Hget). reflexivity.
Qed.

Lemma process_resource_Ok (resource resource' : json) (count : nat)
    (w w' : world) :
  process_resource service random_index resource w
    = (Ok (resource', count), w') ->
  mask_resource resource' = mask_resource resource.
Proof.
  unfold process_resource. intros Hrun.
  apply bind_inv_Ok in Hrun as (has_pf & w1 & Hc & Hrun).
  injection Hc as Hc <-.
  destruct has_pf; cbn [negb] in Hrun.
  - apply bind_inv_Ok in Hrun as (pf_list & w2 & Hget & Hrun).
    injection Hget as Hget <-.
    apply bind_inv_Ok in Hrun as (pfs & w3 & Hiter & Hrun).
    injection Hiter as Hiter <-.
    apply bind_inv_Ok in Hrun as ([pfs' c] & w4 & Hloop & Hrun).
    apply process_resource_for_Ok in Hloop.
    destruct resource; try discriminate.
    injection Hrun as <- _ _. cbn in Hc, Hget.
    injection Hc as Hc.
    apply contains_true_get in Hc as (v & Hv).
    rewrite Hv in Hget. injection Hget as ->.
    apply (on_key_dict_set _ _ pf_list); [exact Hv|].
    now apply (on_items_store _ _ pfs).
  - now injection Hrun as <- _ _.
Qed.

Lemma process_entry_Ok (entry entry' : json) (count count' : nat)
    (w w' : world) :
  process_entry service random_index entry count w
    = (Ok (entry', count'), w') ->
  mask_entry entry' = mask_entry entry.
Proof.
  unfold process_entry. intros Hrun.
  apply bind_inv_Ok in Hrun as (resource & w1 & Hget & Hrun).
  injection Hget as Hget <-.
  destruct (py_truthy resource) eqn:Htruthy.
  - apply bind_inv_Ok in Hrun as ([resource' c] & w2 & Hres & Hrun).
    apply process_resource_Ok in Hres.
    destruct entry; try discriminate.
    injection Hrun as <- _ _. cbn in Hget.
    destruct (dict_get (str "resource") fields) as [v|] eqn:Hv.
    + injection Hget as ->. now apply (on_key_dict_set _ _ resource).
    + injection Hget as <-. discriminate.
  - now injection Hrun as <- _ _.
Qed.

Lemma process_file_for_Ok (entries entries' : list json) (count count' : nat)
    (w w' : world) :
  process_file_for service random_index entries count w
    = (Ok (entries', count'), w') ->
  List.map mask_entry entries' = List.map mask_entry entries.
Proof.
  revert entries' count count' w w'.
  induction entries as [|entry entries IH]; intros entries' count count' w w';
    cbn [process_file_for]; intros Hrun.
  - now injection Hrun as <- _ _.
  - apply bind_inv_Ok in Hrun as ([e1 c1] & w1 & He & Hrun).
    apply bind_inv_Ok in Hrun as ([rest c2] & w2 & Hrest & Hrun).
    injection Hrun as <- _ _. cbn.
    f_equal; [now apply process_entry_Ok in He|now apply IH in Hrest].
Qed.

Lemma process_data_Ok (data data' : json) (count : nat) (w w' : world) :
  process_data service random_index data w = (Ok (data', count), w') ->
  mask_data data' = mask_data data.
Proof.
  unfold process_data. intros Hrun.
  apply bind_inv_Ok in Hrun as (has_entry & w1 & Hc & Hrun).
  injection Hc as Hc <-.
  destruct has_entry.
  - apply bind_inv_Ok in Hrun as (entry_list & w2 & Hget & Hrun).
    injection Hget as Hget <-.
    apply bind_inv_Ok in Hrun as (entries & w3 & Hiter & Hrun).
    injection Hiter as Hiter <-.
    apply bind_inv_Ok in Hrun as ([entries' c] & w4 & Hloop & Hrun).
    apply process_file_for_Ok in Hloop.
    destruct data; try discriminate.
    injection Hrun as <- _ _. cbn in Hget.
    destruct (dict_get (str "entry") fields) as [v|] eqn:Hv; [|discriminate].
    injection Hget as ->.
    apply (on_key_dict_set _ _ entry_list); [exact Hv|].
    now apply (on_items_store _ _ entries).
  - now injection Hrun as <- _ _.
Qed.

(** What [process_file] does to the output directory. *)
Lemma process_file_spec (f : file) (w : world) :
  match process_file service random_index f w with
  | (Ok _, w') =>
      exists data data' rewritten_count,
        file_json f = Some data /\
        mask_data data' = mask_data data /\
        dumpable data' = true /\
        out_files w' = <[file_name f := Whole data']> (out_files w) /\
        summaries w' = summaries w ++ [(file_name f, rewritten_count)]
  | (Raise e, w') =>
      summaries w' = summaries w /\
      (out_files w' = out_files w \/
       exists data data',
         file_json f = Some data /\
         mask_data data' = mask_data data /\
         dumpable data' = false /\
         e = UnicodeEncodeError /\
         out_files w' = <[file_name f := Cut data']> (out_files w))
  end.
Proof.
  unfold process_file, json_load.
  destruct (file_json f) as [data|]; [|cbn; tauto].
  unfold bind at 1. cbn [ret].
  unfold bind.
  destruct (process_data service random_index data w) as [[[data' c]|e] w1]
    eqn:Hrun.
  - pose proof (files_kept_process_data service random_index data _ _ _ Hrun)
      as (Ho & Hs).
    apply process_data_Ok in Hrun. unfold write_output. cbn [fst snd].
    destruct (dumpable data') eqn:Hdump; cbn [out_files summaries];
      rewrite Ho, Hs.
    + exists data, data', c. tauto.
    + split; [reflexivity|]. right. exists data, data'. tauto.
  - apply files_kept_process_data in Hrun. tauto.
Qed.

End FrameFacts.

(** C7. When [process_file] writes its output, the document written
    differs from the one loaded at most in the values of the
    [presentedForm[*].data] fields of its resources: with those values
    blanked on both sides the two documents are equal (same entries in the
    same order, same keys, same other values); a resource without a
    [presentedForm] key is returned as it was; and when [process_file]
    raises, either nothing is written, or [json.dump] raised and the file
    holds only the beginning of such a document. *)
Theorem structural_preservation
    (service : nat -> text -> Pipeline.svc_outcome)
    (random_index : nat -> nat) (f : Pipeline.file) (w : Pipeline.world) :
  match Pipeline.process_file service random_index f w with
  | (Json.Ok _, w') =>
      exists data data',
        Pipeline.file_json f = Some data /\
        Pipeline.out_files w'
          = <[Pipeline.file_name f := Pipeline.Whole data']>
              (Pipeline.out_files w) /\
        Json.mask_data data' = Json.mask_data data
  | (Json.Raise _, w') =>
      Pipeline.out_files w' = Pipeline.out_files w \/
      exists data data',
        Pipeline.file_json f = Some data /\
        Pipeline.out_files w'
          = <[Pipeline.file_name f := Pipeline.Cut data']>
              (Pipeline.out_files w) /\
        Json.mask_data data' = Json.mask_data data
  end /\
  (forall fields w0,
     Json.dict_get (str "presentedForm") fields = None ->
     Pipeline.process_resource service random_index (Json.JObj fields) w0
       = (Json.Ok (Json.JObj fields, 0%nat), w0)).
Proof.
  split.
  - pose proof (process_file_spec service random_index f w) as H.
    destruct (Pipeline.process_file service random_index f w) as [[[]|e] w'].
    + destruct H as (data & data' & c & Hf & Hm & _ & Ho & _).
      exists data, data'. tauto.
    + destruct H as (_ & [H|(data & data' & Hf & Hm & _ & _ & Ho)]);
        [now left|].
      right. exists data, data'. tauto.
  - intros fields w0. apply process_resource_no_pf.
Qed.

Lemma structural_preservation_witness :
  let service := fun (_ : nat) (_ : text) =>
    Pipeline.SvcText (str "Rewritten note.") in
  let random_index := fun _ : nat => 0%nat in
  let w := Pipeline.mk_world 0 0 [] [] ∅ [] in
  let f := Pipeline.mk_file (str "a.json")
    (Some (Json.JObj
       [(str "entry", Json.JArr
          [Json.JObj
             [(str "resource", Json.JObj
                [(str "id", Json.JInt 1);
                 (str "presentedForm", Json.JArr
                    [Json.JObj
                       [(str "data", Json.JStr (str "SGVsbG8gd29ybGQ="))]])])]])]))
    Json.JSONDecodeError in
  match Pipeline.process_file service random_index f w with
  | (Json.Ok _, w') =>
      exists data data',
        Pipeline.file_json f = Some data /\
        Pipeline.out_files w'
          = <[Pipeline.file_name f := Pipeline.Whole data']>
              (Pipeline.out_files w) /\
        Json.mask_data data' = Json.mask_data data
  | (Json.Raise _, w') =>
      Pipeline.out_files w' = Pipeline.out_files w \/
      exists data data',
        Pipeline.file_json f = Some data /\
        Pipeline.out_files w'
          = <[Pipeline.file_name f := Pipeline.Cut data']>
              (Pipeline.out_files w) /\
        Json.mask_data data' = Json.mask_data data
  end /\
  Pipeline.process_resource service random_index
    (Json.JObj [(str "id", Json.JInt 2)]) w
    = (Json.Ok (Json.JObj [(str "id", Json.JInt 2)], 0%nat), w).
Proof.
  intros service random_index w f. split.
  - exact (proj1 (structural_preservation service random_index f w)).
  - apply (proj2 (structural_preservation service random_index f w)).
    vm_compute. reflexivity.
Defined.

(** C10. An element of [pf_list] that is a dict without a [data] key goes
    through the loop body unchanged: the element, the count and the whole
    world (so the number of calls of the service) stay as they were, and
    the loop goes on with the elements that follow. *)
Theorem element_without_data
    (service : nat -> text -> Pipeline.svc_outcome)
    (random_index : nat -> nat)
    (fields : list (text * Json.json)) (pf_list : list Json.json)
    (count : nat) (w : Pipeline.world) :
  Json.dict_get (str "data") fields = None ->
  Pipeline.process_pf service random_index (Json.JObj fields) count w
    = (Json.Ok (Json.JObj fields, count), w) /\
  Pipeline.process_resource_for service random_index
    (Json.JObj fields :: pf_list) count w
    = match Pipeline.process_resource_for service random_index pf_list count w
      with
      | (Json.Ok (pf_list', count'), w') =>
          (Json.Ok (Json.JObj fields :: pf_list', count'), w')
      | (Json.Raise e, w') => (Json.Raise e, w')
      end.
Proof.
  intros Hget.
  pose proof (process_pf_no_data service random_index fields count w Hget)
    as Hpf.
  split; [exact Hpf|].
  cbn [Pipeline.process_resource_for].
  rewrite (bind_Ok _ _ _ _ _ Hpf). cbn [fst snd]. unfold Pipeline.bind.
  destruct (Pipeline.process_resource_for service random_index pf_list count w)
    as [[[pf_list' count']|e] w']; reflexivity.
Qed.

Lemma element_without_data_witness :
  let service := fun (_ : nat) (_ : text) =>
    Pipeline.SvcText (str "Rewritten note.") in
  let w := Pipeline.mk_world 0 0 [] [] ∅ [] in
  let pf := Json.JObj [(str "contentType", Json.JStr (str "text/plain"))] in
  Pipeline.process_pf service (fun _ => 0%nat) pf 0 w = (Json.Ok (pf, 0%nat), w).
Proof.
  intros service w pf.
  apply (element_without_data service (fun _ => 0%nat)
           [(str "contentType", Json.JStr (str "text/plain"))] [] 0 w).
  vm_compute. reflexivity.
Defined.

(** C1, what the code does. For every attachment token on which decoding
    fails, [rewrite_base64_note] returns the token as it was, without
    touching the world (no call of the service, nothing logged), as the
    claim says; but the loop of [process_resource], which leaves the
    element as it was, runs its [count += 1] all the same: the attachment
    that was left unchanged is counted as rewritten. *)
Theorem decode_failure_keeps_token
    (service : nat -> text -> Pipeline.svc_outcome)
    (random_index : nat -> nat)
    (b64_text : Json.json) (fields : list (text * Json.json))
    (count : nat) (w : Pipeline.world) :
  Pipeline.b64decode_utf8 b64_text = None ->
  Json.dict_get (str "data") fields = Some b64_text ->
  Pipeline.rewrite_base64_note service random_index b64_text w
    = (Json.Ok b64_text, w) /\
  Pipeline.process_pf service random_index (Json.JObj fields) count w
    = (Json.Ok (Json.JObj fields, S count), w).
Proof.
  intros Hdec Hget. split.
  - now apply rewrite_base64_note_skip.
  - now apply (process_pf_skip service random_index fields b64_text).
Qed.

Lemma decode_failure_keeps_token_witness :
  let service := fun (_ : nat) (_ : text) =>
    Pipeline.SvcText (str "Rewritten note.") in
  let w := Pipeline.mk_world 0 0 [] [] ∅ [] in
  let b64_text := Json.JStr (str "/w==") in
  Pipeline.rewrite_base64_note service (fun _ => 0%nat) b64_text w
    = (Json.Ok b64_text, w) /\
  Pipeline.process_pf service (fun _ => 0%nat)
    (Json.JObj [(str "data", b64_text)]) 0 w
    = (Json.Ok (Json.JObj [(str "data", b64_text)], 1%nat), w).
Proof.
  intros service w b64_text.
  apply (decode_failure_keeps_token service (fun _ => 0%nat) b64_text
           [(str "data", b64_text)] 0 w); vm_compute; reflexivity.
Defined.

(** C1, as stated, fails: the token ["A"] does not decode, the attachment
    is left as it was, and [process_resource] counts it all the same. *)
Lemma decode_failure_is_counted :
  ~ (forall (service : nat -> text -> Pipeline.svc_outcome)
       (random_index : nat -> nat) (b64_text : Json.json)
       (fields : list (text * Json.json)) (w : Pipeline.world),
       Pipeline.b64decode_utf8 b64_text = None ->
       Json.dict_get (str "data") fields = Some b64_text ->
       Pipeline.rewrite_base64_note service random_index b64_text w
         = (Json.Ok b64_text, w) /\
       fst (Pipeline.process_resource service random_index
              (Json.JObj [(str "presentedForm",
                           Json.JArr [Json.JObj fields])]) w)
         = Json.Ok (Json.JObj [(str "presentedForm",
                                Json.JArr [Json.JObj fields])], 0%nat)).
Proof.
  intros H.
  specialize (H (fun _ _ => Pipeline.SvcRaises) (fun _ => 0%nat)
                (Json.JStr (str "A")) [(str "data", Json.JStr (str "A"))]
                (Pipeline.mk_world 0 0 [] [] ∅ []) eq_refl eq_refl).
  destruct H as [_ H]. vm_compute in H. discriminate H.
Qed.

(** C4, as the code has it. An attempt that accepts a text appends
    exactly its audit block to the log: a rule of 80 [=], [PROMPT:], the
    prompt, a rule of 80 [-], [OUTPUT:], the text and a rule of 80 [=],
    each on a line of its own after an empty line; the block is there in
    the world the attempt returns in.  An attempt that the service or the
    length check rejects appends nothing.  An attempt that fails while it
    writes the block leaves the beginning of it, cut before the prompt or
    before the answer.  So a call of [call_openai] that returns has
    appended the whole block of the text it returns, once and last, after
    at most 4 cut blocks; and one that raises made 5 attempts, none of them
    accepted, and appended what they left: no whole block.  A token that
    does not decode leaves the world, and so the log, as it was. *)
Theorem audit_record_per_accepted_response
    (service : nat -> text -> Pipeline.svc_outcome)
    (random_index : nat -> nat) :
  (forall prompt w,
     match Pipeline.attempt service prompt w with
     | (Some rewritten, w') =>
         Pipeline.log_file w'
         = Pipeline.log_file w
           ++ ([10] ++ repeat 61 80%nat ++ [10])
           ++ (str "PROMPT:" ++ [10])
           ++ (prompt ++ [10])
           ++ (repeat 45 80%nat ++ [10])
           ++ (str "OUTPUT:" ++ [10])
           ++ (rewritten ++ [10])
           ++ (repeat 61 80%nat ++ [10])
     | (None, w') =>
         (Pipeline.rejected (service (Pipeline.svc_calls w) prompt) = true ->
          Pipeline.log_file w' = Pipeline.log_file w) /\
         (Pipeline.log_file w' = Pipeline.log_file w \/
          Pipeline.log_file w'
          = Pipeline.log_file w
            ++ ([10] ++ repeat 61 80%nat ++ [10]) ++ (str "PROMPT:" ++ [10])
          \/
          Pipeline.log_file w'
          = Pipeline.log_file w
            ++ ([10] ++ repeat 61 80%nat ++ [10]) ++ (str "PROMPT:" ++ [10])
            ++ (prompt ++ [10]) ++ (repeat 45 80%nat ++ [10])
            ++ (str "OUTPUT:" ++ [10]))
     end) /\
  (forall prompt w,
     match Pipeline.call_openai service prompt w with
     | (Json.Ok rewritten, w') =>
         exists k,
           (k <= 4)%nat /\
           Pipeline.log_file w'
           = Pipeline.log_file w
             ++ concat (repeat (Observations.cut_at_output prompt) k)
             ++ Pipeline.audit_record prompt rewritten
     | (Json.Raise _, w') =>
         (forall i, (i < 5)%nat ->
            Observations.accepted prompt
              (service (Pipeline.svc_calls w + i)%nat prompt) = false) /\
         Pipeline.log_file w'
         = Pipeline.log_file w
           ++ Observations.logged_from service prompt (Pipeline.svc_calls w) 5
     end) /\
  (forall b64_text w,
     Pipeline.b64decode_utf8 b64_text = None ->
     Pipeline.rewrite_base64_note service random_index b64_text w
       = (Json.Ok b64_text, w)).
Proof.
  split; [|split].
  - intros prompt w. pose proof (attempt_spec service prompt w) as H.
    destruct (Pipeline.attempt service prompt w) as [[r|] w'].
    + destruct H as (_ & _ & _ & _ & Hlog & _). exact Hlog.
    + destruct H as (Hacc & Hlog & _). split.
      * intros Hrej. rewrite Hlog.
        rewrite (proj2 (rejected_not_accepted service prompt _ Hrej)).
        apply app_nil_r.
      * rewrite Hlog. clear Hlog. revert Hacc.
        destruct (service (Pipeline.svc_calls w) prompt) as [|t];
          [left; apply app_nil_r|].
        cbn [Observations.logged Observations.accepted].
        destruct (Nat.leb_spec (length (Pipeline.strip t)) 5) as [Hle|Hgt];
          [left; apply app_nil_r|].
        destruct (Codec.utf8_encodable prompt); cbn [negb];
          [|right; left; reflexivity].
        destruct (Codec.utf8_encodable (Pipeline.strip t)); cbn [negb].
        -- rewrite !andb_true_r. intros Hacc.
           apply Nat.ltb_ge in Hacc. lia.
        -- intros _. right. right. unfold Observations.cut_at_output,
             Observations.cut_at_prompt. now rewrite <- !app_assoc.
  - intros prompt w.
    destruct (Pipeline.call_openai service prompt w) as [[r|e] w'] eqn:Hrun.
    + apply (call_openai_Ok service random_index) in Hrun
        as (_ & _ & _ & _ & Hlog & _).
      exact Hlog.
    + apply call_openai_for_Raise_inv in Hrun as (_ & Hall & ->);
        [|repeat constructor; lia].
      split; [exact Hall|reflexivity].
  - intros b64_text w. apply rewrite_base64_note_skip.
Qed.

Lemma audit_record_per_accepted_response_witness :
  let service := fun (n : nat) (_ : text) =>
    match n with
    | O => Pipeline.SvcRaises
    | 1%nat => Pipeline.SvcText (str " ok ")
    | _ => Pipeline.SvcText (str "Rewritten note.")
    end in
  let w := Pipeline.mk_world 0 0 (str "earlier") [] ∅ [] in
  match Pipeline.call_openai service (str "p") w with
  | (Json.Ok rewritten, w') =>
      exists k,
        (k <= 4)%nat /\
        Pipeline.log_file w'
        = Pipeline.log_file w
          ++ concat (repeat (Observations.cut_at_output (str "p")) k)
          ++ Pipeline.audit_record (str "p") rewritten
  | (Json.Raise _, w') =>
      (forall i, (i < 5)%nat ->
         Observations.accepted (str "p")
           (service (Pipeline.svc_calls w + i)%nat (str "p")) = false) /\
      Pipeline.log_file w'
      = Pipeline.log_file w
        ++ Observations.logged_from service (str "p") (Pipeline.svc_calls w) 5
  end /\
  Pipeline.rewrite_base64_note service (fun _ => 0%nat) (Json.JInt 5) w
    = (Json.Ok (Json.JInt 5), w).
Proof.
  intros service w.
  destruct (audit_record_per_accepted_response service (fun _ => 0%nat))
    as (_ & Hcall & Hskip).
  split.
  - exact (Hcall (str "p") w).
  - apply Hskip. reflexivity.
Defined.

(** C4, as stated, fails: an attempt whose answer, longer than 5, holds a
    lone surrogate fails (the write of the answer to the log raises inside
    the [try]), and it has appended the beginning of a block to the
    log. *)
Lemma failed_attempt_appends :
  let service := fun (_ : nat) (_ : text) =>
    Pipeline.SvcText (0xD800 :: str "ABCDEF") in
  let w := Pipeline.mk_world 0 0 [] [] ∅ [] in
  ~ (forall prompt,
       match Pipeline.attempt service prompt w with
       | (Some rewritten, w') =>
           Pipeline.log_file w'
           = Pipeline.log_file w ++ Pipeline.audit_record prompt rewritten
       | (None, w') => Pipeline.log_file w' = Pipeline.log_file w
       end).
Proof.
  intros service w H. specialize (H (str "p")).
  vm_compute in H. discriminate H.
Qed.

Section BatchFacts.
Import Json Pipeline.

Variable service : nat -> text -> svc_outcome.
Variable random_index : nat -> nat.

(** The terminal failure of [call_openai] goes through
    [rewrite_base64_note] ... *)
Lemma rewrite_base64_note_propagates (b64_text : json) (decoded : text)
    (e : exn) (w w' : world) :
  b64decode_utf8 b64_text = Some decoded ->
  (let (r, w1) := random_choice random_index CLINICIAN_STYLES w in
   match r with
   | Ok style => call_openai service (build_prompt decoded style) w1
   | Raise e' => (Raise e', w1)
   end) = (Raise e, w') ->
  rewrite_base64_note service random_index b64_text w = (Raise e, w').
Proof.
  intros Hdec. unfold rewrite_base64_note. rewrite Hdec.
  destruct (random_choice_styles random_index w) as (style & Hstyle & _).
  rewrite Hstyle, (bind_Ok _ _ _ _ _ Hstyle). apply bind_Raise.
Qed.

(** ... through the loop body and the loop of [process_resource] ... *)
Lemma process_pf_propagates (fields : list (text * json)) (b64_text : json)
    (count : nat) (e : exn) (w w' : world) :
  dict_get (str "data") fields = Some b64_text ->
  rewrite_base64_note service random_index b64_text w = (Raise e, w') ->
  process_pf service random_index (JObj fields) count w = (Raise e, w').
Proof.
  intros Hget Hrw. unfold process_pf, bind, lift.
  rewrite py_contains_dict.
  assert (Hc : bool_decide (is_Some (dict_get (str "data") fields)) = true).
  { apply bool_decide_eq_true. rewrite Hget. eauto. }
  rewrite Hc. cbn [py_getitem]. now rewrite Hget, Hrw.
Qed.

Lemma process_resource_for_propagates (done todo : list json) (pf : json)
    (count count1 : nat) (done' : list json) (e : exn) (w w1 w' : world) :
  process_resource_for service random_index done count w
    = (Ok (done', count1), w1) ->
  process_pf service random_index pf count1 w1 = (Raise e, w') ->
  process_resource_for service random_index (done ++ pf :: todo) count w
    = (Raise e, w').
Proof.
  revert count done' w.
  induction done as [|x done IH]; intros count done' w Hdone Hpf.
  - injection Hdone as _ <- <-. cbn [app process_resource_for].
    now apply bind_Raise.
  - cbn [app process_resource_for] in *.
    apply bind_inv_Ok in Hdone as ([x' c] & w2 & Hx & Hdone).
    apply bind_inv_Ok in Hdone as ([done1 c1] & w3 & Hrest & Hdone).
    injection Hdone as _ <- <-. cbn [fst snd] in *.
    rewrite (bind_Ok _ _ _ _ _ Hx). cbn [fst snd].
    apply bind_Raise. now apply (IH c done1 w2).
Qed.

Lemma process_resource_propagates (fields : list (text * json))
    (pf_list : list json) (e : exn) (w w' : world) :
  dict_get (str "presentedForm") fields = Some (JArr pf_list) ->
  process_resource_for service random_index pf_list 0 w = (Raise e, w') ->
  process_resource service random_index (JObj fields) w = (Raise e, w').
Proof.
  intros Hget Hloop. unfold process_resource, bind, lift.
  rewrite py_contains_dict.
  assert (Hc : bool_decide
                 (is_Some (dict_get (str "presentedForm") fields)) = true).
  { apply bool_decide_eq_true. rewrite Hget. eauto. }
  rewrite Hc. cbn [negb py_get]. rewrite Hget. cbn [py_iter].
  now rewrite Hloop.
Qed.

(** ... through the loop body and the loop of [process_file] ... *)
Lemma process_entry_propagates (fields : list (text * json))
    (resource : json) (count : nat) (e : exn) (w w' : world) :
  dict_get (str "resource") fields = Some resource ->
  py_truthy resource = true ->
  process_resource service random_index resource w = (Raise e, w') ->
  process_entry service random_index (JObj fields) count w = (Raise e, w').
Proof.
  intros Hget Htruthy Hres. unfold process_entry, bind, lift.
  cbn [py_get]. now rewrite Hget, Htruthy, Hres.
Qed.

Lemma process_file_for_propagates (done todo : list json) (entry : json)
    (count count1 : nat) (done' : list json) (e : exn) (w w1 w' : world) :
  process_file_for service random_index done count w
    = (Ok (done', count1), w1) ->
  process_entry service random_index entry count1 w1 = (Raise e, w') ->
  process_file_for service random_index (done ++ entry :: todo) count w
    = (Raise e, w').
Proof.
  revert count done' w.
  induction done as [|x done IH]; intros count done' w Hdone Hentry.
  - injection Hdone as _ <- <-. cbn [app process_file_for].
    now apply bind_Raise.
  - cbn [app process_file_for] in *.
    apply bind_inv_Ok in Hdone as ([x' c] & w2 & Hx & Hdone).
    apply bind_inv_Ok in Hdone as ([done1 c1] & w3 & Hrest & Hdone).
    injection Hdone as _ <- <-. cbn [fst snd] in *.
    rewrite (bind_Ok _ _ _ _ _ Hx). cbn [fst snd].
    apply bind_Raise. now apply (IH c done1 w2).
Qed.

Lemma process_data_propagates (fields : list (text * json))
    (entries : list json) (e : exn) (w w' : world) :
  dict_get (str "entry") fields = Some (JArr entries) ->
  process_file_for service random_index entries 0 w = (Raise e, w') ->
  process_data service random_index (JObj fields) w = (Raise e, w').
Proof.
  intros Hget Hloop. unfold process_data, bind, lift.
  rewrite py_contains_dict.
  assert (Hc : bool_decide (is_Some (dict_get (str "entry") fields)) = true).
  { apply bool_decide_eq_true. rewrite Hget. eauto. }
  rewrite Hc. cbn [py_getitem]. rewrite Hget. cbn [py_iter].
  now rewrite Hloop.
Qed.

(** ... and through [process_file], before anything is written. *)
Lemma process_file_propagates (f : file) (data : json) (e : exn)
    (w w' : world) :
  file_json f = Some data ->
  process_data service random_index data w = (Raise e, w') ->
  process_file service random_index f w = (Raise e, w').
Proof.
  intros Hf Hrun. unfold process_file, json_load. rewrite Hf.
  unfold bind at 1. cbn [ret]. now apply bind_Raise.
Qed.

Lemma main_cons_Raise (f : file) (files : list file) (e : exn)
    (w w' : world) :
  process_file service random_index f w = (Raise e, w') ->
  main service random_index (f :: files) w = (Raise e, w').
Proof. intros H. cbn [main]. now apply bind_Raise. Qed.

Lemma main_app (done todo : list file) (w w1 : world) :
  main service random_index done w = (Ok tt, w1) ->
  main service random_index (done ++ todo) w
    = main service random_index todo w1.
Proof.
  revert w. induction done as [|f done IH]; intros w Hdone.
  - now injection Hdone as <-.
  - cbn [app main] in *.
    apply bind_inv_Ok in Hdone as ([] & w2 & Hf & Hdone).
    apply bind_inv_Ok in Hdone as ([] & w3 & Hsleep & Hdone).
    rewrite (bind_Ok _ _ _ _ _ Hf), (bind_Ok _ _ _ _ _ Hsleep).
    now apply IH.
Qed.

(** After a run of [main] that returned, every file of the batch has its
    output, and the other names of the output directory are as before. *)
Lemma main_Ok_outputs (files : list file) (w w' : world) :
  main service random_index files w = (Ok tt, w') ->
  (forall g, In g files -> is_Some (out_files w' !! file_name g)) /\
  (forall name, ~ In name (List.map file_name files) ->
     out_files w' !! name = out_files w !! name).
Proof.
  revert w. induction files as [|f files IH]; intros w Hrun.
  - injection Hrun as <-. split; [intros g []|reflexivity].
  - cbn [main] in Hrun.
    apply bind_inv_Ok in Hrun as ([] & w1 & Hf & Hrun).
    apply bind_inv_Ok in Hrun as ([] & w2 & Hsleep & Hrun).
    pose proof (process_file_spec service random_index f w) as Hspec.
    rewrite Hf in Hspec.
    destruct Hspec as (data & data' & c & _ & _ & _ & Ho & _).
    apply sleep_frame in Hsleep as (_ & _ & _ & Ho2 & _).
    destruct (IH w2 Hrun) as (IHin & IHout).
    split.
    + intros g [<-|Hg]; [|now apply IHin].
      destruct (decide (file_name f ∈ List.map file_name files))
        as [Hin|Hnin]; rewrite list_elem_of_In in *.
      * apply in_map_iff in Hin as (g & Hname & Hg).
        rewrite <- Hname. now apply IHin.
      * rewrite (IHout _ Hnin), Ho2, Ho, lookup_insert_eq. eauto.
    + intros name Hname. cbn [List.map In] in Hname.
      rewrite IHout by tauto.
      rewrite Ho2, Ho. apply lookup_insert_ne. tauto.
Qed.

End BatchFacts.

(** An exception raised while the document of a file [f] is processed,
    after the files [done] before it went through: [process_file] and
    [main] raise it, and the output directory is what the files before [f]
    left. *)
Lemma main_aborts
    (service : nat -> text -> Pipeline.svc_outcome)
    (random_index : nat -> nat)
    (done todo : list Pipeline.file) (f : Pipeline.file) (data : Json.json)
    (e : Json.exn) (w0 w1 w2 : Pipeline.world) :
  Pipeline.main service random_index done w0 = (Json.Ok tt, w1) ->
  Pipeline.file_json f = Some data ->
  Pipeline.process_data service random_index data w1 = (Json.Raise e, w2) ->
  Pipeline.process_file service random_index f w1 = (Json.Raise e, w2) /\
  Pipeline.main service random_index (done ++ f :: todo) w0
    = (Json.Raise e, w2) /\
  Pipeline.out_files w2 = Pipeline.out_files w1 /\
  Pipeline.summaries w2 = Pipeline.summaries w1 /\
  (forall g, In g done ->
     is_Some (Pipeline.out_files w2 !! Pipeline.file_name g)) /\
  (forall name, ~ In name (List.map Pipeline.file_name done) ->
     Pipeline.out_files w2 !! name = Pipeline.out_files w0 !! name).
Proof.
  intros Hdone Hf Hrun.
  pose proof (process_file_propagates service random_index f data _ _ _ Hf Hrun)
    as Hfile.
  pose proof (files_kept_process_data service random_index data _ _ _ Hrun)
    as (Ho & Hs).
  destruct (main_Ok_outputs service random_index done w0 w1 Hdone)
    as (Hin & Hout).
  repeat split; try assumption.
  - rewrite (main_app service random_index done (f :: todo) w0 w1 Hdone).
    now apply main_cons_Raise.
  - intros g Hg. rewrite Ho. now apply Hin.
  - intros name Hname. rewrite Ho. now apply Hout.
Qed.

(** C3. The files [done] of the batch went through; in the document of
    the next file [f], the entries [entries_done] and, in the resource of
    the entry after them, the attachments [pfs_done] went through; the
    token of the next attachment decodes, and [call_openai], called for it,
    exhausts its retries and raises [RuntimeError].  Then
    [rewrite_base64_note], [process_resource], [process_file] and [main]
    all raise it: the batch stops, the output directory is what the files
    before [f] left (each of them has its output, and no other name of the
    directory changed: nothing is written for [f] or for the files after
    it), and no summary is printed for [f]. *)
Theorem terminal_failure_aborts_batch
    (service : nat -> text -> Pipeline.svc_outcome)
    (random_index : nat -> nat)
    (done todo : list Pipeline.file) (f : Pipeline.file)
    (fields_d fields_e fields_r fields_pf : list (text * Json.json))
    (entries_done entries_todo pfs_done pfs_todo : list Json.json)
    (entries_done' pfs_done' : list Json.json) (count_e count_pf : nat)
    (b64_text : Json.json) (decoded style : text)
    (w0 w1 wa wb wc w2 : Pipeline.world) :
  Pipeline.main service random_index done w0 = (Json.Ok tt, w1) ->
  Pipeline.file_json f = Some (Json.JObj fields_d) ->
  Json.dict_get (str "entry") fields_d
    = Some (Json.JArr (entries_done ++ Json.JObj fields_e :: entries_todo)) ->
  Pipeline.process_file_for service random_index entries_done 0 w1
    = (Json.Ok (entries_done', count_e), wa) ->
  Json.dict_get (str "resource") fields_e = Some (Json.JObj fields_r) ->
  Json.dict_get (str "presentedForm") fields_r
    = Some (Json.JArr (pfs_done ++ Json.JObj fields_pf :: pfs_todo)) ->
  Pipeline.process_resource_for service random_index pfs_done 0 wa
    = (Json.Ok (pfs_done', count_pf), wb) ->
  Json.dict_get (str "data") fields_pf = Some b64_text ->
  Pipeline.b64decode_utf8 b64_text = Some decoded ->
  Pipeline.random_choice random_index Pipeline.CLINICIAN_STYLES wb
    = (Json.Ok style, wc) ->
  Pipeline.call_openai service (Pipeline.build_prompt decoded style) wc
    = (Json.Raise Json.RuntimeError, w2) ->
  Pipeline.rewrite_base64_note service random_index b64_text wb
    = (Json.Raise Json.RuntimeError, w2) /\
  Pipeline.process_resource service random_index (Json.JObj fields_r) wa
    = (Json.Raise Json.RuntimeError, w2) /\
  Pipeline.process_file service random_index f w1
    = (Json.Raise Json.RuntimeError, w2) /\
  Pipeline.main service random_index (done ++ f :: todo) w0
    = (Json.Raise Json.RuntimeError, w2) /\
  Pipeline.out_files w2 = Pipeline.out_files w1 /\
  Pipeline.summaries w2 = Pipeline.summaries w1 /\
  (forall g, In g done ->
     is_Some (Pipeline.out_files w2 !! Pipeline.file_name g)) /\
  (forall name, ~ In name (List.map Pipeline.file_name done) ->
     Pipeline.out_files w2 !! name = Pipeline.out_files w0 !! name).
Proof.
  intros Hdone Hf Hentry Hedone Hres Hpf Hpdone Hdata Hdec Hstyle Hcall.
  assert (Hrw : Pipeline.rewrite_base64_note service random_index b64_text wb
                = (Json.Raise Json.RuntimeError, w2)).
  { apply (rewrite_base64_note_propagates service random_index _ decoded);
      [exact Hdec|]. now rewrite Hstyle. }
  assert (Hp : Pipeline.process_resource service random_index
                 (Json.JObj fields_r) wa
               = (Json.Raise Json.RuntimeError, w2)).
  { apply (process_resource_propagates service random_index _ _ _ _ _ Hpf).
    apply (process_resource_for_propagates service random_index pfs_done
             pfs_todo _ 0 count_pf pfs_done' _ wa wb w2 Hpdone).
    now apply (process_pf_propagates service random_index _ b64_text). }
  assert (Hd : Pipeline.process_data service random_index
                 (Json.JObj fields_d) w1
               = (Json.Raise Json.RuntimeError, w2)).
  { apply (process_data_propagates service random_index _ _ _ _ _ Hentry).
    apply (process_file_for_propagates service random_index entries_done
             entries_todo _ 0 count_e entries_done' _ w1 wa w2 Hedone).
    apply (process_entry_propagates service random_index _ _ _ _ _ _ Hres);
      [|exact Hp].
    destruct fields_r; [discriminate Hpf|reflexivity]. }
  split; [exact Hrw|]. split; [exact Hp|].
  exact (main_aborts service random_index done todo f _ _ w0 w1 w2
           Hdone Hf Hd).
Qed.

Lemma terminal_failure_aborts_batch_witness :
  let service := fun (n : nat) (_ : text) =>
    match n with
    | O => Pipeline.SvcText (str "Rewritten note.")
    | _ => Pipeline.SvcRaises
    end in
  let random_index := fun _ : nat => 0%nat in
  let fields_pf := [(str "data", Json.JStr (str "SGVsbG8gd29ybGQ="))] in
  let fields_r := [(str "presentedForm", Json.JArr [Json.JObj fields_pf])] in
  let fields_e := [(str "resource", Json.JObj fields_r)] in
  let fields_d := [(str "entry", Json.JArr [Json.JObj fields_e])] in
  let a := Pipeline.mk_file (str "a.json") (Some (Json.JObj fields_d))
             Json.JSONDecodeError in
  let b := Pipeline.mk_file (str "b.json") (Some (Json.JObj fields_d))
             Json.JSONDecodeError in
  let c := Pipeline.mk_file (str "c.json") (Some (Json.JObj fields_d))
             Json.JSONDecodeError in
  let w0 := Pipeline.mk_world 0 0 [] [] ∅ [] in
  let w1 := snd (Pipeline.main service random_index [a] w0) in
  let wc := snd (Pipeline.random_choice random_index
                   Pipeline.CLINICIAN_STYLES w1) in
  let w2 := snd (Pipeline.call_openai service
                   (Pipeline.build_prompt (str "Hello world")
                      (nth 0 Pipeline.CLINICIAN_STYLES [])) wc) in
  Pipeline.main service random_index ([a] ++ b :: [c]) w0
    = (Json.Raise Json.RuntimeError, w2) /\
  is_Some (Pipeline.out_files w2 !! Pipeline.file_name a) /\
  Pipeline.out_files w2 !! str "b.json" = None /\
  Pipeline.out_files w2 !! str "c.json" = None.
Proof.
  intros service random_index fields_pf fields_r fields_e fields_d a b c
    w0 w1 wc w2.
  destruct (terminal_failure_aborts_batch service random_index [a] [c] b
              fields_d fields_e fields_r fields_pf [] [] [] [] [] [] 0 0
              (Json.JStr (str "SGVsbG8gd29ybGQ=")) (str "Hello world")
              (nth 0 Pipeline.CLINICIAN_STYLES []) w0 w1 w1 w1 wc w2)
    as (_ & _ & _ & Hmain & _ & _ & Hin & Hout).
  - vm_compute. reflexivity.
  - reflexivity.
  - vm_compute. reflexivity.
  - reflexivity.
  - vm_compute. reflexivity.
  - vm_compute. reflexivity.
  - reflexivity.
  - vm_compute. reflexivity.
  - vm_compute. reflexivity.
  - vm_compute. reflexivity.
  - vm_compute. reflexivity.
  - split; [exact Hmain|].
    split; [apply (Hin a); now left|].
    split.
    + rewrite Hout; [reflexivity|].
      intros [H|[]]. vm_compute in H. discriminate H.
    + rewrite Hout; [reflexivity|].
      intros [H|[]]. vm_compute in H. discriminate H.
Defined.

Section ScenarioFacts.
Import Json Pipeline.

Variable service : nat -> text -> svc_outcome.
Variable random_index : nat -> nat.

Hypothesis service_fixed :
  forall n prompt, service n prompt = SvcText (str "Rewritten note.").





End ScenarioFacts.



(** * More about the retry loop *)


Section StripLengths.
Import Pipeline.

Lemma lstrip_length (s : text) : (length (lstrip s) <= length s)%nat.
Proof.
  destruct (lstrip_suffix s) as [pre H]. rewrite H at 2.
  rewrite length_app. lia.
Qed.

Lemma strip_length (s : text) : (length (strip s) <= length s)%nat.
Proof.
  unfold strip, rstrip. rewrite length_rev.
  etransitivity; [apply lstrip_length|]. rewrite length_rev.
  apply lstrip_length.
Qed.

Lemma lstrip_blank (s : text) :
  Forall (fun c => isspace c = true) s -> lstrip s = [].
Proof.
  induction 1 as [|c s Hc _ IH]; cbn [lstrip]; [reflexivity|].
  now rewrite Hc.
Qed.

Lemma strip_blank (s : text) :
  Forall (fun c => isspace c = true) s -> strip s = [].
Proof. intros H. unfold strip. now rewrite (lstrip_blank s H). Qed.

End StripLengths.

(** X1. When the first [k] answers of the service ([k <= 4]) are rejected
    and the next one is longer than 5 once stripped, with a prompt and an
    answer that UTF-8 can encode, [call_openai] returns that answer,
    stripped, after exactly [k + 1] calls; it has slept for the first [k]
    delays of [RETRY_DELAYS] and for nothing else, and the log has gained
    one block and nothing else: a rule of 80 [=], [PROMPT:], the prompt, a
    rule of 80 [-], [OUTPUT:], the returned text and a rule of 80 [=]. *)
Theorem retry_succeeds_after_rejections
    (service : nat -> text -> Pipeline.svc_outcome)
    (prompt output_text : text) (k : nat) (w : Pipeline.world) :
  (k <= 4)%nat ->
  (forall i, (i < k)%nat ->
     Pipeline.rejected (service (Pipeline.svc_calls w + i)%nat prompt) = true) ->
  service (Pipeline.svc_calls w + k)%nat prompt
    = Pipeline.SvcText output_text ->
  (5 < length (Pipeline.strip output_text))%nat ->
  Codec.utf8_encodable prompt = true ->
  Codec.utf8_encodable (Pipeline.strip output_text) = true ->
  Pipeline.call_openai service prompt w
  = (Json.Ok (Pipeline.strip output_text),
     Pipeline.mk_world (Pipeline.svc_calls w + S k) (Pipeline.rand_draws w)
       (Pipeline.log_file w
        ++ ([10] ++ repeat 61 80%nat ++ [10])
        ++ (str "PROMPT:" ++ [10])
        ++ (prompt ++ [10])
        ++ (repeat 45 80%nat ++ [10])
        ++ (str "OUTPUT:" ++ [10])
        ++ (Pipeline.strip output_text ++ [10])
        ++ (repeat 61 80%nat ++ [10]))
       (Pipeline.slept w
        ++ List.map inject_Z (firstn k Pipeline.RETRY_DELAYS))
       (Pipeline.out_files w) (Pipeline.summaries w)).
Proof.
  intros Hk Hrej Hsvc Hlen Hp Hr.
  unfold Pipeline.call_openai, Pipeline.call_openai_with.
  rewrite (call_openai_for_accept_at service _ prompt output_text k w);
    try assumption.
  - do 2 f_equal.
    do 5 (destruct k as [|k]; [reflexivity|]). lia.
  - repeat constructor; lia.
  - cbn. lia.
Qed.

Lemma retry_succeeds_after_rejections_witness :
  let service := fun (n : nat) (_ : text) =>
    match n with
    | 3%nat => Pipeline.SvcRaises
    | 4%nat => Pipeline.SvcText (str " ok ")
    | _ => Pipeline.SvcText (str " Rewritten note. ")
    end in
  let w := Pipeline.mk_world 3 0 (str "log") [] ∅ [] in
  Pipeline.call_openai service (str "p") w
  = (Json.Ok (Pipeline.strip (str " Rewritten note. ")),
     Pipeline.mk_world (3 + 3) 0
       (str "log"
        ++ ([10] ++ repeat 61 80%nat ++ [10])
        ++ (str "PROMPT:" ++ [10])
        ++ (str "p" ++ [10])
        ++ (repeat 45 80%nat ++ [10])
        ++ (str "OUTPUT:" ++ [10])
        ++ (Pipeline.strip (str " Rewritten note. ") ++ [10])
        ++ (repeat 61 80%nat ++ [10]))
       ([] ++ List.map inject_Z (firstn 2 Pipeline.RETRY_DELAYS)) ∅ []).
Proof.
  intros service w.
  apply (retry_succeeds_after_rejections service (str "p")
           (str " Rewritten note. ") 2 w).
  - lia.
  - intros [|[|i]] Hi; [reflexivity|reflexivity|lia].
  - reflexivity.
  - vm_compute. lia.
  - vm_compute. reflexivity.
  - vm_compute. reflexivity.
Defined.

(** X2. [call_openai] raises nothing but [RuntimeError], and when it does,
    it has made exactly 5 calls of the service, none of them accepted (the
    service raised, or the text was no longer than 5 once stripped, or the
    log could not take its block), and has slept 1, 2, 5 and 10 seconds.
    The log holds what the writes of those attempts left, which is nothing
    when every answer was rejected by the service or the length check; the
    output directory and everything else are as they were. *)
Theorem terminal_failure_means_five_rejections
    (service : nat -> text -> Pipeline.svc_outcome)
    (prompt : text) (e : Json.exn) (w w' : Pipeline.world) :
  Pipeline.call_openai service prompt w = (Json.Raise e, w') ->
  e = Json.RuntimeError /\
  (forall i, (i < 5)%nat ->
     Observations.accepted prompt
       (service (Pipeline.svc_calls w + i)%nat prompt) = false) /\
  w' = Pipeline.mk_world (Pipeline.svc_calls w + 5) (Pipeline.rand_draws w)
         (Pipeline.log_file w
          ++ Observations.logged_from service prompt (Pipeline.svc_calls w) 5)
         (Pipeline.slept w
          ++ [inject_Z 1; inject_Z 2; inject_Z 5; inject_Z 10])
         (Pipeline.out_files w) (Pipeline.summaries w) /\
  ((forall i, (i < 5)%nat ->
      Pipeline.rejected (service (Pipeline.svc_calls w + i)%nat prompt) = true)
   -> Pipeline.log_file w' = Pipeline.log_file w).
Proof.
  intros Hrun.
  apply call_openai_for_Raise_inv in Hrun as (He & Hall & Hw);
    [|repeat constructor; lia].
  split; [exact He|]. split; [exact Hall|]. split; [exact Hw|].
  intros Hrej. rewrite Hw. cbn [Pipeline.log_file length Pipeline.RETRY_DELAYS].
  rewrite (logged_from_rejected service prompt _ 5 Hrej). apply app_nil_r.
Qed.

Lemma terminal_failure_means_five_rejections_witness :
  let service := fun (n : nat) (_ : text) =>
    match n with
    | O => Pipeline.SvcText (0xD800 :: str "ABCDEF")
    | _ => Pipeline.SvcText (str " ok ")
    end in
  let w := Pipeline.mk_world 0 0 (str "log") [] ∅ [] in
  snd (Pipeline.call_openai service (str "p") w)
  = Pipeline.mk_world (0 + 5) 0
      (str "log" ++ Observations.logged_from service (str "p") 0 5)
      ([] ++ [inject_Z 1; inject_Z 2; inject_Z 5; inject_Z 10]) ∅ [].
Proof.
  intros service w.
  destruct (terminal_failure_means_five_rejections service (str "p")
              Json.RuntimeError w
              (snd (Pipeline.call_openai service (str "p") w)))
    as (_ & _ & Hw & _).
  - vm_compute. reflexivity.
  - exact Hw.
Defined.

(** X3. An answer of at most 5 characters, or made of whitespace only
    (whatever its length), is never accepted: the attempt ends without a
    text and without writing to the log. *)
Theorem short_or_blank_answer_rejected
    (service : nat -> text -> Pipeline.svc_outcome)
    (prompt output_text : text) (w : Pipeline.world) :
  service (Pipeline.svc_calls w) prompt = Pipeline.SvcText output_text ->
  (length output_text <= 5)%nat \/
  Forall (fun c => Pipeline.isspace c = true) output_text ->
  Pipeline.attempt service prompt w
  = (None,
     Pipeline.mk_world (S (Pipeline.svc_calls w)) (Pipeline.rand_draws w)
       (Pipeline.log_file w) (Pipeline.slept w) (Pipeline.out_files w)
       (Pipeline.summaries w)).
Proof.
  intros Hsvc Hshort.
  rewrite attempt_rejected; [reflexivity|].
  rewrite Hsvc. cbn [Pipeline.rejected]. apply Nat.leb_le.
  destruct Hshort as [Hlen|Hblank].
  - pose proof (strip_length output_text). lia.
  - rewrite (strip_blank output_text Hblank). cbn. lia.
Qed.

Lemma short_or_blank_answer_rejected_witness :
  let service := fun (_ : nat) (_ : text) =>
    Pipeline.SvcText (str "            ") in
  let w := Pipeline.mk_world 0 0 [] [] ∅ [] in
  Pipeline.attempt service (str "p") w
  = (None, Pipeline.mk_world 1 0 [] [] ∅ []).
Proof.
  intros service w.
  apply (short_or_blank_answer_rejected service (str "p")
           (str "            ") w eq_refl).
  right. vm_compute. repeat constructor.
Defined.

(** * Exceptions, counts and costs of the document traversal *)

Section TraversalFacts.
Import Json Pipeline Observations.

Variable service : nat -> text -> svc_outcome.
Variable random_index : nat -> nat.

Lemma call_openai_Raise_inv (prompt : text) (e : exn) (w w' : world) :
  call_openai service prompt w = (Raise e, w') -> e = RuntimeError.
Proof.
  intros Hrun. apply call_openai_for_Raise_inv in Hrun; [tauto|].
  repeat constructor; lia.
Qed.

(** A rewrite that raises: the token decoded, a style was drawn, and
    [call_openai] made its 5 attempts. *)
Lemma rewrite_base64_note_Raise_inv (b64_text : json) (e : exn)
    (w w' : world) :
  rewrite_base64_note service random_index b64_text w = (Raise e, w') ->
  e = RuntimeError /\
  (exists decoded, b64decode_utf8 b64_text = Some decoded) /\
  svc_calls w' = (svc_calls w + 5)%nat /\
  rand_draws w' = S (rand_draws w).
Proof.
  intros Hrun. pose proof Hrun as Hexn.
  apply (rewrite_base64_note_Raise service random_index) in Hexn as (-> & _).
  split; [reflexivity|]. revert Hrun. unfold rewrite_base64_note.
  destruct (b64decode_utf8 b64_text) as [decoded|]; [|discriminate].
  split; [eauto|]. revert Hrun.
  destruct (random_choice_styles random_index w) as (style & Hstyle & _).
  rewrite (bind_Ok _ _ _ _ _ Hstyle). intros Hrun.
  apply bind_inv_Raise in Hrun as [Hcall|(new_text & w1 & Hcall & Hrun)].
  - apply call_openai_for_Raise_inv in Hcall as (_ & _ & ->);
      [|repeat constructor; lia].
    now cbn.
  - apply (call_openai_Ok service random_index) in Hcall
      as (_ & _ & _ & Hre & _).
    destruct (utf8_encodable_encode new_text Hre) as [token Htok].
    rewrite Htok in Hrun. discriminate.
Qed.

(** What a rewrite that returns costs. *)
Lemma rewrite_base64_note_cost (b64_text b64_text' : json) (w w' : world) :
  rewrite_base64_note service random_index b64_text w = (Ok b64_text', w') ->
  (svc_calls w <= svc_calls w' <= svc_calls w + 5)%nat /\
  (rand_draws w <= rand_draws w' <= rand_draws w + 1)%nat.
Proof.
  unfold rewrite_base64_note.
  destruct (b64decode_utf8 b64_text) as [decoded|].
  - destruct (random_choice_styles random_index w) as (style & Hstyle & _).
    rewrite (bind_Ok _ _ _ _ _ Hstyle). intros Hrun.
    apply bind_inv_Ok in Hrun as (new_text & w1 & Hcall & Hrun).
    apply (call_openai_Ok service random_index) in Hcall
      as (_ & _ & _ & _ & _ & Hc & Hr & _).
    destruct (Codec.encode new_text); [|discriminate].
    injection Hrun as _ <-. cbn in *. lia.
  - intros [= _ <-]. lia.
Qed.

(** One turn of the loop of [process_resource] that returns: either the
    element has no [data] and nothing happened, or it was counted. *)
Lemma process_pf_Ok_inv (pf pf' : json) (count count' : nat) (w w' : world) :
  process_pf service random_index pf count w = (Ok (pf', count'), w') ->
  (has_data pf = false /\ pf' = pf /\ count' = count /\ w' = w) \/
  (has_data pf = true /\ count' = S count /\
   (svc_calls w <= svc_calls w' <= svc_calls w + 5)%nat /\
   (rand_draws w <= rand_draws w' <= rand_draws w + 1)%nat).
Proof.
  unfold process_pf, has_data. intros Hrun.
  apply bind_inv_Ok in Hrun as (has & w1 & Hc & Hrun).
  injection Hc as Hc <-. rewrite Hc.
  destruct has.
  - right.
    apply bind_inv_Ok in Hrun as (original & w2 & Hget & Hrun).
    injection Hget as Hget <-.
    apply bind_inv_Ok in Hrun as (rewritten & w3 & Hrw & Hrun).
    apply bind_inv_Ok in Hrun as (pf1 & w4 & Hset & Hrun).
    injection Hset as Hset <-. injection Hrun as _ <- <-.
    apply rewrite_base64_note_cost in Hrw. tauto.
  - left. injection Hrun as <- <- <-. tauto.
Qed.

Lemma process_pf_Raise_inv (pf : json) (count : nat) (e : exn) (w w' : world) :
  process_pf service random_index pf count w = (Raise e, w') ->
  e = TypeError \/ e = RuntimeError.
Proof.
  unfold process_pf, bind, lift.
  destruct pf; cbn [py_contains py_getitem py_setitem];
    try (intros [= <- _]; tauto).
  - (* a string *)
    destruct (str_contains (str "data") s); intros [= <- _]; tauto.
  - (* a list *)
    destruct (existsb (eq_str (str "data")) items); intros [= <- _]; tauto.
  - (* a dict *)
    destruct (dict_get (str "data") fields) as [original|] eqn:Hget.
    + rewrite bool_decide_eq_true_2 by eauto.
      destruct (rewrite_base64_note service random_index original w)
        as [[rewritten|e'] w1] eqn:Hrw; [discriminate|].
      intros [= <- _].
      apply rewrite_base64_note_Raise_inv in Hrw. tauto.
    + rewrite bool_decide_eq_false_2 by (intros [? ?]; discriminate).
      discriminate.
Qed.

Lemma process_resource_for_Ok_inv (pf_list pf_list' : list json)
    (count count' : nat) (w w' : world) :
  process_resource_for service random_index pf_list count w
    = (Ok (pf_list', count'), w') ->
  count' = (count + length (List.filter has_data pf_list))%nat /\
  (svc_calls w <= svc_calls w' <= svc_calls w + 5 * (count' - count))%nat /\
  (rand_draws w <= rand_draws w' <= rand_draws w + (count' - count))%nat /\
  (count' = count -> pf_list' = pf_list /\ w' = w).
Proof.
  revert pf_list' count count' w w'.
  induction pf_list as [|pf pf_list IH]; intros pf_list' count count' w w';
    cbn [process_resource_for]; intros Hrun.
  - injection Hrun as <- <- <-. cbn.
    split; [lia|]. split; [lia|]. split; [lia|]. tauto.
  - apply bind_inv_Ok in Hrun as ([pf1 c1] & w1 & Hpf & Hrun).
    apply bind_inv_Ok in Hrun as ([rest c2] & w2 & Hrest & Hrun).
    injection Hrun as <- <- <-. cbn [fst snd] in *.
    apply IH in Hrest as (Hc2 & Hs2 & Hr2 & Hid2).
    cbn [List.filter].
    apply process_pf_Ok_inv in Hpf
      as [(Hh & -> & -> & ->)|(Hh & -> & Hs1 & Hr1)]; rewrite Hh.
    + split; [lia|]. split; [lia|]. split; [lia|].
      intros Heq. now destruct (Hid2 Heq) as [-> ->].
    + cbn [length]. split; [lia|]. split; [lia|]. split; [lia|]. lia.
Qed.

Lemma process_resource_for_Raise_inv (pf_list : list json) (count : nat)
    (e : exn) (w w' : world) :
  process_resource_for service random_index pf_list count w = (Raise e, w') ->
  e = TypeError \/ e = RuntimeError.
Proof.
  revert count w.
  induction pf_list as [|pf pf_list IH]; intros count w;
    cbn [process_resource_for]; intros Hrun; [discriminate|].
  apply bind_inv_Raise in Hrun as [Hpf|(r & w1 & _ & Hrun)].
  - now apply process_pf_Raise_inv in Hpf.
  - apply bind_inv_Raise in Hrun as [Hrest|(r' & w2 & _ & Hrun)].
    + now apply IH in Hrest.
    + discriminate.
Qed.

Lemma py_iter_store_same (v : json) (items : list json) :
  py_iter v = Ok items -> py_iter_store v items = v.
Proof. destruct v; cbn; try discriminate; try reflexivity. now intros [= ->]. Qed.

Lemma process_resource_Ok_inv (resource resource' : json) (count : nat)
    (w w' : world) :
  process_resource service random_index resource w
    = (Ok (resource', count), w') ->
  (svc_calls w <= svc_calls w' <= svc_calls w + 5 * count)%nat /\
  (rand_draws w <= rand_draws w' <= rand_draws w + count)%nat /\
  (count = 0%nat -> resource' = resource /\ w' = w).
Proof.
  unfold process_resource. intros Hrun.
  apply bind_inv_Ok in Hrun as (has_pf & w1 & Hc & Hrun).
  injection Hc as Hc <-.
  destruct has_pf; cbn [negb] in Hrun.
  - apply bind_inv_Ok in Hrun as (pf_list & w2 & Hget & Hrun).
    injection Hget as Hget <-.
    apply bind_inv_Ok in Hrun as (pfs & w3 & Hiter & Hrun).
    injection Hiter as Hiter <-.
    apply bind_inv_Ok in Hrun as ([pfs' c] & w4 & Hloop & Hrun).
    apply process_resource_for_Ok_inv in Hloop as (_ & Hs & Hr & Hid).
    destruct resource; try discriminate.
    injection Hrun as <- <- <-. cbn [fst snd] in *.
    rewrite Nat.sub_0_r in *. split; [lia|]. split; [lia|].
    intros ->. destruct (Hid eq_refl) as [-> ->]. split; [|reflexivity].
    cbn in Hc, Hget. injection Hc as Hc.
    apply contains_true_get in Hc as (v & Hv).
    rewrite Hv in Hget. injection Hget as ->.
    rewrite (py_iter_store_same _ _ Hiter).
    now rewrite (dict_set_same _ _ _ Hv).
  - injection Hrun as <- <- <-. split; [lia|]. split; [lia|]. tauto.
Qed.

Lemma process_resource_Raise_inv (resource : json) (e : exn) (w w' : world) :
  process_resource service random_index resource w = (Raise e, w') ->
  e = TypeError \/ e = AttributeError \/ e = RuntimeError.
Proof.
  unfold process_resource. intros Hrun.
  apply bind_inv_Raise in Hrun as [Hc|(has_pf & w1 & _ & Hrun)].
  { injection Hc as Hc _. destruct resource; cbn in Hc; try discriminate;
      injection Hc as <-; tauto. }
  destruct (negb has_pf); [discriminate|].
  apply bind_inv_Raise in Hrun as [Hget|(pf_list & w2 & _ & Hrun)].
  { injection Hget as Hget _. destruct resource; cbn in Hget;
      try discriminate; injection Hget as <-; tauto. }
  apply bind_inv_Raise in Hrun as [Hiter|(pfs & w3 & _ & Hrun)].
  { injection Hiter as Hiter _. destruct pf_list; cbn in Hiter;
      try discriminate; injection Hiter as <-; tauto. }
  apply bind_inv_Raise in Hrun as [Hloop|(r & w4 & _ & Hrun)].
  - apply process_resource_for_Raise_inv in Hloop. tauto.
  - destruct resource; discriminate.
Qed.

Lemma process_entry_Ok_inv (entry entry' : json) (count count' : nat)
    (w w' : world) :
  process_entry service random_index entry count w
    = (Ok (entry', count'), w') ->
  (count <= count')%nat /\
  (svc_calls w <= svc_calls w' <= svc_calls w + 5 * (count' - count))%nat /\
  (rand_draws w <= rand_draws w' <= rand_draws w + (count' - count))%nat /\
  (count' = count -> entry' = entry /\ w' = w).
Proof.
  unfold process_entry. intros Hrun.
  apply bind_inv_Ok in Hrun as (resource & w1 & Hget & Hrun).
  injection Hget as Hget <-.
  destruct (py_truthy resource) eqn:Htruthy.
  - apply bind_inv_Ok in Hrun as ([resource' c] & w2 & Hres & Hrun).
    apply process_resource_Ok_inv in Hres as (Hs & Hr & Hid).
    destruct entry; try discriminate.
    injection Hrun as <- <- <-. cbn [fst snd] in *.
    replace (count + c - count)%nat with c by lia.
    split; [lia|]. split; [lia|]. split; [lia|].
    intros Heq. assert (c = 0%nat) as -> by lia.
    destruct (Hid eq_refl) as [-> ->]. split; [|reflexivity]. cbn in Hget.
    destruct (dict_get (str "resource") fields) as [v|] eqn:Hv.
    + injection Hget as ->. now rewrite (dict_set_same _ _ _ Hv).
    + injection Hget as <-. discriminate.
  - injection Hrun as <- <- <-.
    split; [lia|]. split; [lia|]. split; [lia|]. tauto.
Qed.

Lemma process_entry_Raise_inv (entry : json) (count : nat) (e : exn)
    (w w' : world) :
  process_entry service random_index entry count w = (Raise e, w') ->
  e = TypeError \/ e = AttributeError \/ e = RuntimeError.
Proof.
  unfold process_entry. intros Hrun.
  apply bind_inv_Raise in Hrun as [Hget|(resource & w1 & _ & Hrun)].
  { injection Hget as Hget _. destruct entry; cbn in Hget;
      try discriminate; injection Hget as <-; tauto. }
  destruct (py_truthy resource); [|discriminate].
  apply bind_inv_Raise in Hrun as [Hres|(r & w2 & _ & Hrun)].
  - now apply process_resource_Raise_inv in Hres.
  - destruct entry; discriminate.
Qed.

Lemma process_file_for_Ok_inv (entries entries' : list json)
    (count count' : nat) (w w' : world) :
  process_file_for service random_index entries count w
    = (Ok (entries', count'), w') ->
  (count <= count')%nat /\
  (svc_calls w <= svc_calls w' <= svc_calls w + 5 * (count' - count))%nat /\
  (rand_draws w <= rand_draws w' <= rand_draws w + (count' - count))%nat /\
  (count' = count -> entries' = entries /\ w' = w).
Proof.
  revert entries' count count' w w'.
  induction entries as [|entry entries IH]; intros entries' count count' w w';
    cbn [process_file_for]; intros Hrun.
  - injection Hrun as <- <- <-.
    split; [lia|]. split; [lia|]. split; [lia|]. tauto.
  - apply bind_inv_Ok in Hrun as ([e1 c1] & w1 & He & Hrun).
    apply bind_inv_Ok in Hrun as ([rest c2] & w2 & Hrest & Hrun).
    injection Hrun as <- <- <-. cbn [fst snd] in *.
    apply process_entry_Ok_inv in He as (Hle1 & Hs1 & Hr1 & Hid1).
    apply IH in Hrest as (Hle2 & Hs2 & Hr2 & Hid2).
    split; [lia|]. split; [lia|]. split; [lia|].
    intros Heq. assert (c1 = count) as -> by lia.
    destruct (Hid1 eq_refl) as [-> ->].
    now destruct (Hid2 Heq) as [-> ->].
Qed.

Lemma process_file_for_Raise_inv (entries : list json) (count : nat)
    (e : exn) (w w' : world) :
  process_file_for service random_index entries count w = (Raise e, w') ->
  e = TypeError \/ e = AttributeError \/ e = RuntimeError.
Proof.
  revert count w.
  induction entries as [|entry entries IH]; intros count w;
    cbn [process_file_for]; intros Hrun; [discriminate|].
  apply bind_inv_Raise in Hrun as [He|(r & w1 & _ & Hrun)].
  - now apply process_entry_Raise_inv in He.
  - apply bind_inv_Raise in Hrun as [Hrest|(r' & w2 & _ & Hrun)].
    + now apply IH in Hrest.
    + discriminate.
Qed.

Lemma process_data_Ok_inv (data data' : json) (count : nat) (w w' : world) :
  process_data service random_index data w = (Ok (data', count), w') ->
  (svc_calls w <= svc_calls w' <= svc_calls w + 5 * count)%nat /\
  (rand_draws w <= rand_draws w' <= rand_draws w + count)%nat /\
  (count = 0%nat -> data' = data /\ w' = w).
Proof.
  unfold process_data. intros Hrun.
  apply bind_inv_Ok in Hrun as (has_entry & w1 & Hc & Hrun).
  injection Hc as Hc <-.
  destruct has_entry.
  - apply bind_inv_Ok in Hrun as (entry_list & w2 & Hget & Hrun).
    injection Hget as Hget <-.
    apply bind_inv_Ok in Hrun as (entries & w3 & Hiter & Hrun).
    injection Hiter as Hiter <-.
    apply bind_inv_Ok in Hrun as ([entries' c] & w4 & Hloop & Hrun).
    apply process_file_for_Ok_inv in Hloop as (_ & Hs & Hr & Hid).
    destruct data; try discriminate.
    injection Hrun as <- <- <-. cbn [fst snd] in *.
    rewrite Nat.sub_0_r in *. split; [lia|]. split; [lia|].
    intros ->. destruct (Hid eq_refl) as [-> ->]. split; [|reflexivity].
    cbn in Hget.
    destruct (dict_get (str "entry") fields) as [v|] eqn:Hv;
      [|discriminate].
    injection Hget as ->.
    rewrite (py_iter_store_same _ _ Hiter).
    now rewrite (dict_set_same _ _ _ Hv).
  - injection Hrun as <- <- <-. split; [lia|]. split; [lia|]. tauto.
Qed.

Lemma process_data_Raise_inv (data : json) (e : exn) (w w' : world) :
  process_data service random_index data w = (Raise e, w') ->
  e = TypeError \/ e = AttributeError \/ e = RuntimeError.
Proof.
  unfold process_data. intros Hrun.
  apply bind_inv_Raise in Hrun as [Hc|(has_entry & w1 & Hc & Hrun)].
  { injection Hc as Hc _. destruct data; cbn in Hc; try discriminate;
      injection Hc as <-; tauto. }
  injection Hc as Hc <-.
  destruct has_entry; [|discriminate].
  apply bind_inv_Raise in Hrun as [Hget|(entry_list & w2 & _ & Hrun)].
  { injection Hget as Hget _. destruct data; cbn in Hget, Hc;
      try discriminate; try (injection Hget as <-; tauto).
    injection Hc as Hc. apply contains_true_get in Hc as (v & Hv).
    rewrite Hv in Hget. discriminate. }
  apply bind_inv_Raise in Hrun as [Hiter|(entries & w3 & _ & Hrun)].
  { injection Hiter as Hiter _. destruct entry_list; cbn in Hiter;
      try discriminate; injection Hiter as <-; tauto. }
  apply bind_inv_Raise in Hrun as [Hloop|(r & w4 & _ & Hrun)].
  - now apply process_file_for_Raise_inv in Hloop.
  - destruct data; discriminate.
Qed.

End TraversalFacts.

(** X4. [rewrite_base64_note] raises nothing but the [RuntimeError] of
    [call_openai]: the [encode] of its last line cannot raise, because a
    text that [call_openai] returns was written to the UTF-8 log first.
    And when it raises, the token had decoded, one style was drawn and the
    service was called 5 times. *)
Theorem rewrite_raises_only
    (service : nat -> text -> Pipeline.svc_outcome)
    (random_index : nat -> nat)
    (b64_text : Json.json) (e : Json.exn) (w w' : Pipeline.world) :
  Pipeline.rewrite_base64_note service random_index b64_text w
    = (Json.Raise e, w') ->
  e = Json.RuntimeError /\
  (exists decoded, Pipeline.b64decode_utf8 b64_text = Some decoded) /\
  Pipeline.svc_calls w' = (Pipeline.svc_calls w + 5)%nat /\
  Pipeline.rand_draws w' = S (Pipeline.rand_draws w).
Proof. apply rewrite_base64_note_Raise_inv. Qed.

Lemma rewrite_raises_only_witness :
  let service := fun (_ : nat) (_ : text) =>
    Pipeline.SvcText (0xD800 :: str "ABCDEF") in
  let w := Pipeline.mk_world 0 0 [] [] ∅ [] in
  let w' := snd (Pipeline.rewrite_base64_note service (fun _ => 0%nat)
                   (Json.JStr (str "SGVsbG8gd29ybGQ=")) w) in
  Json.RuntimeError = Json.RuntimeError /\
  (exists decoded,
     Pipeline.b64decode_utf8 (Json.JStr (str "SGVsbG8gd29ybGQ="))
     = Some decoded) /\
  Pipeline.svc_calls w' = (Pipeline.svc_calls w + 5)%nat /\
  Pipeline.rand_draws w' = S (Pipeline.rand_draws w).
Proof.
  intros service w w'.
  apply (rewrite_raises_only service (fun _ => 0%nat)
           (Json.JStr (str "SGVsbG8gd29ybGQ=")) Json.RuntimeError w w').
  vm_compute. reflexivity.
Defined.

(** X5. [process_file] raises only in three ways: [json.load] raised, and
    nothing else happened; or the traversal raised [TypeError] or
    [AttributeError] (a document of another shape) or the [RuntimeError] of
    [call_openai], and nothing was written; or [json.dump] raised
    [UnicodeEncodeError] on a string of the document, and the output file
    is left cut short, without a summary.  The lookups [data["entry"]] and
    [pf["data"]] are guarded by [in]: the traversal never raises
    [KeyError]. *)
Theorem process_file_raises_only
    (service : nat -> text -> Pipeline.svc_outcome)
    (random_index : nat -> nat)
    (f : Pipeline.file) (e : Json.exn) (w w' : Pipeline.world) :
  Pipeline.process_file service random_index f w = (Json.Raise e, w') ->
  (Pipeline.file_json f = None /\ e = Pipeline.load_error f /\ w' = w) \/
  ((e = Json.TypeError \/ e = Json.AttributeError \/ e = Json.RuntimeError)
   /\ Pipeline.out_files w' = Pipeline.out_files w
   /\ Pipeline.summaries w' = Pipeline.summaries w) \/
  (e = Json.UnicodeEncodeError /\
   Pipeline.summaries w' = Pipeline.summaries w /\
   exists data',
     Json.dumpable data' = false /\
     Pipeline.out_files w'
     = <[Pipeline.file_name f := Pipeline.Cut data']> (Pipeline.out_files w)).
Proof.
  unfold Pipeline.process_file, Pipeline.json_load.
  destruct (Pipeline.file_json f) as [data|].
  - unfold Pipeline.bind at 1. cbn [Pipeline.ret]. intros Hrun.
    apply bind_inv_Raise in Hrun as [Hdata|([data' c] & w1 & Hdata & Hrun)].
    + right. left.
      pose proof (files_kept_process_data service random_index _ _ _ _ Hdata)
        as (Ho & Hs).
      apply process_data_Raise_inv in Hdata. tauto.
    + right. right.
      apply files_kept_process_data in Hdata as (Ho & Hs).
      unfold Pipeline.write_output in Hrun. cbn [fst snd] in Hrun.
      destruct (Json.dumpable data') eqn:Hdump; [discriminate|].
      injection Hrun as <- <-. cbn [Pipeline.summaries Pipeline.out_files].
      split; [reflexivity|]. split; [exact Hs|].
      exists data'. now rewrite Ho.
  - intros [= <- <-]. now left.
Qed.

Lemma process_file_raises_only_witness :
  let service := fun (_ : nat) (_ : text) => Pipeline.SvcRaises in
  let w := Pipeline.mk_world 0 0 [] [] ∅ [] in
  let f := Pipeline.mk_file (str "a.json")
             (Some (Json.JObj [(str "entry", Json.JArr [Json.JInt 3])]))
             Json.JSONDecodeError in
  (Pipeline.file_json f = None /\
   Json.AttributeError = Pipeline.load_error f /\ w = w) \/
  ((Json.AttributeError = Json.TypeError
    \/ Json.AttributeError = Json.AttributeError
    \/ Json.AttributeError = Json.RuntimeError)
   /\ Pipeline.out_files w = Pipeline.out_files w
   /\ Pipeline.summaries w = Pipeline.summaries w) \/
  (Json.AttributeError = Json.UnicodeEncodeError /\
   Pipeline.summaries w = Pipeline.summaries w /\
   exists data',
     Json.dumpable data' = false /\
     Pipeline.out_files w
     = <[Pipeline.file_name f := Pipeline.Cut data']> (Pipeline.out_files w)).
Proof.
  intros service w f.
  apply (process_file_raises_only service (fun _ => 0%nat) f
           Json.AttributeError w w).
  vm_compute. reflexivity.
Defined.

(** X6. For a resource whose [presentedForm] is a list, the count that
    [process_resource] returns is the number of elements of the list that
    have [data] (a dict with the key), whether their token decoded or
    not. *)
Theorem count_is_elements_with_data
    (service : nat -> text -> Pipeline.svc_outcome)
    (random_index : nat -> nat)
    (fields : list (text * Json.json)) (pf_list : list Json.json)
    (resource' : Json.json) (count : nat) (w w' : Pipeline.world) :
  Json.dict_get (str "presentedForm") fields = Some (Json.JArr pf_list) ->
  Pipeline.process_resource service random_index (Json.JObj fields) w
    = (Json.Ok (resource', count), w') ->
  count = length (List.filter Observations.has_data pf_list).
Proof.
  intros Hget Hrun. unfold Pipeline.process_resource in Hrun.
  apply bind_inv_Ok in Hrun as (has_pf & w1 & Hc & Hrun).
  injection Hc as Hc <-. cbn [Json.py_contains] in Hc.
  rewrite Hget, bool_decide_eq_true_2 in Hc by eauto.
  subst has_pf. cbn [negb] in Hrun.
  apply bind_inv_Ok in Hrun as (pf_list0 & w2 & Hget' & Hrun).
  injection Hget' as Hget' <-. cbn [Json.py_get] in Hget'.
  rewrite Hget in Hget'. subst pf_list0.
  apply bind_inv_Ok in Hrun as (pfs & w3 & Hiter & Hrun).
  injection Hiter as <- <-.
  apply bind_inv_Ok in Hrun as ([pfs' c] & w4 & Hloop & Hrun).
  injection Hrun as _ <- _.
  now apply process_resource_for_Ok_inv in Hloop as (-> & _).
Qed.

Lemma count_is_elements_with_data_witness :
  let service := fun (_ : nat) (_ : text) =>
    Pipeline.SvcText (str "Rewritten note.") in
  let w := Pipeline.mk_world 0 0 [] [] ∅ [] in
  let pf_list :=
    [Json.JObj [(str "data", Json.JStr (str "SGVsbG8gd29ybGQ="))];
     Json.JObj [(str "contentType", Json.JStr (str "text/plain"))];
     Json.JObj [(str "data", Json.JStr (str "A"))]] in
  2%nat = length (List.filter Observations.has_data pf_list).
Proof.
  intros service w pf_list.
  apply (count_is_elements_with_data service (fun _ => 0%nat)
           [(str "presentedForm", Json.JArr pf_list)] pf_list
           (fst (match fst (Pipeline.process_resource service (fun _ => 0%nat)
                         (Json.JObj [(str "presentedForm", Json.JArr pf_list)])
                         w) with
                 | Json.Ok r => r
                 | Json.Raise _ => (Json.JNull, 0%nat)
                 end))
           2 w
           (snd (Pipeline.process_resource service (fun _ => 0%nat)
                   (Json.JObj [(str "presentedForm", Json.JArr pf_list)]) w))).
  - vm_compute. reflexivity.
  - vm_compute. reflexivity.
Defined.

(** X7. A document for which [process_file] counts [n] rewrites cost at
    most [5 * n] calls of the service and at most [n] draws of a style. *)
Theorem rewrites_cost_bound
    (service : nat -> text -> Pipeline.svc_outcome)
    (random_index : nat -> nat)
    (data data' : Json.json) (n : nat) (w w' : Pipeline.world) :
  Pipeline.process_data service random_index data w
    = (Json.Ok (data', n), w') ->
  (Pipeline.svc_calls w <= Pipeline.svc_calls w'
   <= Pipeline.svc_calls w + 5 * n)%nat /\
  (Pipeline.rand_draws w <= Pipeline.rand_draws w'
   <= Pipeline.rand_draws w + n)%nat.
Proof.
  intros Hrun.
  apply process_data_Ok_inv in Hrun as (Hs & Hr & _). tauto.
Qed.

Lemma rewrites_cost_bound_witness :
  let service := fun (n : nat) (_ : text) =>
    match n with
    | O => Pipeline.SvcRaises
    | _ => Pipeline.SvcText (str "Rewritten note.")
    end in
  let w := Pipeline.mk_world 0 0 [] [] ∅ [] in
  let data := Json.JObj
    [(str "entry", Json.JArr
       [Json.JObj
          [(str "resource", Json.JObj
             [(str "presentedForm", Json.JArr
                [Json.JObj
                   [(str "data", Json.JStr (str "SGVsbG8gd29ybGQ="))]])])]])] in
  let w' := snd (Pipeline.process_data service (fun _ => 0%nat) data w) in
  (Pipeline.svc_calls w <= Pipeline.svc_calls w'
   <= Pipeline.svc_calls w + 5 * 1)%nat /\
  (Pipeline.rand_draws w <= Pipeline.rand_draws w'
   <= Pipeline.rand_draws w + 1)%nat.
Proof.
  intros service w data w'.
  apply (rewrites_cost_bound service (fun _ => 0%nat) data
           (match fst (Pipeline.process_data service (fun _ => 0%nat) data w)
            with
            | Json.Ok r => fst r
            | Json.Raise _ => Json.JNull
            end) 1 w w').
  vm_compute. reflexivity.
Defined.

(** X8. For a document in which [process_file] counts no rewrite, nothing
    happened before the dump (no call of the service, no draw, nothing
    logged) and the document dumped is the one loaded: it is written back
    exactly as it was, with a summary of 0 rewrites, when all its strings
    can be encoded as UTF-8; otherwise [json.dump] raises
    [UnicodeEncodeError], the output file is left cut short and no summary
    is printed. *)
Theorem document_without_attachment_unchanged
    (service : nat -> text -> Pipeline.svc_outcome)
    (random_index : nat -> nat)
    (f : Pipeline.file) (data data' : Json.json) (w w1 : Pipeline.world) :
  Pipeline.file_json f = Some data ->
  Pipeline.process_data service random_index data w
    = (Json.Ok (data', 0%nat), w1) ->
  data' = data /\ w1 = w /\
  Pipeline.process_file service random_index f w
  = if Json.dumpable data
    then (Json.Ok tt,
          Pipeline.mk_world (Pipeline.svc_calls w) (Pipeline.rand_draws w)
            (Pipeline.log_file w) (Pipeline.slept w)
            (<[Pipeline.file_name f := Pipeline.Whole data]>
               (Pipeline.out_files w))
            (Pipeline.summaries w ++ [(Pipeline.file_name f, 0%nat)]))
    else (Json.Raise Json.UnicodeEncodeError,
          Pipeline.mk_world (Pipeline.svc_calls w) (Pipeline.rand_draws w)
            (Pipeline.log_file w) (Pipeline.slept w)
            (<[Pipeline.file_name f := Pipeline.Cut data]>
               (Pipeline.out_files w))
            (Pipeline.summaries w)).
Proof.
  intros Hf Hrun.
  pose proof (process_data_Ok_inv service random_index _ _ _ _ _ Hrun)
    as (_ & _ & Hid).
  destruct (Hid eq_refl) as [-> ->].
  split; [reflexivity|]. split; [reflexivity|].
  unfold Pipeline.process_file, Pipeline.json_load. rewrite Hf.
  unfold Pipeline.bind at 1. cbn [Pipeline.ret].
  now rewrite (bind_Ok _ _ _ _ _ Hrun).
Qed.

Lemma document_without_attachment_unchanged_witness :
  let service := fun (_ : nat) (_ : text) =>
    Pipeline.SvcText (str "Rewritten note.") in
  let w := Pipeline.mk_world 0 0 [] [] ∅ [] in
  let data := Json.JObj
    [(str "note", Json.JStr [0xD800]);
     (str "entry", Json.JArr
       [Json.JObj
          [(str "resource", Json.JObj
             [(str "presentedForm", Json.JArr
                [Json.JObj [(str "contentType", Json.JStr (str "x"))]])])];
        Json.JObj [(str "fullUrl", Json.JStr (str "u"))]])] in
  let f := Pipeline.mk_file (str "a.json") (Some data) Json.JSONDecodeError in
  Pipeline.process_file service (fun _ => 0%nat) f w
  = if Json.dumpable data
    then (Json.Ok tt,
          Pipeline.mk_world (Pipeline.svc_calls w) (Pipeline.rand_draws w)
            (Pipeline.log_file w) (Pipeline.slept w)
            (<[Pipeline.file_name f := Pipeline.Whole data]>
               (Pipeline.out_files w))
            (Pipeline.summaries w ++ [(Pipeline.file_name f, 0%nat)]))
    else (Json.Raise Json.UnicodeEncodeError,
          Pipeline.mk_world (Pipeline.svc_calls w) (Pipeline.rand_draws w)
            (Pipeline.log_file w) (Pipeline.slept w)
            (<[Pipeline.file_name f := Pipeline.Cut data]>
               (Pipeline.out_files w))
            (Pipeline.summaries w)).
Proof.
  intros service w data f.
  apply (document_without_attachment_unchanged service (fun _ => 0%nat)
           f data data w w).
  - reflexivity.
  - vm_compute. reflexivity.
Defined.

(** * Edge cases of the traversal *)

Section EdgeFacts.
Import Json Pipeline.

Variable service : nat -> text -> svc_outcome.
Variable random_index : nat -> nat.

(** An element that is a string: a key of a dict, or a character of a
    string, that the loop of [process_resource] visits. *)
Lemma process_pf_str (s : text) (count : nat) (w : world) :
  process_pf service random_index (JStr s) count w
  = if str_contains (str "data") s then (Raise TypeError, w)
    else (Ok (JStr s, count), w).
Proof.
  unfold process_pf, bind, lift. cbn [py_contains].
  now destruct (str_contains (str "data") s).
Qed.

Lemma process_resource_for_keys (keys : list text) (count : nat) (w : world) :
  process_resource_for service random_index (List.map JStr keys) count w
  = if existsb (str_contains (str "data")) keys then (Raise TypeError, w)
    else (Ok (List.map JStr keys, count), w).
Proof.
  induction keys as [|k keys IH]; cbn [List.map process_resource_for existsb].
  - reflexivity.
  - unfold bind at 1. rewrite process_pf_str.
    destruct (str_contains (str "data") k); cbn [orb]; [reflexivity|].
    cbn [fst snd]. unfold bind at 1. rewrite IH.
    now destruct (existsb (str_contains (str "data")) keys).
Qed.

End EdgeFacts.

(** X9. When [presentedForm] holds a single object instead of a list, the
    loop runs over the keys of that object: [process_resource] raises
    [TypeError] as soon as a key contains ["data"] (the [data] key of an
    attachment does), and otherwise returns the resource unchanged with
    count 0; in neither case is the service called. *)
Theorem presented_form_object
    (service : nat -> text -> Pipeline.svc_outcome)
    (random_index : nat -> nat)
    (fields pf_fields : list (text * Json.json)) (w : Pipeline.world) :
  Json.dict_get (str "presentedForm") fields = Some (Json.JObj pf_fields) ->
  Pipeline.process_resource service random_index (Json.JObj fields) w
  = if existsb (fun kv => Json.str_contains (str "data") (fst kv)) pf_fields
    then (Json.Raise Json.TypeError, w)
    else (Json.Ok (Json.JObj fields, 0%nat), w).
Proof.
  intros Hget. unfold Pipeline.process_resource, Pipeline.bind, Pipeline.lift.
  rewrite py_contains_dict, Hget, bool_decide_eq_true_2 by eauto.
  cbn [negb Json.py_get]. rewrite Hget. cbn [Json.py_iter].
  replace (List.map (fun kv : text * Json.json => Json.JStr (fst kv)) pf_fields)
    with (List.map Json.JStr (List.map fst pf_fields))
    by (rewrite List.map_map; reflexivity).
  rewrite process_resource_for_keys.
  replace (existsb (Json.str_contains (str "data")) (List.map fst pf_fields))
    with (existsb (fun kv : text * Json.json =>
                     Json.str_contains (str "data") (fst kv)) pf_fields).
  - destruct (existsb _ pf_fields); [reflexivity|].
    cbn [fst snd Json.py_iter_store Pipeline.ret].
    now rewrite (dict_set_same _ _ _ Hget).
  - clear. induction pf_fields as [|kv l IH]; cbn; [reflexivity|].
    now rewrite IH.
Qed.

Lemma presented_form_object_witness :
  let service := fun (_ : nat) (_ : text) =>
    Pipeline.SvcText (str "Rewritten note.") in
  let w := Pipeline.mk_world 0 0 [] [] ∅ [] in
  let fields :=
    [(str "presentedForm", Json.JObj
        [(str "contentType", Json.JStr (str "text/plain"));
         (str "data", Json.JStr (str "SGVsbG8gd29ybGQ="))])] in
  Pipeline.process_resource service (fun _ => 0%nat) (Json.JObj fields) w
  = (Json.Raise Json.TypeError, w).
Proof.
  intros service w fields.
  exact (presented_form_object service (fun _ => 0%nat) fields
           [(str "contentType", Json.JStr (str "text/plain"));
            (str "data", Json.JStr (str "SGVsbG8gd29ybGQ="))] w eq_refl).
Defined.

(** X10. A file whose JSON value is not an object either makes
    [process_file] raise [TypeError] with nothing written (a number, a
    boolean, [null], a list with the element ["entry"], a string with that
    substring), or goes to the dump as it is, with 0 rewrites: it is
    written back whole and reported when its strings can be encoded as
    UTF-8, and otherwise [json.dump] raises [UnicodeEncodeError] and leaves
    the file cut short.  The service is not called. *)
Theorem top_level_not_an_object
    (service : nat -> text -> Pipeline.svc_outcome)
    (random_index : nat -> nat)
    (f : Pipeline.file) (data : Json.json) (w : Pipeline.world) :
  Pipeline.file_json f = Some data ->
  (forall fields, data <> Json.JObj fields) ->
  Pipeline.process_file service random_index f w
  = (if Json.dumpable data
     then (Json.Ok tt,
           Pipeline.mk_world (Pipeline.svc_calls w) (Pipeline.rand_draws w)
             (Pipeline.log_file w) (Pipeline.slept w)
             (<[Pipeline.file_name f := Pipeline.Whole data]>
                (Pipeline.out_files w))
             (Pipeline.summaries w ++ [(Pipeline.file_name f, 0%nat)]))
     else (Json.Raise Json.UnicodeEncodeError,
           Pipeline.mk_world (Pipeline.svc_calls w) (Pipeline.rand_draws w)
             (Pipeline.log_file w) (Pipeline.slept w)
             (<[Pipeline.file_name f := Pipeline.Cut data]>
                (Pipeline.out_files w))
             (Pipeline.summaries w)))
  \/ Pipeline.process_file service random_index f w
     = (Json.Raise Json.TypeError, w).
Proof.
  intros Hf Hobj.
  assert (Hd : Pipeline.process_data service random_index data w
               = (Json.Ok (data, 0%nat), w)
               \/ Pipeline.process_data service random_index data w
                  = (Json.Raise Json.TypeError, w)).
  { unfold Pipeline.process_data, Pipeline.bind, Pipeline.lift.
    destruct data; cbn [Json.py_contains Json.py_getitem];
      try (right; reflexivity).
    - destruct (Json.str_contains (str "entry") s);
        [right|left]; reflexivity.
    - destruct (existsb (Json.eq_str (str "entry")) items);
        [right|left]; reflexivity.
    - now destruct (Hobj fields). }
  unfold Pipeline.process_file, Pipeline.json_load. rewrite Hf.
  unfold Pipeline.bind at 1 3. cbn [Pipeline.ret].
  destruct Hd as [Hd|Hd]; [left|right].
  - now rewrite (bind_Ok _ _ _ _ _ Hd).
  - now rewrite (bind_Raise _ _ _ _ _ Hd).
Qed.

Lemma top_level_not_an_object_witness :
  let service := fun (_ : nat) (_ : text) => Pipeline.SvcRaises in
  let w := Pipeline.mk_world 0 0 [] [] ∅ [] in
  let f := Pipeline.mk_file (str "a.json")
             (Some (Json.JArr [Json.JStr (str "entry")]))
             Json.JSONDecodeError in
  Pipeline.process_file service (fun _ => 0%nat) f w
  = (Json.Raise Json.TypeError, w).
Proof.
  intros service w f.
  destruct (top_level_not_an_object service (fun _ => 0%nat) f
              (Json.JArr [Json.JStr (str "entry")]) w eq_refl) as [H|H].
  - intros fields. discriminate.
  - vm_compute in H. discriminate H.
  - exact H.
Defined.

(** * The batch *)

Section MainFacts.
Import Json Pipeline Observations.

Variable service : nat -> text -> svc_outcome.
Variable random_index : nat -> nat.

Lemma sleep_DELAY (w : world) :
  sleep DELAY w
  = (Ok tt,
     mk_world (svc_calls w) (rand_draws w) (log_file w) (slept w ++ [DELAY])
       (out_files w) (summaries w)).
Proof. reflexivity. Qed.


(** A run of [main] that returns: one summary per file, in the order of
    the batch, and every file parsed. *)
Lemma main_Ok_summaries (files : list file) (w w' : world) :
  main service random_index files w = (Ok tt, w') ->
  exists counts,
    length counts = length files /\
    summaries w' = summaries w ++ zip (List.map file_name files) counts /\
    Forall (fun f => file_json f <> None) files.
Proof.
  revert w. induction files as [|f files IH]; intros w Hrun.
  - injection Hrun as <-. exists []. cbn. now rewrite app_nil_r.
  - cbn [main] in Hrun.
    apply bind_inv_Ok in Hrun as ([] & w1 & Hf & Hrun).
    rewrite (bind_Ok _ _ _ _ _ (sleep_DELAY w1)) in Hrun.
    apply IH in Hrun as (counts & Hlen & Hsum & Hall).
    pose proof (process_file_spec service random_index f w) as Hspec.
    rewrite Hf in Hspec.
    destruct Hspec as (data & data' & c & Hjson & _ & _ & _ & Hs).
    exists (c :: counts). cbn [length List.map zip zip_with].
    split; [now rewrite Hlen|]. split.
    + rewrite Hsum. cbn [summaries]. rewrite Hs, <- app_assoc. reflexivity.
    + constructor; [congruence|exact Hall].
Qed.

(** Each file of a run of [main] that returns: what the run did before it,
    and the document written for it. *)
Lemma main_Ok_file (files : list file) (f : file) (w w' : world) :
  main service random_index files w = (Ok tt, w') ->
  In f files ->
  exists data data',
    file_json f = Some data /\ mask_data data' = mask_data data /\
    (NoDup (List.map file_name files) ->
     out_files w' !! file_name f = Some (Whole data')).
Proof.
  revert w. induction files as [|g files IH]; intros w Hrun Hin; [destruct Hin|].
  cbn [main] in Hrun.
  apply bind_inv_Ok in Hrun as ([] & w1 & Hg & Hrun).
  rewrite (bind_Ok _ _ _ _ _ (sleep_DELAY w1)) in Hrun.
  destruct Hin as [->|Hin].
  - pose proof (process_file_spec service random_index f w) as Hspec.
    rewrite Hg in Hspec.
    destruct Hspec as (data & data' & c & Hjson & Hmask & _ & Ho & _).
    exists data, data'. split; [exact Hjson|]. split; [exact Hmask|].
    intros Hnd. cbn [List.map] in Hnd. apply NoDup_cons in Hnd as [Hnin _].
    destruct (main_Ok_outputs service random_index files _ _ Hrun)
      as (_ & Hout).
    rewrite Hout; [|now rewrite <- list_elem_of_In].
    cbn [out_files]. rewrite Ho. apply lookup_insert_eq.
  - destruct (IH _ Hrun Hin) as (data & data' & Hjson & Hmask & Hout).
    exists data, data'. split; [exact Hjson|]. split; [exact Hmask|].
    intros Hnd. cbn [List.map] in Hnd. apply NoDup_cons in Hnd as [_ Hnd].
    now apply Hout.
Qed.


End MainFacts.

(** X11. A run of [main] that returns has printed exactly one summary per
    file, in the order of the batch, after the summaries that were there;
    and every file of the batch parsed as JSON. *)
Theorem main_reports_every_file
    (service : nat -> text -> Pipeline.svc_outcome)
    (random_index : nat -> nat)
    (files : list Pipeline.file) (w w' : Pipeline.world) :
  Pipeline.main service random_index files w = (Json.Ok tt, w') ->
  exists counts,
    length counts = length files /\
    Pipeline.summaries w'
    = Pipeline.summaries w
      ++ zip (List.map Pipeline.file_name files) counts /\
    Forall (fun f => Pipeline.file_json f <> None) files.
Proof. apply main_Ok_summaries. Qed.

Lemma main_reports_every_file_witness :
  let service := fun (_ : nat) (_ : text) =>
    Pipeline.SvcText (str "Rewritten note.") in
  let w := Pipeline.mk_world 0 0 [] [] ∅ [] in
  let data := Json.JObj
    [(str "entry", Json.JArr
       [Json.JObj
          [(str "resource", Json.JObj
             [(str "presentedForm", Json.JArr
                [Json.JObj
                   [(str "data", Json.JStr (str "SGVsbG8gd29ybGQ="))]])])]])] in
  let files := [Pipeline.mk_file (str "a.json") (Some data)
                  Json.JSONDecodeError;
                Pipeline.mk_file (str "b.json") (Some (Json.JObj []))
                  Json.JSONDecodeError] in
  let w' := snd (Pipeline.main service (fun _ => 0%nat) files w) in
  exists counts,
    length counts = 2%nat /\
    Pipeline.summaries w' = [] ++ zip [str "a.json"; str "b.json"] counts /\
    Forall (fun f => Pipeline.file_json f <> None) files.
Proof.
  intros service w data files w'.
  apply (main_reports_every_file service (fun _ => 0%nat) files w w').
  vm_compute. reflexivity.
Defined.

(** X12. After a run of [main] that returns, over files with distinct
    names, the output directory holds for every file of the batch a
    document that differs from the one loaded at most in the values of
    [presentedForm[*].data]. *)
Theorem batch_structural_preservation
    (service : nat -> text -> Pipeline.svc_outcome)
    (random_index : nat -> nat)
    (files : list Pipeline.file) (f : Pipeline.file)
    (w w' : Pipeline.world) :
  Pipeline.main service random_index files w = (Json.Ok tt, w') ->
  NoDup (List.map Pipeline.file_name files) ->
  In f files ->
  exists data data',
    Pipeline.file_json f = Some data /\
    Pipeline.out_files w' !! Pipeline.file_name f
      = Some (Pipeline.Whole data') /\
    Json.mask_data data' = Json.mask_data data.
Proof.
  intros Hrun Hnd Hin.
  destruct (main_Ok_file service random_index files f w w' Hrun Hin)
    as (data & data' & Hjson & Hmask & Hout).
  exists data, data'. auto.
Qed.

Lemma batch_structural_preservation_witness :
  let service := fun (_ : nat) (_ : text) =>
    Pipeline.SvcText (str "Rewritten note.") in
  let w := Pipeline.mk_world 0 0 [] [] ∅ [] in
  let data := Json.JObj
    [(str "entry", Json.JArr
       [Json.JObj
          [(str "resource", Json.JObj
             [(str "presentedForm", Json.JArr
                [Json.JObj
                   [(str "data", Json.JStr (str "SGVsbG8gd29ybGQ="))]])])]])] in
  let a := Pipeline.mk_file (str "a.json") (Some data)
             Json.JSONDecodeError in
  let b := Pipeline.mk_file (str "b.json") (Some (Json.JObj []))
             Json.JSONDecodeError in
  let w' := snd (Pipeline.main service (fun _ => 0%nat) [a; b] w) in
  exists data0 data',
    Pipeline.file_json a = Some data0 /\
    Pipeline.out_files w' !! Pipeline.file_name a
      = Some (Pipeline.Whole data') /\
    Json.mask_data data' = Json.mask_data data0.
Proof.
  intros service w data a b w'.
  apply (batch_structural_preservation service (fun _ => 0%nat) [a; b] a w w').
  - vm_compute. reflexivity.
  - apply NoDup_cons. split.
    + intros H. apply list_elem_of_In in H. destruct H as [H|[]].
      vm_compute in H. discriminate H.
    + apply NoDup_cons. split; [intros H; inversion H|apply NoDup_nil_2].
  - now left.
Defined.



(** * The world only moves forward *)

Section ForwardFacts.
Import Json Pipeline Observations.

Variable service : nat -> text -> svc_outcome.
Variable random_index : nat -> nat.

Lemma advances_refl (w : world) : advances w w.
Proof. unfold advances. repeat split; reflexivity. Qed.

Lemma advances_trans (w1 w2 w3 : world) :
  advances w1 w2 -> advances w2 w3 -> advances w1 w3.
Proof.
  unfold advances. intros (Hc & Hr & Hl & Hs & Hm) (Hc' & Hr' & Hl' & Hs' & Hm').
  repeat split; try lia; etransitivity; eassumption.
Qed.

Lemma forward_ret {A} (a : A) : forward (ret a).
Proof. intros w r w' [= <- <-]. apply advances_refl. Qed.

Lemma forward_raise {A} (e : exn) : forward (@raise A e).
Proof. intros w r w' [= <- <-]. apply advances_refl. Qed.

Lemma forward_lift {A} (x : result A) : forward (lift x).
Proof. intros w r w' [= <- <-]. apply advances_refl. Qed.

Lemma forward_bind {A B} (m : M A) (k : A -> M B) :
  forward m -> (forall a, forward (k a)) -> forward (bind m k).
Proof.
  intros Hm Hk w r w'. unfold bind.
  destruct (m w) as [[a|e] w1] eqn:E; apply Hm in E.
  - intros Hrun. apply Hk in Hrun. now apply (advances_trans w w1 w').
  - now intros [= <- <-].
Qed.

Lemma forward_sleep (d : Q) : forward (sleep d).
Proof.
  intros w r w'. unfold sleep.
  destruct (Qle_bool 0 d); intros [= <- <-]; [|apply advances_refl].
  unfold advances. cbn. repeat split; try reflexivity.
  now apply prefix_app_r.
Qed.

Lemma attempt_advances (prompt : text) (w : world) :
  advances w (snd (attempt service prompt w)).
Proof.
  pose proof (attempt_spec service prompt w) as H. unfold advances.
  destruct (attempt service prompt w) as [[rewritten|] w']; cbn [snd].
  - destruct H as (_ & _ & _ & _ & Hl & Hc & Hr & Hs & _ & Hm).
    rewrite Hl, Hc, Hr, Hs, Hm.
    split; [lia|]. split; [lia|]. split; [now apply prefix_app_r|].
    now split.
  - destruct H as (_ & Hl & Hc & Hr & Hs & _ & Hm).
    rewrite Hl, Hc, Hr, Hs, Hm.
    split; [lia|]. split; [lia|]. split; [now apply prefix_app_r|].
    now split.
Qed.

Lemma forward_call_openai_for (delays : list Z) (prompt : text) :
  forward (call_openai_for service delays prompt).
Proof.
  induction delays as [|delay delays IH]; cbn [call_openai_for].
  - apply forward_raise.
  - apply forward_bind.
    + destruct (delay =? 0)%Z; [apply forward_ret|apply forward_sleep].
    + intros [] w r w' Hrun.
      pose proof (attempt_advances prompt w) as Hatt.
      destruct (attempt service prompt w) as [[rewritten|] w1];
        cbn [snd] in Hatt.
      * now injection Hrun as <- <-.
      * apply IH in Hrun. now apply (advances_trans w w1 w').
Qed.

Lemma forward_random_choice (seq : list text) :
  forward (random_choice random_index seq).
Proof.
  intros w r w'. unfold random_choice.
  destruct seq; intros [= <- <-]; [apply advances_refl|].
  unfold advances. cbn. repeat split; try reflexivity. lia.
Qed.

Lemma forward_rewrite (b64_text : json) :
  forward (rewrite_base64_note service random_index b64_text).
Proof.
  unfold rewrite_base64_note.
  destruct (b64decode_utf8 b64_text); [|apply forward_ret].
  apply forward_bind; [apply forward_random_choice|]. intros style.
  apply forward_bind; [apply forward_call_openai_for|]. intros new_text.
  destruct (Codec.encode new_text); [apply forward_ret|apply forward_raise].
Qed.

Lemma forward_process_pf (pf : json) (count : nat) :
  forward (process_pf service random_index pf count).
Proof.
  unfold process_pf.
  apply forward_bind; [apply forward_lift|]. intros [|].
  - apply forward_bind; [apply forward_lift|]. intros original.
    apply forward_bind; [apply forward_rewrite|]. intros rewritten.
    apply forward_bind; [apply forward_lift|]. intros pf'.
    apply forward_ret.
  - apply forward_ret.
Qed.

Lemma forward_process_resource_for (pf_list : list json) (count : nat) :
  forward (process_resource_for service random_index pf_list count).
Proof.
  revert count. induction pf_list as [|pf pf_list IH]; intros count;
    cbn [process_resource_for].
  - apply forward_ret.
  - apply forward_bind; [apply forward_process_pf|]. intros r.
    apply forward_bind; [apply IH|]. intros r'. apply forward_ret.
Qed.

Lemma forward_process_resource (resource : json) :
  forward (process_resource service random_index resource).
Proof.
  unfold process_resource.
  apply forward_bind; [apply forward_lift|]. intros has_pf.
  destruct (negb has_pf); [apply forward_ret|].
  apply forward_bind; [apply forward_lift|]. intros pf_list.
  apply forward_bind; [apply forward_lift|]. intros pfs.
  apply forward_bind; [apply forward_process_resource_for|]. intros r.
  destruct resource; apply forward_ret.
Qed.

Lemma forward_process_entry (entry : json) (rewritten_count : nat) :
  forward (process_entry service random_index entry rewritten_count).
Proof.
  unfold process_entry.
  apply forward_bind; [apply forward_lift|]. intros resource.
  destruct (py_truthy resource); [|apply forward_ret].
  apply forward_bind; [apply forward_process_resource|]. intros r.
  destruct entry; apply forward_ret.
Qed.

Lemma forward_process_file_for (entries : list json) (rewritten_count : nat) :
  forward (process_file_for service random_index entries rewritten_count).
Proof.
  revert rewritten_count.
  induction entries as [|entry entries IH]; intros rewritten_count;
    cbn [process_file_for].
  - apply forward_ret.
  - apply forward_bind; [apply forward_process_entry|]. intros r.
    apply forward_bind; [apply IH|]. intros r'. apply forward_ret.
Qed.

Lemma forward_process_data (data : json) :
  forward (process_data service random_index data).
Proof.
  unfold process_data.
  apply forward_bind; [apply forward_lift|]. intros [|].
  - apply forward_bind; [apply forward_lift|]. intros entry_list.
    apply forward_bind; [apply forward_lift|]. intros entries.
    apply forward_bind; [apply forward_process_file_for|]. intros r.
    destruct data; apply forward_ret.
  - apply forward_ret.
Qed.

Lemma forward_process_file (f : file) :
  forward (process_file service random_index f).
Proof.
  unfold process_file.
  apply forward_bind.
  { unfold json_load. destruct (file_json f);
      [apply forward_ret|apply forward_raise]. }
  intros data.
  apply forward_bind; [apply forward_process_data|]. intros r.
  intros w r0 w'. unfold write_output.
  destruct (dumpable (fst r)); intros [= <- <-]; unfold advances; cbn;
    repeat split; try reflexivity.
  now apply prefix_app_r.
Qed.

Lemma forward_main (files : list file) :
  forward (main service random_index files).
Proof.
  induction files as [|f files IH]; cbn [main].
  - apply forward_ret.
  - apply forward_bind; [apply forward_process_file|]. intros [].
    apply forward_bind; [apply forward_sleep|]. intros []. exact IH.
Qed.

End ForwardFacts.

(** X14. However a run of [main] ends, it only appended: the log file it
    leaves starts with the log it found (opened in append mode, never
    truncated), and the same holds for the sleeps and the printed
    summaries; the counts of service calls and of style draws did not go
    back. *)
Theorem main_only_appends
    (service : nat -> text -> Pipeline.svc_outcome)
    (random_index : nat -> nat)
    (files : list Pipeline.file) (w : Pipeline.world) :
  Observations.advances w
    (snd (Pipeline.main service random_index files w)).
Proof.
  destruct (Pipeline.main service random_index files w) as [r w'] eqn:Hrun.
  exact (forward_main service random_index files w r w' Hrun).
Qed.

(** * More about the codec *)

Section LenientBase64.
Import Codec Observations.

Lemma a2b_loop_skip (c : byte) (rest : bytes) (st : a2b_state) :
  base64_char c = false -> a2b_loop (c :: rest) st = a2b_loop rest st.
Proof.
  unfold base64_char. intros H. apply orb_false_iff in H as [Hpad Halpha].
  cbn [a2b_loop]. rewrite Hpad. now destruct (a2b c).
Qed.

(** What the decoder does with one character: it stops with a result, or
    goes on with the rest of the input in a new state. *)
Lemma a2b_loop_step (c : byte) (st : a2b_state) :
  exists o : option bytes + a2b_state,
    forall rest,
      a2b_loop (c :: rest) st
      = match o with
        | inl r => r
        | inr st' => a2b_loop rest st'
        end.
Proof.
  cbn [a2b_loop]. destruct (Byte.eqb c BASE64_PAD).
  - destruct ((2 <=? quad_pos st) && (4 <=? quad_pos st + (pads st + 1))).
    + now exists (inl (Some (bin_data st))).
    + destruct (2 <=? quad_pos st); eexists (inr _); intros rest; reflexivity.
  - destruct (a2b c) as [v|]; [|eexists (inr _); intros rest; reflexivity].
    destruct (quad_pos st) as [|[[p|p|]|[p|p|]|]];
      eexists (inr _); intros rest; reflexivity.
Qed.

Lemma a2b_loop_filter (ascii_data : bytes) (st : a2b_state) :
  a2b_loop (List.filter base64_char ascii_data) st = a2b_loop ascii_data st.
Proof.
  revert st. induction ascii_data as [|c rest IH]; intros st; [reflexivity|].
  cbn [List.filter]. destruct (base64_char c) eqn:Hc.
  - destruct (a2b_loop_step c st) as [[r|st'] Hstep]; rewrite !Hstep;
      [reflexivity|apply IH].
  - now rewrite a2b_loop_skip, IH.
Qed.

End LenientBase64.

(** X15. The base64 decoder of [rewrite_base64_note] is the lenient one:
    characters that are neither in the alphabet nor [=] (line breaks,
    spaces, any other byte) are skipped, so a token decodes to what it
    decodes to with those characters removed. *)
Theorem base64_decoder_skips_other_characters (ascii_data : bytes) :
  Codec.a2b_base64 (List.filter Observations.base64_char ascii_data)
  = Codec.a2b_base64 ascii_data.
Proof. apply a2b_loop_filter. Qed.


(** X16. A note that [rewrite_base64_note] decodes is representable text
    (no surrogate, nothing above U+10FFFF), and encoding it again gives a
    token that decodes to the same note: the strict UTF-8 decoder only
    accepts bytes that are the encoding of the text it returns. *)
Theorem decoded_note_is_representable (token decoded : text) :
  Codec.decode token = Some decoded ->
  Codec.representable decoded /\
  exists token',
    Codec.encode decoded = Some token' /\
    Codec.decode token' = Some decoded.
Proof.
  unfold Codec.decode at 1. intros Hdec.
  destruct (Codec.ascii_encode token) as [ascii_data|]; [|discriminate].
  destruct (Codec.a2b_base64 ascii_data) as [raw|]; [|discriminate].
  destruct (utf8_encode_decode_upto (length raw) raw decoded
              ltac:(reflexivity) Hdec) as [_ Hrep].
  split; [exact Hrep|].
  destruct (encode_representable decoded Hrep) as [token' Henc].
  exists token'. split; [exact Henc|]. now apply decode_encode.
Qed.

Lemma decoded_note_is_representable_witness :
  Codec.representable (str "Hello world") /\
  exists token',
    Codec.encode (str "Hello world") = Some token' /\
    Codec.decode token' = Some (str "Hello world").
Proof.
  apply (decoded_note_is_representable (str "SGVs bG8g d29y bGQ=") (str "Hello world")).
  vm_compute. reflexivity.
Defined.

(** X17. The prompt determines what it was built from: two prompts built
    with styles of [CLINICIAN_STYLES] are equal only if the styles and the
    notes are, so each audit block identifies the note that was sent. *)
Theorem build_prompt_injective
    (original_text1 original_text2 profile1 profile2 : text) :
  In profile1 Pipeline.CLINICIAN_STYLES ->
  In profile2 Pipeline.CLINICIAN_STYLES ->
  Pipeline.build_prompt original_text1 profile1
    = Pipeline.build_prompt original_text2 profile2 ->
  profile1 = profile2 /\ original_text1 = original_text2.
Proof.
  intros H1 H2 H. unfold Pipeline.build_prompt in H.
  do 4 apply List.app_inv_head in H.
  assert (Hp : profile1 = profile2).
  { cbn [Pipeline.CLINICIAN_STYLES In] in H1, H2.
    destruct H1 as [<-|[<-|[<-|[<-|[<-|[]]]]]];
      destruct H2 as [<-|[<-|[<-|[<-|[<-|[]]]]]];
      try reflexivity; vm_compute in H; discriminate H. }
  subst profile2. split; [reflexivity|].
  do 9 apply List.app_inv_head in H.
  now apply List.app_inv_tail in H.
Qed.

Lemma build_prompt_injective_witness :
  str "Short, blunt clinician with lots of abbreviations and light typos."
  = str "Short, blunt clinician with lots of abbreviations and light typos."
  /\ str "note" = str "note".
Proof.
  apply (build_prompt_injective (str "note") (str "note")
           (str "Short, blunt clinician with lots of abbreviations and light typos.")
           (str "Short, blunt clinician with lots of abbreviations and light typos.")).
  - left. reflexivity.
  - left. reflexivity.
  - reflexivity.
Defined.
